(** * Hotel reservation system: models, managers and persistence

    A shallow embedding of [reservation_system/models.py],
    [reservation_system/persistence.py] and
    [reservation_system/managers.py], followed by the properties of the
    reservation consistency logic.

    Conventions of the embedding.
    - Python values that reach the modelled code are [pyval]: [None],
      integers, strings and the float infinity (what [json.load] yields
      for [Infinity] or [1e999]).  Lists, nested objects, booleans and
      the other floats are outside the universe.
    - A [str] is a [string] whose characters are read as the code points
      0..255.
    - A raised exception is the [Raise] branch of [result]; an operation
      of a manager returns the manager after the call together with its
      outcome, so the state left behind by a raising call is visible.
    - [uuid4] is not computed: the fresh identifier is an argument of
      the creating operations.
    - Console output ([print]) is not part of the state.
    - [save_json] is assumed to succeed (no [OSError]), and a file that
      is read holds UTF-8 text (see [file]).
    - The builtins [int], [str.strip] and [date.fromisoformat] are those
      of CPython 3.11.  The interpreter's limit on the number of digits
      of an integer that is converted from or to text (4300 unless
      configured otherwise) is not modelled. *)

From Stdlib Require Import ZArith List String Ascii Bool Lia.
Import ListNotations.

Local Open Scope string_scope.
Local Open Scope list_scope.
Local Open Scope Z_scope.

(* ================================================================== *)
(** ** Python values, exceptions and builtins                          *)
(* ================================================================== *)

Inductive exn : Type :=
| ValueError
| KeyError
| TypeError
| OverflowError
| AttributeError.

Inductive result (A : Type) : Type :=
| Ok (a : A)
| Raise (e : exn).

Arguments Ok {A} a.
Arguments Raise {A} e.

Definition bind {A B : Type} (r : result A) (k : A -> result B) : result B :=
  match r with
  | Ok a => k a
  | Raise e => Raise e
  end.

Notation "'let?' x ':=' r 'in' k" := (bind r (fun x => k))
  (at level 10, x name, r at level 100, k at level 200).

Inductive pyval : Type :=
| PNone
| PInt (z : Z)
| PStr (s : string)
| PInf.

(** Python's [==] on the value universe. *)
Definition pyval_eqb (a b : pyval) : bool :=
  match a, b with
  | PNone, PNone => true
  | PInt x, PInt y => Z.eqb x y
  | PStr x, PStr y => String.eqb x y
  | PInf, PInf => true
  | _, _ => false
  end.

(** Truth value of an object ([not x] is its negation). *)
Definition truthy (v : pyval) : bool :=
  match v with
  | PNone => false
  | PInt z => negb (Z.eqb z 0)
  | PStr s => negb (String.eqb s "")
  | PInf => true
  end.

(** [a <= b]; ordering a string or [None] against a number is a
    [TypeError]. *)
Definition py_le (a b : pyval) : result bool :=
  match a, b with
  | PInt x, PInt y => Ok (Z.leb x y)
  | PInt _, PInf => Ok true
  | PInf, PInt _ => Ok false
  | PInf, PInf => Ok true
  | PStr x, PStr y => Ok (String.leb x y)
  | _, _ => Raise TypeError
  end.

(** [a + k] for an integer literal [k] (so also [a - 1]). *)
Definition py_add (a : pyval) (k : Z) : result pyval :=
  match a with
  | PInt x => Ok (PInt (x + k))
  | PInf => Ok PInf
  | _ => Raise TypeError
  end.

Definition code (c : ascii) : Z := Z.of_nat (nat_of_ascii c).

(** [str.isspace] on one character. *)
Definition isspace (c : ascii) : bool :=
  let n := code c in
  ((9 <=? n) && (n <=? 13)) || ((28 <=? n) && (n <=? 32))
  || (n =? 133) || (n =? 160).

Fixpoint lstrip (s : string) : string :=
  match s with
  | EmptyString => EmptyString
  | String c s' => if isspace c then lstrip s' else s
  end.

Fixpoint rstrip (s : string) : string :=
  match s with
  | EmptyString => EmptyString
  | String c s' =>
      match rstrip s' with
      | EmptyString => if isspace c then EmptyString else String c EmptyString
      | r => String c r
      end
  end.

(** [s.strip()] *)
Definition strip (s : string) : string := rstrip (lstrip s).

(** [c in s] for a one-character [c]. *)
Fixpoint contains (c : ascii) (s : string) : bool :=
  match s with
  | EmptyString => false
  | String x s' => Ascii.eqb x c || contains c s'
  end.

(** [s.split(sep)] for a one-character separator: never empty. *)
Fixpoint split (sep : ascii) (s : string) : list string :=
  match s with
  | EmptyString => [EmptyString]
  | String c s' =>
      if Ascii.eqb c sep then EmptyString :: split sep s'
      else match split sep s' with
           | w :: ws => String c w :: ws
           | [] => [String c EmptyString]
           end
  end.

Definition digit_of (c : ascii) : option Z :=
  let n := code c in
  if (48 <=? n) && (n <=? 57) then Some (n - 48) else None.

(** Decimal digits with single underscores between digits, as [int]
    reads them. *)
Fixpoint digits_val (s : string) (acc : Z) (after_digit : bool) : option Z :=
  match s with
  | EmptyString => if after_digit then Some acc else None
  | String c s' =>
      match digit_of c with
      | Some d => digits_val s' (10 * acc + d) true
      | None =>
          if Ascii.eqb c "_" && after_digit then digits_val s' acc false
          else None
      end
  end.

(** The white space [int] skips at both ends of its argument.  It is
    narrower than [str.isspace]: the separators 28..31 are white space
    for [strip] and are refused by [int]. *)
Definition int_isspace (c : ascii) : bool :=
  let n := code c in
  ((9 <=? n) && (n <=? 13)) || (n =? 32) || (n =? 133) || (n =? 160).

Fixpoint int_lstrip (s : string) : string :=
  match s with
  | EmptyString => EmptyString
  | String c s' => if int_isspace c then int_lstrip s' else s
  end.

Fixpoint int_rstrip (s : string) : string :=
  match s with
  | EmptyString => EmptyString
  | String c s' =>
      match int_rstrip s' with
      | EmptyString =>
          if int_isspace c then EmptyString else String c EmptyString
      | r => String c r
      end
  end.

(** [int(s)] for a string, [None] standing for [ValueError]. *)
Definition int_of_str (s : string) : option Z :=
  match int_rstrip (int_lstrip s) with
  | String "-" s' => option_map Z.opp (digits_val s' 0 false)
  | String "+" s' => digits_val s' 0 false
  | s' => digits_val s' 0 false
  end.

(** The builtin [int] on the value universe. *)
Definition py_int (v : pyval) : result Z :=
  match v with
  | PInt z => Ok z
  | PStr s =>
      match int_of_str s with
      | Some z => Ok z
      | None => Raise ValueError
      end
  | PNone => Raise TypeError
  | PInf => Raise OverflowError
  end.

(* ------------------------------------------------------------------ *)
(** *** Dictionaries                                                    *)
(* ------------------------------------------------------------------ *)

(** A JSON object / keyword arguments: field name to value. *)
Definition record : Type := list (string * pyval).

Fixpoint lookup (k : string) (d : record) : option pyval :=
  match d with
  | [] => None
  | (k', v) :: d' => if String.eqb k k' then Some v else lookup k d'
  end.

(** [d[k]] *)
Definition getitem (k : string) (d : record) : result pyval :=
  match lookup k d with
  | Some v => Ok v
  | None => Raise KeyError
  end.

(** [d.get(k, default)] *)
Definition get_default (k : string) (default : pyval) (d : record) : pyval :=
  match lookup k d with
  | Some v => v
  | None => default
  end.

(** The keywords of a call can be collected in [**kwargs] of a
    function with the positional parameters [params]: they are
    pairwise distinct and none of them names a parameter that the call
    has already filled.  A call for which this fails raises
    [TypeError] before the body of the function runs. *)
Fixpoint distinct_keys (d : record) : bool :=
  match d with
  | [] => true
  | (k, _) :: d' =>
      match lookup k d' with
      | Some _ => false
      | None => distinct_keys d'
      end
  end.

Definition binds_kwargs (params : list string) (kwargs : record) : bool :=
  forallb (fun kv => negb (existsb (String.eqb (fst kv)) params)) kwargs
  && distinct_keys kwargs.

(** [required - data.keys()] is non-empty. *)
Definition missing (required : list string) (d : record) : bool :=
  existsb (fun k => match lookup k d with Some _ => false | None => true end)
          required.

(** The insertion-ordered [dict] a manager keeps, from identifier to
    entity. *)
Definition dict (V : Type) : Type := list (pyval * V).

Section Dict.
Context {V : Type}.

Fixpoint dict_get (k : pyval) (d : dict V) : option V :=
  match d with
  | [] => None
  | (k', v) :: d' => if pyval_eqb k k' then Some v else dict_get k d'
  end.

(** [d[k] = v]: an existing key keeps its place. *)
Fixpoint dict_set (k : pyval) (v : V) (d : dict V) : dict V :=
  match d with
  | [] => [(k, v)]
  | (k', v') :: d' =>
      if pyval_eqb k k' then (k', v) :: d'
      else (k', v') :: dict_set k v d'
  end.

(** [del d[k]] for a key that is present. *)
Fixpoint dict_del (k : pyval) (d : dict V) : dict V :=
  match d with
  | [] => []
  | (k', v') :: d' =>
      if pyval_eqb k k' then d' else (k', v') :: dict_del k d'
  end.

Definition dict_values (d : dict V) : list V := map snd d.
Definition dict_keys (d : dict V) : list pyval := map fst d.
End Dict.

(* ================================================================== *)
(** ** persistence.py                                                  *)
(* ================================================================== *)

(** An element of the top-level JSON list: an object, or anything
    else. *)
Inductive json : Type :=
| JObject (d : record)
| JOther (v : pyval).

(** What is found at a file path, among the cases [load_json]
    answers:
    - [Missing]: [os.path.exists] is false;
    - [Unopenable]: [open] or the read fails with an [OSError];
    - [NotJson]: the file is UTF-8 text that [json.load] refuses with a
      [JSONDecodeError];
    - [NotAList]: JSON whose top-level value is not a list;
    - [JsonList]: a JSON list.
    A file whose bytes are not UTF-8 text is none of these: reading it
    raises [UnicodeDecodeError], which is a [ValueError] and neither of
    the two exceptions [load_json] catches, so it leaves [load_json] and
    the constructor of the manager.  Such files are outside [file]. *)
Inductive file : Type :=
| Missing
| Unopenable
| NotJson
| NotAList
| JsonList (data : list json).

Definition load_json (f : file) : list json :=
  match f with
  | Missing => []
  | Unopenable => []
  | NotJson => []
  | NotAList => []
  | JsonList data => data
  end.

Definition save_json (data : list record) : file :=
  JsonList (map JObject data).

(** The [except (ValueError, KeyError, TypeError)] clause of the
    loaders. *)
Definition caught (e : exn) : bool :=
  match e with
  | ValueError | KeyError | TypeError => true
  | OverflowError | AttributeError => false
  end.

(* ================================================================== *)
(** ** models.py                                                       *)
(* ================================================================== *)

(** [isinstance(v, str) and v.strip()] is truthy. *)
Definition nonblank_str (v : pyval) : bool :=
  match v with
  | PStr s => negb (String.eqb (strip s) "")
  | _ => false
  end.

Module Hotel.

Record t : Type := mk {
  name : pyval;
  address : pyval;
  total_rooms : pyval;
  rooms_available : pyval;
  hotel_id : pyval
}.

Definition validate (self : t) : result unit :=
  if negb (nonblank_str (name self)) then Raise ValueError
  else if negb (nonblank_str (address self)) then Raise ValueError
  else
    match total_rooms self with
    | PInt tr =>
        if tr <=? 0 then Raise ValueError
        else
          match rooms_available self with
          | PInt ra =>
              if ra <? 0 then Raise ValueError
              else if ra >? tr then Raise ValueError
              else Ok tt
          | _ => Raise ValueError
          end
    | _ => Raise ValueError
    end.

Definition __post_init__ (self : t) : result t :=
  let self :=
    if pyval_eqb (rooms_available self) (PInt (-1))
    then mk (name self) (address self) (total_rooms self)
            (total_rooms self) (hotel_id self)
    else self in
  let? _ := validate self in Ok self.

(** The generated [__init__] followed by [__post_init__]. *)
Definition new (name address total_rooms rooms_available hotel_id : pyval)
  : result t :=
  __post_init__ (mk name address total_rooms rooms_available hotel_id).

Definition to_dict (self : t) : record :=
  [ ("name", name self);
    ("address", address self);
    ("total_rooms", total_rooms self);
    ("rooms_available", rooms_available self);
    ("hotel_id", hotel_id self) ].

Definition from_dict (data : json) : result t :=
  match data with
  | JOther _ => Raise AttributeError
  | JObject data =>
      if missing ["name"; "address"; "total_rooms"; "hotel_id"] data
      then Raise ValueError
      else
        let? hid := getitem "hotel_id" data in
        let? nm := getitem "name" data in
        let? ad := getitem "address" data in
        let? tr0 := getitem "total_rooms" data in
        let? tr := py_int tr0 in
        let? dflt := getitem "total_rooms" data in
        let? ra := py_int (get_default "rooms_available" dflt data) in
        new nm ad (PInt tr) (PInt ra) hid
  end.

(** [setattr(hotel, key, value)] for the four fields [modify_hotel]
    allows. *)
Definition setattr (self : t) (key : string) (value : pyval) : t :=
  if String.eqb key "name" then
    mk value (address self) (total_rooms self) (rooms_available self)
       (hotel_id self)
  else if String.eqb key "address" then
    mk (name self) value (total_rooms self) (rooms_available self)
       (hotel_id self)
  else if String.eqb key "total_rooms" then
    mk (name self) (address self) value (rooms_available self)
       (hotel_id self)
  else if String.eqb key "rooms_available" then
    mk (name self) (address self) (total_rooms self) value
       (hotel_id self)
  else self.

End Hotel.

Module Customer.

Record t : Type := mk {
  name : pyval;
  email : pyval;
  customer_id : pyval
}.

(** The e-mail test of [validate]:
    [isinstance(email, str) and "@" in email
     and "." in email.split("@")[-1]]. *)
Definition email_ok (email : pyval) : bool :=
  match email with
  | PStr e => contains "@" e && contains "." (last (split "@" e) "")
  | _ => false
  end.

Definition validate (self : t) : result unit :=
  if negb (nonblank_str (name self)) then Raise ValueError
  else if negb (email_ok (email self)) then Raise ValueError
  else Ok tt.

Definition __post_init__ (self : t) : result t :=
  let? _ := validate self in Ok self.

Definition new (name email customer_id : pyval) : result t :=
  __post_init__ (mk name email customer_id).

Definition to_dict (self : t) : record :=
  [ ("name", name self);
    ("email", email self);
    ("customer_id", customer_id self) ].

Definition from_dict (data : json) : result t :=
  match data with
  | JOther _ => Raise AttributeError
  | JObject data =>
      if missing ["name"; "email"; "customer_id"] data
      then Raise ValueError
      else
        let? cid := getitem "customer_id" data in
        let? nm := getitem "name" data in
        let? em := getitem "email" data in
        new nm em cid
  end.

(** [setattr(customer, key, value)] for the two fields
    [modify_customer] allows. *)
Definition setattr (self : t) (key : string) (value : pyval) : t :=
  if String.eqb key "name" then mk value (email self) (customer_id self)
  else if String.eqb key "email" then mk (name self) value (customer_id self)
  else self.

End Customer.

(** A calendar date, as [datetime.date] holds it. *)
Record date : Type := mkdate { year : Z; month : Z; day : Z }.

Definition is_leap (y : Z) : bool :=
  ((y mod 4 =? 0) && negb (y mod 100 =? 0)) || (y mod 400 =? 0).

Definition days_in_month (y m : Z) : Z :=
  if m =? 2 then (if is_leap y then 29 else 28)
  else if (m =? 4) || (m =? 6) || (m =? 9) || (m =? 11) then 30
  else 31.

(** [date.fromisoformat] follows the interpreter's date parser
    (CPython 3.11, [Modules/_datetimemodule.c]); the definitions below
    keep its names and its integer arithmetic, [/] and [%] truncating
    towards zero as in C. *)

(** Length of the UTF-8 encoding of [s], which is what the parser
    measures: one byte below code point 128, two from there to 255. *)
Fixpoint utf8_len (s : string) : Z :=
  match s with
  | EmptyString => 0
  | String c s' => (if code c <? 128 then 1 else 2) + utf8_len s'
  end.

(** Exactly [n] decimal digits at the head of [p]; the end of the
    string is not a digit. *)
Fixpoint parse_digits (n : nat) (p : list ascii) (acc : Z)
  : option (Z * list ascii) :=
  match n with
  | O => Some (acc, p)
  | S n' =>
      match p with
      | c :: p' =>
          match digit_of c with
          | Some d => parse_digits n' p' (10 * acc + d)
          | None => None
          end
      | [] => None
      end
  end.

Definition _days_before_month : list Z :=
  [0; 0; 31; 59; 90; 120; 151; 181; 212; 243; 273; 304; 334].

Definition days_before_year (y : Z) : Z :=
  let y := y - 1 in
  y * 365 + Z.quot y 4 - Z.quot y 100 + Z.quot y 400.

Definition days_before_month (y m : Z) : Z :=
  nth (Z.to_nat m) _days_before_month 0
  + (if (m >? 2) && is_leap y then 1 else 0).

Definition ymd_to_ord (y m d : Z) : Z :=
  days_before_year y + days_before_month y m + d.

(** 0 for a Monday ... 6 for a Sunday. *)
Definition weekday (y m d : Z) : Z := Z.rem (ymd_to_ord y m d + 6) 7.

(** Ordinal of the Monday that starts ISO week 1 of [y]. *)
Definition iso_week1_monday (y : Z) : Z :=
  let first_day := ymd_to_ord y 1 1 in
  let first_weekday := Z.rem (first_day + 6) 7 in
  let week1_monday := first_day - first_weekday in
  if first_weekday >? 3 then week1_monday + 7 else week1_monday.

(** Ordinal to year, month, day, 1 January of year 1 being day 1. *)
Definition ord_to_ymd (ordinal : Z) : Z * Z * Z :=
  let o := ordinal - 1 in
  let n400 := Z.quot o 146097 in
  let n := Z.rem o 146097 in
  let n100 := Z.quot n 36524 in
  let n := Z.rem n 36524 in
  let n4 := Z.quot n 1461 in
  let n := Z.rem n 1461 in
  let n1 := Z.quot n 365 in
  let n := Z.rem n 365 in
  let y := n400 * 400 + 1 + (n100 * 100 + n4 * 4 + n1) in
  if (n1 =? 4) || (n100 =? 4) then (y - 1, 12, 31)
  else
    let leapyear := (n1 =? 3) && (negb (n4 =? 24) || (n100 =? 3)) in
    let m := Z.shiftr (n + 50) 5 in
    let preceding :=
      nth (Z.to_nat m) _days_before_month 0
      + (if (m >? 2) && leapyear then 1 else 0) in
    if preceding >? n then
      let m := m - 1 in
      let preceding := preceding - days_in_month y m in
      (y, m, n - preceding + 1)
    else (y, m, n - preceding + 1).

(** ISO year, week and week day to year, month, day.  A week date
    before 1 January of year 1 (ISO year 0) is refused: the
    interpreter answers [ValueError] there. *)
Definition iso_to_ymd (iso_year iso_week iso_day : Z) : option (Z * Z * Z) :=
  let week_ok :=
    if (iso_week <=? 0) || (53 <=? iso_week) then
      (iso_week =? 53)
      && (let first_weekday := weekday iso_year 1 1 in
          (first_weekday =? 3)
          || ((first_weekday =? 2) && is_leap iso_year))
    else true in
  if negb week_ok then None
  else if (iso_day <=? 0) || (8 <=? iso_day) then None
  else
    let day_1 := iso_week1_monday iso_year in
    let day_offset := (iso_week - 1) * 7 + iso_day - 1 in
    if day_1 + day_offset <? 1 then None
    else Some (ord_to_ymd (day_1 + day_offset)).

(** [parse_isoformat_date]: [YYYY-MM-DD], [YYYYMMDD], [YYYY-Www],
    [YYYYWww], [YYYY-Www-D] and [YYYYWwwD].  [len] is the length the
    caller measured; what stands after a complete date is not looked
    at. *)
Definition parse_isoformat_date (p : list ascii) (len : Z)
  : option (Z * Z * Z) :=
  match parse_digits 4 p 0 with
  | None => None
  | Some (y, p) =>
      let uses_separator :=
        match p with c :: _ => Ascii.eqb c "-" | [] => false end in
      let p := if uses_separator then tl p else p in
      match p with
      | "W"%char :: p =>
          match parse_digits 2 p 0 with
          | None => None
          | Some (iso_week, p) =>
              let consumed := if uses_separator then 8 else 7 in
              if consumed <? len then
                match (if uses_separator
                       then match p with
                            | "-"%char :: p' => Some p'
                            | _ => None
                            end
                       else Some p) with
                | None => None
                | Some p =>
                    match parse_digits 1 p 0 with
                    | None => None
                    | Some (iso_day, _) => iso_to_ymd y iso_week iso_day
                    end
                end
              else iso_to_ymd y iso_week 1
          end
      | _ =>
          match parse_digits 2 p 0 with
          | None => None
          | Some (m, p) =>
              match (if uses_separator
                     then match p with
                          | "-"%char :: p' => Some p'
                          | _ => None
                          end
                     else Some p) with
              | None => None
              | Some p =>
                  match parse_digits 2 p 0 with
                  | None => None
                  | Some (d, _) => Some (y, m, d)
                  end
              end
          end
      end
  end.

(** The range check of the [date] constructor. *)
Definition check_date_args (y m d : Z) : bool :=
  (1 <=? y) && (y <=? 9999) && (1 <=? m) && (m <=? 12)
  && (1 <=? d) && (d <=? days_in_month y m).

(** [date.fromisoformat] on a string; [None] stands for [ValueError]. *)
Definition parse_iso (s : string) : option date :=
  let len := utf8_len s in
  if (len =? 7) || (len =? 8) || (len =? 10) then
    match parse_isoformat_date (list_ascii_of_string s) len with
    | Some (y, m, d) =>
        if check_date_args y m d then Some (mkdate y m d) else None
    | None => None
    end
  else None.

(** [date.fromisoformat(v)]: a [TypeError] unless [v] is a string. *)
Definition fromisoformat (v : pyval) : result date :=
  match v with
  | PStr s =>
      match parse_iso s with
      | Some d => Ok d
      | None => Raise ValueError
      end
  | _ => Raise TypeError
  end.

(** [a <= b] on dates. *)
Definition date_le (a b : date) : bool :=
  (year a <? year b)
  || ((year a =? year b)
      && ((month a <? month b)
          || ((month a =? month b) && (day a <=? day b)))).

Module Reservation.

Record t : Type := mk {
  customer_id : pyval;
  hotel_id : pyval;
  check_in : pyval;
  check_out : pyval;
  reservation_id : pyval
}.

(** The [try] block of [validate]: both dates parse, and any
    [ValueError] or [TypeError] is raised again as [ValueError]. *)
Definition parse_dates (self : t) : result (date * date) :=
  match (let? ci := fromisoformat (check_in self) in
         let? co := fromisoformat (check_out self) in
         Ok (ci, co)) with
  | Ok p => Ok p
  | Raise ValueError => Raise ValueError
  | Raise TypeError => Raise ValueError
  | Raise e => Raise e
  end.

Definition validate (self : t) : result unit :=
  if negb (truthy (customer_id self)) then Raise ValueError
  else if negb (truthy (hotel_id self)) then Raise ValueError
  else
    let? p := parse_dates self in
    if date_le (snd p) (fst p) then Raise ValueError else Ok tt.

Definition __post_init__ (self : t) : result t :=
  let? _ := validate self in Ok self.

Definition new (customer_id hotel_id check_in check_out reservation_id : pyval)
  : result t :=
  __post_init__ (mk customer_id hotel_id check_in check_out reservation_id).

Definition to_dict (self : t) : record :=
  [ ("customer_id", customer_id self);
    ("hotel_id", hotel_id self);
    ("check_in", check_in self);
    ("check_out", check_out self);
    ("reservation_id", reservation_id self) ].

Definition from_dict (data : json) : result t :=
  match data with
  | JOther _ => Raise AttributeError
  | JObject data =>
      if missing ["customer_id"; "hotel_id"; "check_in"; "check_out";
                  "reservation_id"] data
      then Raise ValueError
      else
        let? rid := getitem "reservation_id" data in
        let? cid := getitem "customer_id" data in
        let? hid := getitem "hotel_id" data in
        let? ci := getitem "check_in" data in
        let? co := getitem "check_out" data in
        new cid hid ci co rid
  end.

End Reservation.

(* ================================================================== *)
(** ** managers.py                                                     *)
(* ================================================================== *)

(** The loop shared by the three [_load] methods, over the entity's
    [from_dict] and its identifier field: a record whose parsing raises
    one of the caught exceptions is skipped, any other exception leaves
    the loop with what was loaded so far. *)
Section Loader.
Context {V : Type}.
Variable from_dict : json -> result V.
Variable key : V -> pyval.

Fixpoint load_records (recs : list json) (d : dict V)
  : dict V * result unit :=
  match recs with
  | [] => (d, Ok tt)
  | r :: rest =>
      match from_dict r with
      | Ok entity => load_records rest (dict_set (key entity) entity d)
      | Raise e => if caught e then load_records rest d else (d, Raise e)
      end
  end.

End Loader.

Module HotelManager.

(** [store] is what lies at [self.filepath]; [_hotels] is the
    in-memory dictionary. *)
Record t : Type := mk {
  store : file;
  _hotels : dict Hotel.t
}.

Definition _load (self : t) : t * result unit :=
  let (d, r) := load_records Hotel.from_dict Hotel.hotel_id
                 (load_json (store self)) [] in
  (mk (store self) d, r).

Definition _save (self : t) : t :=
  mk (save_json (map Hotel.to_dict (dict_values (_hotels self))))
     (_hotels self).

Definition __init__ (f : file) : result t :=
  let (self, r) := _load (mk f []) in
  let? _ := r in Ok self.

Definition create_hotel (self : t) (name address total_rooms : pyval)
  (new_id : string) : t * result Hotel.t :=
  match Hotel.new name address total_rooms (PInt (-1)) (PStr new_id) with
  | Raise e => (self, Raise e)
  | Ok hotel =>
      (_save (mk (store self)
                 (dict_set (Hotel.hotel_id hotel) hotel (_hotels self))),
       Ok hotel)
  end.

Definition get_hotel (self : t) (hotel_id : pyval) : option Hotel.t :=
  dict_get hotel_id (_hotels self).

Definition delete_hotel (self : t) (hotel_id : pyval) : t * bool :=
  match dict_get hotel_id (_hotels self) with
  | None => (self, false)
  | Some _ =>
      (_save (mk (store self) (dict_del hotel_id (_hotels self))), true)
  end.

Definition allowed (key : string) : bool :=
  existsb (String.eqb key)
          ["name"; "address"; "total_rooms"; "rooms_available"].

(** The [for key, value in kwargs.items()] loop on the hotel object. *)
Definition apply_updates (hotel : Hotel.t) (kwargs : record) : Hotel.t :=
  fold_left
    (fun h kv => if allowed (fst kv) then Hotel.setattr h (fst kv) (snd kv)
                 else h)
    kwargs hotel.

(** The body of [modify_hotel].  [kwargs] is the dictionary the body
    receives, that is the keywords left once Python has bound [self]
    and [hotel_id]; see [call_modify_hotel] for the call.
    The hotel object is shared with the dictionary, so the updates are
    in [_hotels] before [validate] runs; a [ValueError] is answered by
    [_load] and [None]. *)
Definition modify_hotel (self : t) (hotel_id : pyval) (kwargs : record)
  : t * result (option Hotel.t) :=
  match get_hotel self hotel_id with
  | None => (self, Ok None)
  | Some hotel =>
      let hotel' := apply_updates hotel kwargs in
      let self1 := mk (store self) (dict_set hotel_id hotel' (_hotels self)) in
      match Hotel.validate hotel' with
      | Raise ValueError =>
          let (self2, r) := _load self1 in
          (self2, let? _ := r in Ok None)
      | Raise e => (self1, Raise e)
      | Ok _ => (_save self1, Ok (Some hotel'))
      end
  end.

(** The call [self.modify_hotel(hotel_id, **kwargs)] with the keywords
    the caller wrote.  The signature is [(self, hotel_id, **kwargs)]:
    a keyword [hotel_id] or [self] next to the positional identifier,
    or a keyword given twice, is a [TypeError] of the call, and the body
    does not run. *)
Definition call_modify_hotel (self : t) (hotel_id : pyval) (kwargs : record)
  : t * result (option Hotel.t) :=
  if binds_kwargs ["self"; "hotel_id"] kwargs
  then modify_hotel self hotel_id kwargs
  else (self, Raise TypeError).

Definition with_rooms_available (hotel : Hotel.t) (ra : pyval) : Hotel.t :=
  Hotel.mk (Hotel.name hotel) (Hotel.address hotel) (Hotel.total_rooms hotel)
           ra (Hotel.hotel_id hotel).

Definition reserve_room (self : t) (hotel_id : pyval) : t * result bool :=
  match get_hotel self hotel_id with
  | None => (self, Ok false)
  | Some hotel =>
      match py_le (Hotel.rooms_available hotel) (PInt 0) with
      | Raise e => (self, Raise e)
      | Ok true => (self, Ok false)
      | Ok false =>
          match py_add (Hotel.rooms_available hotel) (-1) with
          | Raise e => (self, Raise e)
          | Ok ra =>
              (_save (mk (store self)
                         (dict_set hotel_id (with_rooms_available hotel ra)
                                   (_hotels self))),
               Ok true)
          end
      end
  end.

Definition cancel_room (self : t) (hotel_id : pyval) : t * result bool :=
  match get_hotel self hotel_id with
  | None => (self, Ok false)
  | Some hotel =>
      match py_le (Hotel.total_rooms hotel) (Hotel.rooms_available hotel) with
      | Raise e => (self, Raise e)
      | Ok true => (self, Ok false)
      | Ok false =>
          match py_add (Hotel.rooms_available hotel) 1 with
          | Raise e => (self, Raise e)
          | Ok ra =>
              (_save (mk (store self)
                         (dict_set hotel_id (with_rooms_available hotel ra)
                                   (_hotels self))),
               Ok true)
          end
      end
  end.

Definition list_hotels (self : t) : list Hotel.t := dict_values (_hotels self).

End HotelManager.

Module CustomerManager.

Record t : Type := mk {
  store : file;
  _customers : dict Customer.t
}.

Definition _load (self : t) : t * result unit :=
  let (d, r) := load_records Customer.from_dict Customer.customer_id
                 (load_json (store self)) [] in
  (mk (store self) d, r).

Definition _save (self : t) : t :=
  mk (save_json (map Customer.to_dict (dict_values (_customers self))))
     (_customers self).

Definition __init__ (f : file) : result t :=
  let (self, r) := _load (mk f []) in
  let? _ := r in Ok self.

Definition create_customer (self : t) (name email : pyval) (new_id : string)
  : t * result Customer.t :=
  match Customer.new name email (PStr new_id) with
  | Raise e => (self, Raise e)
  | Ok customer =>
      (_save (mk (store self)
                 (dict_set (Customer.customer_id customer) customer
                           (_customers self))),
       Ok customer)
  end.

Definition get_customer (self : t) (customer_id : pyval) : option Customer.t :=
  dict_get customer_id (_customers self).

Definition delete_customer (self : t) (customer_id : pyval) : t * bool :=
  match dict_get customer_id (_customers self) with
  | None => (self, false)
  | Some _ =>
      (_save (mk (store self) (dict_del customer_id (_customers self))), true)
  end.

Definition list_customers (self : t) : list Customer.t :=
  dict_values (_customers self).

Definition allowed (key : string) : bool :=
  existsb (String.eqb key) ["name"; "email"].

Definition apply_updates (customer : Customer.t) (kwargs : record)
  : Customer.t :=
  fold_left
    (fun c kv => if allowed (fst kv) then Customer.setattr c (fst kv) (snd kv)
                 else c)
    kwargs customer.

(** The body of [modify_customer]; as for [modify_hotel], [kwargs] is
    the dictionary the body receives. *)
Definition modify_customer (self : t) (customer_id : pyval) (kwargs : record)
  : t * result (option Customer.t) :=
  match get_customer self customer_id with
  | None => (self, Ok None)
  | Some customer =>
      let customer' := apply_updates customer kwargs in
      let self1 :=
        mk (store self) (dict_set customer_id customer' (_customers self)) in
      match Customer.validate customer' with
      | Raise ValueError =>
          let (self2, r) := _load self1 in
          (self2, let? _ := r in Ok None)
      | Raise e => (self1, Raise e)
      | Ok _ => (_save self1, Ok (Some customer'))
      end
  end.

(** The call [self.modify_customer(customer_id, **kwargs)]: a keyword
    that names [self] or [customer_id], or is given twice, is a
    [TypeError] of the call. *)
Definition call_modify_customer (self : t) (customer_id : pyval)
  (kwargs : record) : t * result (option Customer.t) :=
  if binds_kwargs ["self"; "customer_id"] kwargs
  then modify_customer self customer_id kwargs
  else (self, Raise TypeError).

End CustomerManager.

Module ReservationManager.

(** The two other managers are the objects the coordinator was built
    with: what it does to the hotel manager is seen in
    [hotel_manager]. *)
Record t : Type := mk {
  store : file;
  _reservations : dict Reservation.t;
  hotel_manager : option HotelManager.t;
  customer_manager : option CustomerManager.t
}.

Definition _load (self : t) : t * result unit :=
  let (d, r) := load_records Reservation.from_dict Reservation.reservation_id
                 (load_json (store self)) [] in
  (mk (store self) d (hotel_manager self) (customer_manager self), r).

Definition _save (self : t) : t :=
  mk (save_json (map Reservation.to_dict (dict_values (_reservations self))))
     (_reservations self) (hotel_manager self) (customer_manager self).

Definition __init__ (f : file) (hotel_manager : option HotelManager.t)
  (customer_manager : option CustomerManager.t) : result t :=
  let (self, r) := _load (mk f [] hotel_manager customer_manager) in
  let? _ := r in Ok self.

Definition with_hotel_manager (self : t) (hm : HotelManager.t) : t :=
  mk (store self) (_reservations self) (Some hm) (customer_manager self).

(** The first guard of [create_reservation]. *)
Definition customer_known (self : t) (customer_id : pyval) : bool :=
  match customer_manager self with
  | Some cm =>
      match CustomerManager.get_customer cm customer_id with
      | Some _ => true
      | None => false
      end
  | None => true
  end.

(** From the [try] on: build the reservation, release the room on
    [ValueError], store and save otherwise. *)
Definition build_and_store (self : t)
  (customer_id hotel_id check_in check_out : pyval) (new_id : string)
  : t * result (option Reservation.t) :=
  match Reservation.new customer_id hotel_id check_in check_out
                        (PStr new_id) with
  | Raise ValueError =>
      match hotel_manager self with
      | Some hm =>
          let (hm', r) := HotelManager.cancel_room hm hotel_id in
          (with_hotel_manager self hm', let? _ := r in Ok None)
      | None => (self, Ok None)
      end
  | Raise e => (self, Raise e)
  | Ok reservation =>
      (_save (mk (store self)
                 (dict_set (Reservation.reservation_id reservation)
                           reservation (_reservations self))
                 (hotel_manager self) (customer_manager self)),
       Ok (Some reservation))
  end.

Definition create_reservation (self : t)
  (customer_id hotel_id check_in check_out : pyval) (new_id : string)
  : t * result (option Reservation.t) :=
  if negb (customer_known self customer_id) then (self, Ok None)
  else
    match hotel_manager self with
    | Some hm =>
        match HotelManager.get_hotel hm hotel_id with
        | None => (self, Ok None)
        | Some _ =>
            let (hm', r) := HotelManager.reserve_room hm hotel_id in
            let self' := with_hotel_manager self hm' in
            match r with
            | Raise e => (self', Raise e)
            | Ok false => (self', Ok None)
            | Ok true =>
                build_and_store self' customer_id hotel_id check_in check_out
                                new_id
            end
        end
    | None =>
        build_and_store self customer_id hotel_id check_in check_out new_id
    end.

(** [del self._reservations[reservation_id]] and [self._save()]. *)
Definition remove_and_save (self : t) (reservation_id : pyval) : t :=
  _save (mk (store self) (dict_del reservation_id (_reservations self))
            (hotel_manager self) (customer_manager self)).

(** What [cancel_room] returns is not looked at; only an exception
    from it would stop the cancellation. *)
Definition cancel_reservation (self : t) (reservation_id : pyval)
  : t * result bool :=
  match dict_get reservation_id (_reservations self) with
  | None => (self, Ok false)
  | Some reservation =>
      match hotel_manager self with
      | Some hm =>
          let (hm', r) :=
            HotelManager.cancel_room hm (Reservation.hotel_id reservation) in
          match r with
          | Raise e => (with_hotel_manager self hm', Raise e)
          | Ok _ =>
              (remove_and_save (with_hotel_manager self hm') reservation_id,
               Ok true)
          end
      | None => (remove_and_save self reservation_id, Ok true)
      end
  end.

Definition get_reservation (self : t) (reservation_id : pyval)
  : option Reservation.t :=
  dict_get reservation_id (_reservations self).

Definition list_reservations (self : t) : list Reservation.t :=
  dict_values (_reservations self).

End ReservationManager.

(* ================================================================== *)
(** ** Histories of a hotel manager                                    *)
(* ================================================================== *)

(** The calls a client can make on a [HotelManager] that may change
    it. *)
Inductive hotel_op : Type :=
| OpCreate (name address total_rooms : pyval) (new_id : string)
| OpDelete (hotel_id : pyval)
| OpModify (hotel_id : pyval) (kwargs : record)
| OpReserve (hotel_id : pyval)
| OpCancel (hotel_id : pyval).

(** The manager a call leaves behind, whether it returned or raised. *)
Definition step (m : HotelManager.t) (o : hotel_op) : HotelManager.t :=
  match o with
  | OpCreate name address total_rooms new_id =>
      fst (HotelManager.create_hotel m name address total_rooms new_id)
  | OpDelete hotel_id => fst (HotelManager.delete_hotel m hotel_id)
  | OpModify hotel_id kwargs => fst (HotelManager.modify_hotel m hotel_id kwargs)
  | OpReserve hotel_id => fst (HotelManager.reserve_room m hotel_id)
  | OpCancel hotel_id => fst (HotelManager.cancel_room m hotel_id)
  end.

(** A manager is reachable when it was constructed on some file and
    then went through any sequence of calls. *)
Inductive reachable : HotelManager.t -> Prop :=
| reach_init (f : file) (m : HotelManager.t) :
    HotelManager.__init__ f = Ok m -> reachable m
| reach_step (m : HotelManager.t) (o : hotel_op) :
    reachable m -> reachable (step m o).

(** [0 <= rooms_available <= total_rooms], both integers. *)
Definition in_range (h : Hotel.t) : Prop :=
  exists ra tr,
    Hotel.rooms_available h = PInt ra /\ Hotel.total_rooms h = PInt tr
    /\ 0 <= ra <= tr.

Definition hotels_in_range (m : HotelManager.t) : Prop :=
  forall k h, In (k, h) (HotelManager._hotels m) -> in_range h.

(** A dictionary of entities is well formed when its keys are distinct
    and every entity is valid and stored under its own identifier. *)
Definition wf_dict {V : Type} (valid : V -> Prop) (key : V -> pyval)
  (d : dict V) : Prop :=
  NoDup (dict_keys d)
  /\ Forall (fun kv => valid (snd kv) /\ key (snd kv) = fst kv) d.

Definition valid_hotel (h : Hotel.t) : Prop := Hotel.validate h = Ok tt.
Definition valid_customer (c : Customer.t) : Prop := Customer.validate c = Ok tt.
Definition valid_reservation (r : Reservation.t) : Prop :=
  Reservation.validate r = Ok tt.

(** The rooms a manager has free at a hotel, when the hotel is there. *)
Definition available (m : HotelManager.t) (hotel_id : pyval) : option pyval :=
  option_map Hotel.rooms_available (HotelManager.get_hotel m hotel_id).

(** The manager's dictionary is well formed. *)
Definition hm_wf (m : HotelManager.t) : Prop :=
  wf_dict valid_hotel Hotel.hotel_id (HotelManager._hotels m).

(** Memory agrees with the file: loading the file again would rebuild
    exactly the dictionary in memory. *)
Definition hm_sync (m : HotelManager.t) : Prop :=
  load_records Hotel.from_dict Hotel.hotel_id
               (load_json (HotelManager.store m)) []
  = (HotelManager._hotels m, Ok tt).

Definition hm_inv (m : HotelManager.t) : Prop := hm_wf m /\ hm_sync m.

(** The dates for which a reservation is refused: one of the two
    strings is not a date, or check-out is not after check-in. *)
Definition bad_dates (check_in check_out : pyval) : Prop :=
  match fromisoformat check_in, fromisoformat check_out with
  | Ok ci, Ok co => date_le co ci = true
  | _, _ => True
  end.

(** The reading under which every successful cancellation gives a room
    back to the reservation's hotel. *)
Definition cancel_always_increments : Prop :=
  forall (rm rm' : ReservationManager.t) (hm hm' : HotelManager.t)
         (rid : pyval) (r : Reservation.t) (a : Z),
    ReservationManager.hotel_manager rm = Some hm ->
    ReservationManager.get_reservation rm rid = Some r ->
    available hm (Reservation.hotel_id r) = Some (PInt a) ->
    ReservationManager.cancel_reservation rm rid = (rm', Ok true) ->
    ReservationManager.hotel_manager rm' = Some hm' ->
    available hm' (Reservation.hotel_id r) = Some (PInt (a + 1)).

(** The arguments [create_hotel] is documented to refuse. *)
Definition invalid_hotel_args (name address total_rooms : pyval) : Prop :=
  nonblank_str name = false \/ nonblank_str address = false
  \/ exists z, total_rooms = PInt z /\ z <= 0.

(** The reading under which a refused hotel never shows as an exception
    to the caller of the manager. *)
Definition create_hotel_never_raises : Prop :=
  forall (m : HotelManager.t) (name address total_rooms : pyval)
         (new_id : string) (e : exn),
    invalid_hotel_args name address total_rooms ->
    snd (HotelManager.create_hotel m name address total_rooms new_id)
    <> Raise e.

(** [email] is one local part and one domain around a single "@", the
    domain holding a dot. *)
Definition single_at_with_dotted_domain (email : string) : Prop :=
  exists local domain : string,
    email = (local ++ "@" ++ domain)%string
    /\ contains "@" local = false
    /\ contains "@" domain = false
    /\ contains "." domain = true.

(** The reading under which exactly those e-mails are accepted. *)
Definition email_accepted_iff_single_at : Prop :=
  forall email : string,
    Customer.email_ok (PStr email) = true
    <-> single_at_with_dotted_domain email.

(** What the code asks of an e-mail: a dot after its last "@". *)
Definition dot_after_last_at (email : string) : Prop :=
  exists before domain : string,
    email = (before ++ "@" ++ domain)%string
    /\ contains "@" domain = false
    /\ contains "." domain = true.

(** A history that ends with a reservation on a hotel that is full
    again: a hotel with one room is registered, the room is reserved,
    then the hotel's count is edited back to one through
    [modify_hotel]. *)
Definition full_again_hotels : HotelManager.t :=
  fst (HotelManager.create_hotel (HotelManager.mk Missing [])
         (PStr "H") (PStr "A") (PInt 1) "h1").

Definition full_again_reserved : ReservationManager.t :=
  fst (ReservationManager.create_reservation
         (ReservationManager.mk Missing [] (Some full_again_hotels) None)
         (PStr "c1") (PStr "h1") (PStr "2026-07-01") (PStr "2026-07-05")
         "r1").

Definition full_again : ReservationManager.t :=
  match ReservationManager.hotel_manager full_again_reserved with
  | Some hm =>
      ReservationManager.with_hotel_manager full_again_reserved
        (fst (HotelManager.modify_hotel hm (PStr "h1")
                [("rooms_available", PInt 1)]))
  | None => full_again_reserved
  end.

(** A customer manager with one customer, and the hotel of
    [full_again_hotels], for the examples. *)
Definition one_customer : CustomerManager.t :=
  fst (CustomerManager.create_customer (CustomerManager.mk Missing [])
         (PStr "Alice") (PStr "a@b.com") "c1").

Definition hotel_h1 : Hotel.t :=
  Hotel.mk (PStr "H") (PStr "A") (PInt 1) (PInt 1) (PStr "h1").

Definition coordinator_h1 : ReservationManager.t :=
  ReservationManager.mk Missing [] (Some full_again_hotels) (Some one_customer).

(* ================================================================== *)
(** ** Further histories and measures                                  *)
(* ================================================================== *)

(** The identifier a call on the hotel manager is about. *)
Definition op_target (o : hotel_op) : pyval :=
  match o with
  | OpCreate _ _ _ new_id => PStr new_id
  | OpDelete hotel_id => hotel_id
  | OpModify hotel_id _ => hotel_id
  | OpReserve hotel_id => hotel_id
  | OpCancel hotel_id => hotel_id
  end.

(** [n] calls of [reserve_room] in a row, stopping at the first that
    does not return [True]; the boolean tells whether all [n] did. *)
Fixpoint reserve_many (m : HotelManager.t) (hotel_id : pyval) (n : nat)
  : HotelManager.t * bool :=
  match n with
  | O => (m, true)
  | S k =>
      match HotelManager.reserve_room m hotel_id with
      | (m', Ok true) => reserve_many m' hotel_id k
      | (m', _) => (m', false)
      end
  end.

(** The calls a client can make on a [CustomerManager] that may change
    it. *)
Inductive customer_op : Type :=
| CCreate (name email : pyval) (new_id : string)
| CDelete (customer_id : pyval)
| CModify (customer_id : pyval) (kwargs : record).

Definition cstep (m : CustomerManager.t) (o : customer_op) : CustomerManager.t :=
  match o with
  | CCreate name email new_id =>
      fst (CustomerManager.create_customer m name email new_id)
  | CDelete customer_id => fst (CustomerManager.delete_customer m customer_id)
  | CModify customer_id kwargs =>
      fst (CustomerManager.modify_customer m customer_id kwargs)
  end.

Inductive creachable : CustomerManager.t -> Prop :=
| creach_init (f : file) (m : CustomerManager.t) :
    CustomerManager.__init__ f = Ok m -> creachable m
| creach_step (m : CustomerManager.t) (o : customer_op) :
    creachable m -> creachable (cstep m o).

Definition cm_wf (m : CustomerManager.t) : Prop :=
  wf_dict valid_customer Customer.customer_id (CustomerManager._customers m).

Definition cm_sync (m : CustomerManager.t) : Prop :=
  load_records Customer.from_dict Customer.customer_id
               (load_json (CustomerManager.store m)) []
  = (CustomerManager._customers m, Ok tt).

Definition cm_inv (m : CustomerManager.t) : Prop := cm_wf m /\ cm_sync m.

(** What can happen to a coordinator: its own two calls, and calls
    made directly on the hotel or customer manager it shares with the
    console. *)
Inductive coordinator_op : Type :=
| RCreate (customer_id hotel_id check_in check_out : pyval) (new_id : string)
| RCancel (reservation_id : pyval)
| RHotel (o : hotel_op)
| RCustomer (o : customer_op).

Definition rstep (rm : ReservationManager.t) (o : coordinator_op)
  : ReservationManager.t :=
  match o with
  | RCreate customer_id hotel_id check_in check_out new_id =>
      fst (ReservationManager.create_reservation
             rm customer_id hotel_id check_in check_out new_id)
  | RCancel reservation_id =>
      fst (ReservationManager.cancel_reservation rm reservation_id)
  | RHotel o =>
      ReservationManager.mk
        (ReservationManager.store rm) (ReservationManager._reservations rm)
        (option_map (fun hm => step hm o) (ReservationManager.hotel_manager rm))
        (ReservationManager.customer_manager rm)
  | RCustomer o =>
      ReservationManager.mk
        (ReservationManager.store rm) (ReservationManager._reservations rm)
        (ReservationManager.hotel_manager rm)
        (option_map (fun cm => cstep cm o)
                    (ReservationManager.customer_manager rm))
  end.

(** A coordinator is reachable when it was constructed on some file,
    with reachable managers (or none), and then went through any
    sequence of such calls. *)
Inductive rreachable : ReservationManager.t -> Prop :=
| rreach_init (f : file) (hm : option HotelManager.t)
    (cm : option CustomerManager.t) (rm : ReservationManager.t) :
    (forall m, hm = Some m -> reachable m) ->
    (forall m, cm = Some m -> creachable m) ->
    ReservationManager.__init__ f hm cm = Ok rm -> rreachable rm
| rreach_step (rm : ReservationManager.t) (o : coordinator_op) :
    rreachable rm -> rreachable (rstep rm o).

Definition rm_wf (rm : ReservationManager.t) : Prop :=
  wf_dict valid_reservation Reservation.reservation_id
          (ReservationManager._reservations rm).

Definition rm_sync (rm : ReservationManager.t) : Prop :=
  load_records Reservation.from_dict Reservation.reservation_id
               (load_json (ReservationManager.store rm)) []
  = (ReservationManager._reservations rm, Ok tt).

(** What the coordinator keeps true of itself: the reservations are
    well formed, the file reloads to them, and the managers attached
    are ones a client could have reached. *)
Definition rm_inv (rm : ReservationManager.t) : Prop :=
  rm_wf rm /\ rm_sync rm
  /\ (forall hm, ReservationManager.hotel_manager rm = Some hm -> reachable hm)
  /\ (forall cm, ReservationManager.customer_manager rm = Some cm ->
                 creachable cm).

(** The attached hotel manager, when there is one, is well formed. *)
Definition attached_wf (rm : ReservationManager.t) : Prop :=
  forall hm, ReservationManager.hotel_manager rm = Some hm -> hm_wf hm.

(** The number of stored reservations that name a hotel. *)
Definition booked (rm : ReservationManager.t) (hotel_id : pyval) : Z :=
  Z.of_nat
    (List.length
       (filter (fun r => pyval_eqb (Reservation.hotel_id r) hotel_id)
               (ReservationManager.list_reservations rm))).

(** Rooms free plus rooms booked make up the hotel. *)
Definition balanced (rm : ReservationManager.t) (hotel_id : pyval) : Prop :=
  exists hm h a t,
    ReservationManager.hotel_manager rm = Some hm
    /\ HotelManager.get_hotel hm hotel_id = Some h
    /\ Hotel.rooms_available h = PInt a
    /\ Hotel.total_rooms h = PInt t
    /\ a + booked rm hotel_id = t.

(** The last record of a file that parses to an entity with a given
    identifier. *)
Definition last_parsed {V : Type} (from_dict : json -> result V)
  (key : V -> pyval) (k : pyval) (recs : list json) : option V :=
  fold_left
    (fun found r =>
       match from_dict r with
       | Ok v => if pyval_eqb k (key v) then Some v else found
       | Raise _ => found
       end)
    recs None.

(** The fields a stored reservation shows once its dates are read. *)
Definition stay_is_positive (r : Reservation.t) : Prop :=
  exists ci co,
    fromisoformat (Reservation.check_in r) = Ok ci
    /\ fromisoformat (Reservation.check_out r) = Ok co
    /\ date_le co ci = false.

(* ================================================================== *)
(** ** cli.py and generate_sample_data.py                              *)
(* ================================================================== *)

(** [a + b] *)
Definition py_plus (a b : pyval) : result pyval :=
  match a, b with
  | PInt x, PInt y => Ok (PInt (x + y))
  | PInt _, PInf => Ok PInf
  | PInf, PInt _ => Ok PInf
  | PInf, PInf => Ok PInf
  | PStr x, PStr y => Ok (PStr (x ++ y)%string)
  | _, _ => Raise TypeError
  end.

(** The builtin [sum], which starts from the integer 0. *)
Definition py_sum (vs : list pyval) : result pyval :=
  fold_left (fun acc v => let? a := acc in py_plus a v) vs (Ok (PInt 0)).

Module Cli.

(** How a console command ends: it returns, [input] meets the end of
    the input ([EOFError], which no command handles), or another
    exception leaves it. *)
Inductive outcome : Type :=
| Returned
| EndOfInput
| Escaped (e : exn).

(** [ask]: one line is read from the lines still to come, stripped,
    and replaced by the default when empty; [None] is [EOFError]. *)
Definition ask (stdin : list string) (default : string)
  : option (string * list string) :=
  match stdin with
  | [] => None
  | line :: rest =>
      let value := strip line in
      Some (if String.eqb value "" then default else value, rest)
  end.

(** [pick]: nothing is read when there is nothing to choose from;
    otherwise one line is read and taken as a 1-based index. *)
Definition pick {A : Type} (items : list (string * A)) (stdin : list string)
  : option (option A * list string) :=
  match items with
  | [] => Some (None, stdin)
  | _ :: _ =>
      match stdin with
      | [] => None
      | line :: rest =>
          match py_int (PStr (strip line)) with
          | Raise _ => Some (None, rest)
          | Ok idx =>
              if (idx <? 1) || (idx >? Z.of_nat (List.length items))
              then Some (None, rest)
              else Some (option_map snd (nth_error items (Z.to_nat (idx - 1))),
                         rest)
          end
      end
  end.

(** The [except (ValueError, TypeError)] clause of the add and edit
    commands. *)
Definition handled (e : exn) : bool :=
  match e with
  | ValueError | TypeError => true
  | KeyError | OverflowError | AttributeError => false
  end.

Definition after_try (r : result unit) : outcome :=
  match r with
  | Ok _ => Returned
  | Raise e => if handled e then Returned else Escaped e
  end.

Definition hotel_add (hm : HotelManager.t) (stdin : list string)
  (new_id : string) : HotelManager.t * list string * outcome :=
  match ask stdin "" with
  | None => (hm, [], EndOfInput)
  | Some (name, stdin1) =>
      if String.eqb name "" then (hm, stdin1, Returned)
      else
        match ask stdin1 "" with
        | None => (hm, [], EndOfInput)
        | Some (address, stdin2) =>
            match ask stdin2 "" with
            | None => (hm, [], EndOfInput)
            | Some (rooms, stdin3) =>
                match py_int (PStr rooms) with
                | Raise e => (hm, stdin3, after_try (Raise e))
                | Ok n =>
                    let (hm', r) :=
                      HotelManager.create_hotel hm (PStr name) (PStr address)
                                                (PInt n) new_id in
                    (hm', stdin3, after_try (let? _ := r in Ok tt))
                end
            end
        end
  end.

Definition cust_add (cm : CustomerManager.t) (stdin : list string)
  (new_id : string) : CustomerManager.t * list string * outcome :=
  match ask stdin "" with
  | None => (cm, [], EndOfInput)
  | Some (name, stdin1) =>
      if String.eqb name "" then (cm, stdin1, Returned)
      else
        match ask stdin1 "" with
        | None => (cm, [], EndOfInput)
        | Some (email, stdin2) =>
            let (cm', r) :=
              CustomerManager.create_customer cm (PStr name) (PStr email)
                                              new_id in
            (cm', stdin2, after_try (let? _ := r in Ok tt))
        end
  end.

(** The numbers [status] puts on its line: rooms free, rooms in all,
    hotels, customers, reservations. *)
Definition status (hm : HotelManager.t) (cm : CustomerManager.t)
  (rm : ReservationManager.t) : result (pyval * pyval * nat * nat * nat) :=
  let hotels := HotelManager.list_hotels hm in
  let? avail := py_sum (map Hotel.rooms_available hotels) in
  let? total := py_sum (map Hotel.total_rooms hotels) in
  Ok (avail, total, List.length hotels,
      List.length (CustomerManager.list_customers cm),
      List.length (ReservationManager.list_reservations rm)).

End Cli.

Module SampleData.

Definition HOTELS : list record :=
  [ [("hotel_id", PStr "h001"); ("name", PStr "Grand Palace Hotel");
     ("address", PStr "100 Main Street, New York, NY");
     ("total_rooms", PInt 50); ("rooms_available", PInt 48)];
    [("hotel_id", PStr "h002"); ("name", PStr "Ocean Breeze Resort");
     ("address", PStr "200 Beach Blvd, Miami, FL");
     ("total_rooms", PInt 30); ("rooms_available", PInt 30)];
    [("hotel_id", PStr "h003"); ("name", PStr "Mountain View Inn");
     ("address", PStr "5 Summit Road, Denver, CO");
     ("total_rooms", PInt 20); ("rooms_available", PInt 15)] ].

Definition CUSTOMERS : list record :=
  [ [("customer_id", PStr "c001"); ("name", PStr "Alice Johnson");
     ("email", PStr "alice@example.com")];
    [("customer_id", PStr "c002"); ("name", PStr "Bob Smith");
     ("email", PStr "bob@example.com")];
    [("customer_id", PStr "c003"); ("name", PStr "Carol White");
     ("email", PStr "carol@example.com")] ].

Definition RESERVATIONS : list record :=
  [ [("reservation_id", PStr "r001"); ("customer_id", PStr "c001");
     ("hotel_id", PStr "h001"); ("check_in", PStr "2026-03-10");
     ("check_out", PStr "2026-03-15")];
    [("reservation_id", PStr "r002"); ("customer_id", PStr "c002");
     ("hotel_id", PStr "h001"); ("check_in", PStr "2026-04-01");
     ("check_out", PStr "2026-04-05")] ].

(** The three files [generate] writes: hotels, customers,
    reservations. *)
Definition generate : file * file * file :=
  (save_json HOTELS, save_json CUSTOMERS, save_json RESERVATIONS).

End SampleData.

(* ================================================================== *)
(** ** Values and dictionaries                                         *)
(* ================================================================== *)

Lemma pyval_eqb_eq (a b : pyval) : pyval_eqb a b = true <-> a = b.
Proof.
  destruct a, b; simpl; split; intros H; try discriminate; try reflexivity.
  - apply Z.eqb_eq in H. now subst.
  - inversion H. apply Z.eqb_refl.
  - apply String.eqb_eq in H. now subst.
  - inversion H. apply String.eqb_refl.
Qed.

Lemma pyval_eqb_refl (a : pyval) : pyval_eqb a a = true.
Proof. now apply pyval_eqb_eq. Qed.

Lemma pyval_eqb_neq (a b : pyval) : pyval_eqb a b = false <-> a <> b.
Proof.
  split.
  - intros H E. apply pyval_eqb_eq in E. congruence.
  - intros H. destruct (pyval_eqb a b) eqn:E; [|reflexivity].
    apply pyval_eqb_eq in E. contradiction.
Qed.

Section DictFacts.
Context {V : Type}.
Implicit Types (d : dict V) (k : pyval) (v : V).

Lemma dict_get_In d k v : dict_get k d = Some v -> In (k, v) d.
Proof.
  induction d as [|[k' v'] d IH]; simpl; [discriminate|].
  destruct (pyval_eqb k k') eqn:E.
  - intros [= ->]. apply pyval_eqb_eq in E. subst. now left.
  - intros H. right. now apply IH.
Qed.

Lemma dict_get_None d k : dict_get k d = None -> ~ In k (dict_keys d).
Proof.
  induction d as [|[k' v'] d IH]; simpl; [tauto|].
  destruct (pyval_eqb k k') eqn:E; [discriminate|].
  intros H [->|Hin].
  - rewrite pyval_eqb_refl in E. discriminate.
  - now apply IH.
Qed.

Lemma dict_get_notin d k : ~ In k (dict_keys d) -> dict_get k d = None.
Proof.
  induction d as [|[k' v'] d IH]; simpl; [reflexivity|].
  intros H. destruct (pyval_eqb k k') eqn:E.
  - apply pyval_eqb_eq in E. subst. tauto.
  - apply IH. tauto.
Qed.

Lemma In_dict_get d k v :
  NoDup (dict_keys d) -> In (k, v) d -> dict_get k d = Some v.
Proof.
  induction d as [|[k' v'] d IH]; simpl; [tauto|].
  intros Hnd [[= -> ->]|Hin].
  - now rewrite pyval_eqb_refl.
  - inversion Hnd as [|? ? Hk Hnd']; subst.
    destruct (pyval_eqb k k') eqn:E.
    + apply pyval_eqb_eq in E. subst. exfalso. apply Hk.
      change k' with (fst (k', v)). now apply in_map.
    + now apply IH.
Qed.

Lemma dict_set_absent d k v :
  dict_get k d = None -> dict_set k v d = (d ++ [(k, v)])%list.
Proof.
  induction d as [|[k' v'] d IH]; simpl; [reflexivity|].
  destruct (pyval_eqb k k'); [discriminate|].
  intros H. now rewrite IH.
Qed.

Lemma dict_keys_set_present d k v v0 :
  dict_get k d = Some v0 -> dict_keys (dict_set k v d) = dict_keys d.
Proof.
  induction d as [|[k' v'] d IH]; simpl; [discriminate|].
  destruct (pyval_eqb k k'); simpl; [reflexivity|].
  intros H. now rewrite IH.
Qed.

Lemma dict_get_set_same d k v : dict_get k (dict_set k v d) = Some v.
Proof.
  induction d as [|[k' v'] d IH]; simpl.
  - now rewrite pyval_eqb_refl.
  - destruct (pyval_eqb k k') eqn:E; simpl; now rewrite E.
Qed.

Lemma dict_get_set_other d k k0 v :
  k0 <> k -> dict_get k0 (dict_set k v d) = dict_get k0 d.
Proof.
  intros Hne. induction d as [|[k' v'] d IH]; simpl.
  - apply pyval_eqb_neq in Hne. now rewrite Hne.
  - destruct (pyval_eqb k k') eqn:E; simpl.
    + apply pyval_eqb_eq in E. subst.
      apply pyval_eqb_neq in Hne. now rewrite Hne.
    + now rewrite IH.
Qed.

Lemma dict_set_get_id d k v : dict_get k d = Some v -> dict_set k v d = d.
Proof.
  induction d as [|[k' v'] d IH]; simpl; [discriminate|].
  destruct (pyval_eqb k k').
  - now intros [= ->].
  - intros H. now rewrite IH.
Qed.

Lemma dict_set_set d k v v' :
  dict_set k v (dict_set k v' d) = dict_set k v d.
Proof.
  induction d as [|[k0 v0] d IH]; simpl.
  - now rewrite pyval_eqb_refl.
  - destruct (pyval_eqb k k0) eqn:E; simpl; rewrite E; [reflexivity|].
    now rewrite IH.
Qed.

Lemma In_dict_set d k v k' v' :
  In (k', v') (dict_set k v d) -> In (k', v') d \/ (k' = k /\ v' = v).
Proof.
  induction d as [|[k0 v0] d IH]; simpl.
  - intros [[= <- <-]|[]]. now right.
  - destruct (pyval_eqb k k0) eqn:E; simpl.
    + intros [[= <- <-]|Hin].
      * apply pyval_eqb_eq in E. now right.
      * left. now right.
    + intros [Heq|Hin]; [now left; left|].
      destruct (IH Hin) as [H|H]; [left; now right|now right].
Qed.

Lemma In_dict_del d k x : In x (dict_del k d) -> In x d.
Proof.
  induction d as [|[k0 v0] d IH]; simpl; [tauto|].
  destruct (pyval_eqb k k0); simpl; [now right|].
  intros [H|H]; [now left|right; now apply IH].
Qed.

Lemma In_keys_dict_del d k x :
  In x (dict_keys (dict_del k d)) -> In x (dict_keys d).
Proof.
  unfold dict_keys. intros H. apply in_map_iff in H as [[k0 v0] [<- Hin]].
  apply In_dict_del in Hin. now apply (in_map fst) in Hin.
Qed.

Lemma NoDup_dict_del d k :
  NoDup (dict_keys d) -> NoDup (dict_keys (dict_del k d)).
Proof.
  induction d as [|[k0 v0] d IH]; simpl; [trivial|].
  intros Hnd. inversion Hnd as [|? ? Hk Hnd']; subst.
  destruct (pyval_eqb k k0); simpl; [assumption|].
  constructor; [|now apply IH].
  intros Hin. apply Hk. now apply In_keys_dict_del in Hin.
Qed.

Lemma NoDup_dict_set d k v :
  NoDup (dict_keys d) -> NoDup (dict_keys (dict_set k v d)).
Proof.
  intros Hnd. destruct (dict_get k d) as [v0|] eqn:E.
  - now rewrite (dict_keys_set_present _ _ _ _ E).
  - rewrite (dict_set_absent _ _ _ E). unfold dict_keys in *.
    rewrite map_app. simpl. apply NoDup_app; try assumption.
    + repeat constructor. simpl. tauto.
    + intros a Ha [<-|[]]. now apply dict_get_None in E.
Qed.

Lemma Forall_dict_set (P : pyval * V -> Prop) d k v :
  Forall P d -> P (k, v) -> Forall P (dict_set k v d).
Proof.
  intros Hd Hp. apply Forall_forall. intros [k' v'] Hin.
  apply In_dict_set in Hin as [Hin|[-> ->]]; [|assumption].
  rewrite Forall_forall in Hd. now apply Hd.
Qed.

Lemma Forall_dict_del (P : pyval * V -> Prop) d k :
  Forall P d -> Forall P (dict_del k d).
Proof.
  intros Hd. apply Forall_forall. intros x Hin.
  apply In_dict_del in Hin. rewrite Forall_forall in Hd. now apply Hd.
Qed.

End DictFacts.

(* ================================================================== *)
(** ** The loader, for any entity                                      *)
(* ================================================================== *)

Section LoaderFacts.
Context {V : Type}.
Variable from_dict : json -> result V.
Variable to_dict : V -> record.
Variable key : V -> pyval.
Variable valid : V -> Prop.

Hypothesis from_dict_valid : forall j v, from_dict j = Ok v -> valid v.
Hypothesis from_to_dict : forall v, valid v -> from_dict (JObject (to_dict v)) = Ok v.

Lemma wf_dict_nil : wf_dict valid key [].
Proof. split; constructor. Qed.

Lemma wf_dict_set (d : dict V) (k : pyval) (v : V) :
  wf_dict valid key d -> valid v -> key v = k ->
  wf_dict valid key (dict_set k v d).
Proof.
  intros [Hnd Hall] Hv Hk. split.
  - now apply NoDup_dict_set.
  - apply Forall_dict_set; [assumption|]. simpl. now split.
Qed.

Lemma wf_dict_del (d : dict V) (k : pyval) :
  wf_dict valid key d -> wf_dict valid key (dict_del k d).
Proof.
  intros [Hnd Hall]. split.
  - now apply NoDup_dict_del.
  - now apply Forall_dict_del.
Qed.

Lemma wf_dict_In (d : dict V) (k : pyval) (v : V) :
  wf_dict valid key d -> In (k, v) d -> valid v /\ key v = k.
Proof.
  intros [_ Hall] Hin. rewrite Forall_forall in Hall. exact (Hall _ Hin).
Qed.

Lemma wf_dict_get (d : dict V) (k : pyval) (v : V) :
  wf_dict valid key d -> dict_get k d = Some v -> valid v /\ key v = k.
Proof.
  intros Hwf Hget. apply (wf_dict_In d); [assumption|].
  now apply dict_get_In.
Qed.

(** Whatever the file holds, what the loop leaves in the dictionary is
    well formed. *)
Lemma load_records_wf (recs : list json) (d : dict V) :
  wf_dict valid key d ->
  wf_dict valid key (fst (load_records from_dict key recs d)).
Proof.
  revert d. induction recs as [|r rest IH]; intros d Hwf; simpl.
  - assumption.
  - destruct (from_dict r) as [v|e] eqn:E.
    + apply IH. apply wf_dict_set; [assumption| |reflexivity].
      now apply (from_dict_valid r).
    + destruct (caught e); [now apply IH|assumption].
Qed.

(** Loading what was saved from a well-formed dictionary appends its
    entries, in order, to what is already loaded. *)
Lemma load_records_saved (d acc : dict V) :
  wf_dict valid key (acc ++ d) ->
  load_records from_dict key (map JObject (map to_dict (dict_values d))) acc
  = ((acc ++ d)%list, Ok tt).
Proof.
  revert acc. induction d as [|[k v] d IH]; intros acc Hwf; simpl.
  - now rewrite app_nil_r.
  - assert (Hin : In (k, v) (acc ++ (k, v) :: d)).
    { apply in_or_app. right. now left. }
    destruct (wf_dict_In _ _ _ Hwf Hin) as [Hv Hk].
    rewrite (from_to_dict v Hv). rewrite Hk.
    assert (Hfresh : dict_get k acc = None).
    { apply dict_get_notin. destruct Hwf as [Hnd _].
      unfold dict_keys in Hnd. rewrite map_app in Hnd. simpl in Hnd.
      apply NoDup_remove_2 in Hnd. intros Hacc. apply Hnd.
      apply in_or_app. now left. }
    rewrite (dict_set_absent _ _ _ Hfresh).
    rewrite IH; rewrite <- app_assoc; simpl; [reflexivity|assumption].
Qed.

Lemma load_save (d : dict V) :
  wf_dict valid key d ->
  load_records from_dict key
               (load_json (save_json (map to_dict (dict_values d)))) []
  = (d, Ok tt).
Proof.
  intros Hwf. simpl. now rewrite load_records_saved.
Qed.

End LoaderFacts.

(* ================================================================== *)
(** ** Entities: validation and the record round trip                  *)
(* ================================================================== *)

Lemma Hotel_validate_raises (h : Hotel.t) (e : exn) :
  Hotel.validate h = Raise e -> e = ValueError.
Proof.
  unfold Hotel.validate.
  repeat match goal with
         | |- context [if ?b then _ else _] => destruct b
         | |- context [match ?x with _ => _ end] => destruct x
         end; congruence.
Qed.

Lemma Hotel_validate_ok (h : Hotel.t) :
  Hotel.validate h = Ok tt <->
  nonblank_str (Hotel.name h) = true
  /\ nonblank_str (Hotel.address h) = true
  /\ exists tr ra,
       Hotel.total_rooms h = PInt tr /\ Hotel.rooms_available h = PInt ra
       /\ 0 < tr /\ 0 <= ra <= tr.
Proof.
  unfold Hotel.validate. split.
  - destruct (nonblank_str (Hotel.name h)); simpl; [|discriminate].
    destruct (nonblank_str (Hotel.address h)); simpl; [|discriminate].
    destruct (Hotel.total_rooms h) as [|tr| |]; try discriminate.
    destruct (tr <=? 0) eqn:E1; [discriminate|].
    destruct (Hotel.rooms_available h) as [|ra| |]; try discriminate.
    destruct (ra <? 0) eqn:E2; [discriminate|].
    destruct (ra >? tr) eqn:E3; [discriminate|].
    intros _. repeat split; try reflexivity. exists tr, ra.
    repeat split; lia.
  - intros (-> & -> & tr & ra & -> & -> & Htr & Hra). simpl.
    destruct (tr <=? 0) eqn:E1; [lia|].
    destruct (ra <? 0) eqn:E2; [lia|].
    destruct (ra >? tr) eqn:E3; [lia|reflexivity].
Qed.

Lemma valid_hotel_in_range (h : Hotel.t) : valid_hotel h -> in_range h.
Proof.
  intros H. apply Hotel_validate_ok in H as (_ & _ & tr & ra & Ht & Hr & _ & Hb).
  exists ra, tr. now repeat split.
Qed.

Lemma bind_unit_ok {A : Type} (r : result unit) (a b : A) :
  (let? _ := r in Ok a) = Ok b -> r = Ok tt /\ a = b.
Proof. destruct r as [[]|e]; simpl; [|discriminate]. now intros [= ->]. Qed.

Lemma Hotel_new_valid (n a tr ra i : pyval) (h : Hotel.t) :
  Hotel.new n a tr ra i = Ok h -> valid_hotel h.
Proof.
  unfold Hotel.new, Hotel.__post_init__. intros H.
  apply bind_unit_ok in H as [Hv <-]. exact Hv.
Qed.

Lemma Hotel_from_dict_valid (j : json) (h : Hotel.t) :
  Hotel.from_dict j = Ok h -> valid_hotel h.
Proof.
  destruct j as [data|v]; [|discriminate]. cbn [Hotel.from_dict Customer.from_dict Reservation.from_dict].
  destruct (missing _ data); [discriminate|].
  destruct (getitem "hotel_id" data); cbn [bind]; [|discriminate].
  destruct (getitem "name" data); cbn [bind]; [|discriminate].
  destruct (getitem "address" data); cbn [bind]; [|discriminate].
  destruct (getitem "total_rooms" data); cbn [bind]; [|discriminate].
  destruct (py_int _); cbn [bind]; [|discriminate].
  destruct (py_int _); cbn [bind]; [|discriminate].
  apply Hotel_new_valid.
Qed.

(** A valid hotel is read back from its own record unchanged. *)
Lemma Hotel_from_to_dict (h : Hotel.t) :
  valid_hotel h -> Hotel.from_dict (JObject (Hotel.to_dict h)) = Ok h.
Proof.
  intros Hv. pose proof Hv as Hv'.
  apply Hotel_validate_ok in Hv' as (Hn & Ha & tr & ra & Ht & Hr & Htr & Hra).
  destruct h as [n a t r i]. simpl in *. subst t r.
  cbn. unfold Hotel.new, Hotel.__post_init__. simpl.
  destruct (ra =? -1) eqn:E; [lia|].
  unfold valid_hotel in Hv. now rewrite Hv.
Qed.

Lemma Customer_new_valid (n e i : pyval) (c : Customer.t) :
  Customer.new n e i = Ok c -> valid_customer c.
Proof.
  unfold Customer.new, Customer.__post_init__. intros H.
  apply bind_unit_ok in H as [Hv <-]. exact Hv.
Qed.

Lemma Customer_from_dict_valid (j : json) (c : Customer.t) :
  Customer.from_dict j = Ok c -> valid_customer c.
Proof.
  destruct j as [data|v]; [|discriminate]. cbn [Hotel.from_dict Customer.from_dict Reservation.from_dict].
  destruct (missing _ data); [discriminate|].
  destruct (getitem "customer_id" data); cbn [bind]; [|discriminate].
  destruct (getitem "name" data); cbn [bind]; [|discriminate].
  destruct (getitem "email" data); cbn [bind]; [|discriminate].
  apply Customer_new_valid.
Qed.

Lemma Customer_from_to_dict (c : Customer.t) :
  valid_customer c -> Customer.from_dict (JObject (Customer.to_dict c)) = Ok c.
Proof.
  intros Hv. destruct c as [n e i]. cbn.
  unfold Customer.new, Customer.__post_init__.
  unfold valid_customer in Hv. now rewrite Hv.
Qed.

Lemma Reservation_new_valid (c h ci co i : pyval) (r : Reservation.t) :
  Reservation.new c h ci co i = Ok r -> valid_reservation r.
Proof.
  unfold Reservation.new, Reservation.__post_init__. intros H.
  apply bind_unit_ok in H as [Hv <-]. exact Hv.
Qed.

Lemma Reservation_from_dict_valid (j : json) (r : Reservation.t) :
  Reservation.from_dict j = Ok r -> valid_reservation r.
Proof.
  destruct j as [data|v]; [|discriminate]. cbn [Hotel.from_dict Customer.from_dict Reservation.from_dict].
  destruct (missing _ data); [discriminate|].
  destruct (getitem "reservation_id" data); cbn [bind]; [|discriminate].
  destruct (getitem "customer_id" data); cbn [bind]; [|discriminate].
  destruct (getitem "hotel_id" data); cbn [bind]; [|discriminate].
  destruct (getitem "check_in" data); cbn [bind]; [|discriminate].
  destruct (getitem "check_out" data); cbn [bind]; [|discriminate].
  apply Reservation_new_valid.
Qed.

Lemma Reservation_from_to_dict (r : Reservation.t) :
  valid_reservation r ->
  Reservation.from_dict (JObject (Reservation.to_dict r)) = Ok r.
Proof.
  intros Hv. destruct r as [c h ci co i]. cbn.
  unfold Reservation.new, Reservation.__post_init__.
  unfold valid_reservation in Hv. now rewrite Hv.
Qed.

(* ================================================================== *)
(** ** The hotel manager                                               *)
(* ================================================================== *)

Lemma HotelManager_eta (m : HotelManager.t) :
  HotelManager.mk (HotelManager.store m) (HotelManager._hotels m) = m.
Proof. now destruct m. Qed.

(** Saving a well-formed dictionary establishes the invariant. *)
Lemma hm_inv_save (s : file) (d : dict Hotel.t) :
  wf_dict valid_hotel Hotel.hotel_id d ->
  hm_inv (HotelManager._save (HotelManager.mk s d)).
Proof.
  intros Hwf. split; [exact Hwf|].
  unfold hm_sync, HotelManager._save. cbn [HotelManager.store HotelManager._hotels].
  apply (load_save _ _ _ valid_hotel); [exact Hotel_from_to_dict|exact Hwf].
Qed.

Lemma hm_inv_init (f : file) (m : HotelManager.t) :
  HotelManager.__init__ f = Ok m -> hm_inv m.
Proof.
  unfold HotelManager.__init__, HotelManager._load.
  cbn [HotelManager.store].
  destruct (load_records _ _ (load_json f) []) as [d r] eqn:E.
  intros H. apply bind_unit_ok in H as [-> <-]. split.
  - unfold hm_wf. cbn [HotelManager._hotels].
    change d with (fst (d, @Ok unit tt)). rewrite <- E.
    apply load_records_wf; [exact Hotel_from_dict_valid|apply wf_dict_nil].
  - exact E.
Qed.

Lemma apply_updates_hotel_id (h : Hotel.t) (kwargs : record) :
  Hotel.hotel_id (HotelManager.apply_updates h kwargs) = Hotel.hotel_id h.
Proof.
  unfold HotelManager.apply_updates. revert h.
  induction kwargs as [|[k v] kw IH]; intros h; simpl; [reflexivity|].
  rewrite IH. destruct (HotelManager.allowed k); [|reflexivity].
  unfold Hotel.setattr.
  repeat match goal with
         | |- context [if ?b then _ else _] => destruct b
         end; reflexivity.
Qed.

(** [reserve_room] on a hotel whose count is an integer. *)
Lemma reserve_room_int (m : HotelManager.t) (hid : pyval) (h : Hotel.t) (a : Z) :
  HotelManager.get_hotel m hid = Some h ->
  Hotel.rooms_available h = PInt a ->
  HotelManager.reserve_room m hid =
  if a <=? 0 then (m, Ok false)
  else (HotelManager._save
          (HotelManager.mk (HotelManager.store m)
             (dict_set hid (HotelManager.with_rooms_available h (PInt (a + -1)))
                       (HotelManager._hotels m))),
        Ok true).
Proof.
  intros Hg Ha. unfold HotelManager.reserve_room. rewrite Hg, Ha. simpl.
  now destruct (a <=? 0).
Qed.

(** [cancel_room] on a hotel whose two counts are integers. *)
Lemma cancel_room_int (m : HotelManager.t) (hid : pyval) (h : Hotel.t)
  (a tr : Z) :
  HotelManager.get_hotel m hid = Some h ->
  Hotel.rooms_available h = PInt a ->
  Hotel.total_rooms h = PInt tr ->
  HotelManager.cancel_room m hid =
  if tr <=? a then (m, Ok false)
  else (HotelManager._save
          (HotelManager.mk (HotelManager.store m)
             (dict_set hid (HotelManager.with_rooms_available h (PInt (a + 1)))
                       (HotelManager._hotels m))),
        Ok true).
Proof.
  intros Hg Ha Ht. unfold HotelManager.cancel_room. rewrite Hg, Ha, Ht. simpl.
  now destruct (tr <=? a).
Qed.

Lemma with_rooms_available_valid (h : Hotel.t) (a : Z) :
  valid_hotel h ->
  (forall tr, Hotel.total_rooms h = PInt tr -> 0 <= a <= tr) ->
  valid_hotel (HotelManager.with_rooms_available h (PInt a)).
Proof.
  intros Hv Hr.
  apply Hotel_validate_ok in Hv as (Hn & Ha & tr & ra & Ht & Hra & Htr & Hb).
  apply Hotel_validate_ok. destruct h as [n ad t r i]. simpl in *.
  repeat split; try assumption. exists tr, a. repeat split; auto.
  - apply (Hr tr Ht).
  - apply (Hr tr Ht).
Qed.

Lemma hm_inv_reserve (m : HotelManager.t) (hid : pyval) :
  hm_inv m -> hm_inv (fst (HotelManager.reserve_room m hid)).
Proof.
  intros Hinv. destruct (HotelManager.get_hotel m hid) as [h|] eqn:Hg.
  - destruct Hinv as [Hwf Hsync].
    destruct (wf_dict_get _ _ _ _ _ Hwf Hg) as [Hv Hk].
    pose proof Hv as Hv'.
    apply Hotel_validate_ok in Hv' as (_ & _ & tr & ra & Ht & Hra & Htr & Hb).
    rewrite (reserve_room_int m hid h ra Hg Hra).
    destruct (ra <=? 0) eqn:E; [now split|].
    cbn [fst]. apply hm_inv_save.
    apply wf_dict_set; [exact Hwf| |exact Hk].
    apply with_rooms_available_valid; [exact Hv|].
    intros tr' Ht'. rewrite Ht in Ht'. injection Ht' as <-. lia.
  - unfold HotelManager.reserve_room. now rewrite Hg.
Qed.

Lemma hm_inv_cancel (m : HotelManager.t) (hid : pyval) :
  hm_inv m -> hm_inv (fst (HotelManager.cancel_room m hid)).
Proof.
  intros Hinv. destruct (HotelManager.get_hotel m hid) as [h|] eqn:Hg.
  - destruct Hinv as [Hwf Hsync].
    destruct (wf_dict_get _ _ _ _ _ Hwf Hg) as [Hv Hk].
    pose proof Hv as Hv'.
    apply Hotel_validate_ok in Hv' as (_ & _ & tr & ra & Ht & Hra & Htr & Hb).
    rewrite (cancel_room_int m hid h ra tr Hg Hra Ht).
    destruct (tr <=? ra) eqn:E; [now split|].
    cbn [fst]. apply hm_inv_save.
    apply wf_dict_set; [exact Hwf| |exact Hk].
    apply with_rooms_available_valid; [exact Hv|].
    intros tr' Ht'. rewrite Ht in Ht'. injection Ht' as <-. lia.
  - unfold HotelManager.cancel_room. now rewrite Hg.
Qed.

Lemma hm_inv_create (m : HotelManager.t) (n a tr : pyval) (i : string) :
  hm_inv m -> hm_inv (fst (HotelManager.create_hotel m n a tr i)).
Proof.
  intros Hinv. unfold HotelManager.create_hotel.
  destruct (Hotel.new n a tr (PInt (-1)) (PStr i)) as [h|e] eqn:E;
    [|exact Hinv].
  cbn [fst]. apply hm_inv_save. destruct Hinv as [Hwf _].
  apply wf_dict_set; [exact Hwf| |reflexivity].
  now apply Hotel_new_valid in E.
Qed.

Lemma hm_inv_delete (m : HotelManager.t) (hid : pyval) :
  hm_inv m -> hm_inv (fst (HotelManager.delete_hotel m hid)).
Proof.
  intros Hinv. unfold HotelManager.delete_hotel.
  destruct (dict_get hid (HotelManager._hotels m)); [|exact Hinv].
  cbn [fst]. apply hm_inv_save. destruct Hinv as [Hwf _].
  now apply wf_dict_del.
Qed.

(** A modification that fails validation reloads the file, which under
    the invariant rebuilds the manager as it was. *)
Lemma modify_hotel_invalid (m : HotelManager.t) (hid : pyval)
  (kwargs : record) (h : Hotel.t) (e : exn) :
  hm_sync m ->
  HotelManager.get_hotel m hid = Some h ->
  Hotel.validate (HotelManager.apply_updates h kwargs) = Raise e ->
  HotelManager.modify_hotel m hid kwargs = (m, Ok None).
Proof.
  intros Hsync Hg He. unfold HotelManager.modify_hotel. rewrite Hg.
  cbn zeta. rewrite He. rewrite (Hotel_validate_raises _ _ He).
  unfold HotelManager._load. cbn [HotelManager.store].
  unfold hm_sync in Hsync. rewrite Hsync. cbn [bind].
  now rewrite HotelManager_eta.
Qed.

Lemma hm_inv_modify (m : HotelManager.t) (hid : pyval) (kwargs : record) :
  hm_inv m -> hm_inv (fst (HotelManager.modify_hotel m hid kwargs)).
Proof.
  intros Hinv. destruct (HotelManager.get_hotel m hid) as [h|] eqn:Hg.
  - destruct (Hotel.validate (HotelManager.apply_updates h kwargs))
      as [[]|e] eqn:He.
    + unfold HotelManager.modify_hotel. rewrite Hg. cbn zeta. rewrite He.
      cbn [fst]. apply hm_inv_save. destruct Hinv as [Hwf _].
      destruct (wf_dict_get _ _ _ _ _ Hwf Hg) as [_ Hk].
      apply wf_dict_set; [exact Hwf|exact He|].
      now rewrite apply_updates_hotel_id.
    + destruct Hinv as [Hwf Hsync].
      rewrite (modify_hotel_invalid m hid kwargs h e Hsync Hg He).
      now split.
  - unfold HotelManager.modify_hotel. now rewrite Hg.
Qed.

Lemma hm_inv_step (m : HotelManager.t) (o : hotel_op) :
  hm_inv m -> hm_inv (step m o).
Proof.
  intros Hinv. destruct o; simpl.
  - now apply hm_inv_create.
  - now apply hm_inv_delete.
  - now apply hm_inv_modify.
  - now apply hm_inv_reserve.
  - now apply hm_inv_cancel.
Qed.

(** Every manager a client can hold satisfies the invariant. *)
Lemma reachable_inv (m : HotelManager.t) : reachable m -> hm_inv m.
Proof.
  induction 1 as [f m Hinit|m o _ IH].
  - now apply (hm_inv_init f).
  - now apply hm_inv_step.
Qed.

(* ================================================================== *)
(** ** Room inventory of the hotel manager                             *)
(* ================================================================== *)

Lemma hm_wf_in_range (m : HotelManager.t) : hm_wf m -> hotels_in_range m.
Proof.
  intros Hwf k h Hin. apply valid_hotel_in_range.
  now destruct (wf_dict_In _ _ _ _ _ Hwf Hin).
Qed.

(** C3. After any of the mutating calls of the hotel manager
    ([create_hotel], [modify_hotel], [reserve_room], [cancel_room], and
    [delete_hotel] as well), made on a manager that was constructed from
    any file and went through any earlier calls, every hotel of the
    collection has integer counts with
    [0 <= rooms_available <= total_rooms]; this holds whether the call
    returned or raised. *)
Theorem C3_rooms_available_within_bounds (m : HotelManager.t) (o : hotel_op) :
  reachable m -> hotels_in_range (step m o).
Proof.
  intros Hr. apply hm_wf_in_range.
  apply (reachable_inv (step m o)). now apply reach_step.
Qed.

(** C5. [reserve_room] on a hotel with no room available returns
    [False] and [cancel_room] on a hotel with every room available
    returns [False]; in both cases the manager, in memory and on file,
    is left as it was. *)
Theorem C5_reserve_and_release_at_the_bounds
  (m : HotelManager.t) (hid : pyval) (h : Hotel.t) :
  HotelManager.get_hotel m hid = Some h ->
  (Hotel.rooms_available h = PInt 0 ->
   HotelManager.reserve_room m hid = (m, Ok false))
  /\ (forall tr, Hotel.total_rooms h = PInt tr ->
                 Hotel.rooms_available h = PInt tr ->
                 HotelManager.cancel_room m hid = (m, Ok false)).
Proof.
  intros Hg. split.
  - intros Hz. now rewrite (reserve_room_int m hid h 0 Hg Hz).
  - intros tr Ht Ha. rewrite (cancel_room_int m hid h tr tr Hg Ha Ht).
    now rewrite Z.leb_refl.
Qed.

(** C6. When [modify_hotel] is called on an existing hotel with values
    that make the updated hotel fail validation, it returns [None] and
    the manager is exactly as before the call: the file is untouched
    and the dictionary reloaded from it equals the one held before, so
    the update applied to the hotel object before validation is neither
    kept nor written. *)
Theorem C6_invalid_modify_leaves_state (m : HotelManager.t) (hid : pyval)
  (kwargs : record) (h : Hotel.t) :
  reachable m ->
  HotelManager.get_hotel m hid = Some h ->
  Hotel.validate (HotelManager.apply_updates h kwargs) <> Ok tt ->
  HotelManager.modify_hotel m hid kwargs = (m, Ok None).
Proof.
  intros Hr Hg Hbad. destruct (reachable_inv m Hr) as [_ Hsync].
  destruct (Hotel.validate (HotelManager.apply_updates h kwargs))
    as [[]|e] eqn:He; [congruence|].
  exact (modify_hotel_invalid m hid kwargs h e Hsync Hg He).
Qed.

(** C10. A hotel built with [rooms_available = -1] is not rejected:
    the count is replaced by [total_rooms]; so a stored record that
    carries [rooms_available = -1] is loaded as a hotel with every room
    available; any other negative count makes the construction raise
    [ValueError]. *)
Theorem C10_minus_one_means_unset
  (n a i : pyval) (tr ra : Z) (data : record) (rest : list json)
  (d : dict Hotel.t) :
  nonblank_str n = true -> nonblank_str a = true -> 0 < tr ->
  ra < -1 ->
  lookup "name" data = Some n -> lookup "address" data = Some a ->
  lookup "total_rooms" data = Some (PInt tr) ->
  lookup "rooms_available" data = Some (PInt (-1)) ->
  lookup "hotel_id" data = Some i ->
  let full := Hotel.mk n a (PInt tr) (PInt tr) i in
  Hotel.new n a (PInt tr) (PInt (-1)) i = Ok full
  /\ Hotel.from_dict (JObject data) = Ok full
  /\ load_records Hotel.from_dict Hotel.hotel_id (JObject data :: rest) d
     = load_records Hotel.from_dict Hotel.hotel_id rest (dict_set i full d)
  /\ forall n' a' tr' i',
       Hotel.new n' a' tr' (PInt ra) i' = Raise ValueError.
Proof.
  intros Hn Ha Htr Hra Ln La Lt Lr Li full.
  assert (Hnew : Hotel.new n a (PInt tr) (PInt (-1)) i = Ok full).
  { assert (Hv : Hotel.validate full = Ok tt).
    { apply Hotel_validate_ok. repeat split; try assumption.
      exists tr, tr. repeat split; lia. }
    unfold Hotel.new, Hotel.__post_init__.
    cbn [Hotel.rooms_available Hotel.total_rooms Hotel.name Hotel.address
         Hotel.hotel_id].
    change (pyval_eqb (PInt (-1)) (PInt (-1))) with true. cbv iota.
    fold full. now rewrite Hv. }
  assert (Hfrom : Hotel.from_dict (JObject data) = Ok full).
  { unfold Hotel.from_dict, missing, getitem, get_default. cbn [existsb].
    rewrite Ln, La, Lt, Lr, Li. cbn [orb bind py_int]. exact Hnew. }
  repeat split.
  - exact Hnew.
  - exact Hfrom.
  - cbn [load_records]. now rewrite Hfrom.
  - intros n' a' tr' i'. unfold Hotel.new, Hotel.__post_init__.
    cbn [Hotel.rooms_available pyval_eqb].
    destruct (ra =? -1) eqn:E; [lia|].
    unfold Hotel.validate.
    cbn [Hotel.rooms_available Hotel.total_rooms Hotel.name Hotel.address].
    destruct (nonblank_str n'); cbn [negb bind]; [|reflexivity].
    destruct (nonblank_str a'); cbn [negb bind]; [|reflexivity].
    destruct tr' as [|t| |]; try reflexivity.
    destruct (t <=? 0); [reflexivity|].
    destruct (ra <? 0) eqn:E2; [reflexivity|lia].
Qed.

(* ================================================================== *)
(** ** Persistence round trip                                          *)
(* ================================================================== *)

(** C8. For each of the three managers: when the collection in memory
    holds valid entities (each under its own identifier, as a
    dictionary holds them), writing it with [_save] and constructing a
    manager on the file written yields a manager whose list of entities
    is the one that was saved: the same number, in the same order, with
    the same field values; and the file holds one record per entity. *)
Theorem C8_save_then_load_is_identity
  (hm : HotelManager.t) (cm : CustomerManager.t) (rm : ReservationManager.t) :
  wf_dict valid_hotel Hotel.hotel_id (HotelManager._hotels hm) ->
  wf_dict valid_customer Customer.customer_id (CustomerManager._customers cm) ->
  wf_dict valid_reservation Reservation.reservation_id
          (ReservationManager._reservations rm) ->
  (exists hm',
      HotelManager.__init__ (HotelManager.store (HotelManager._save hm))
      = Ok hm'
      /\ HotelManager.list_hotels hm' = HotelManager.list_hotels hm
      /\ List.length (load_json (HotelManager.store (HotelManager._save hm)))
         = List.length (HotelManager.list_hotels hm))
  /\ (exists cm',
         CustomerManager.__init__
           (CustomerManager.store (CustomerManager._save cm)) = Ok cm'
         /\ CustomerManager.list_customers cm'
            = CustomerManager.list_customers cm
         /\ List.length (load_json (CustomerManager.store (CustomerManager._save cm)))
            = List.length (CustomerManager.list_customers cm))
  /\ (exists rm',
         ReservationManager.__init__
           (ReservationManager.store (ReservationManager._save rm))
           (ReservationManager.hotel_manager rm)
           (ReservationManager.customer_manager rm) = Ok rm'
         /\ ReservationManager.list_reservations rm'
            = ReservationManager.list_reservations rm
         /\ List.length (load_json
                      (ReservationManager.store (ReservationManager._save rm)))
            = List.length (ReservationManager.list_reservations rm)).
Proof.
  intros Hh Hc Hr. repeat split.
  - exists (HotelManager._save hm).
    unfold HotelManager.__init__, HotelManager._load, HotelManager._save.
    cbn [HotelManager.store HotelManager._hotels].
    rewrite (load_save _ _ _ valid_hotel Hotel_from_to_dict _ Hh).
    cbn [bind]. repeat split.
    unfold HotelManager.list_hotels, dict_values. cbn [load_json save_json].
    now rewrite !length_map.
  - exists (CustomerManager._save cm).
    unfold CustomerManager.__init__, CustomerManager._load,
      CustomerManager._save.
    cbn [CustomerManager.store CustomerManager._customers].
    rewrite (load_save _ _ _ valid_customer Customer_from_to_dict _ Hc).
    cbn [bind]. repeat split.
    unfold CustomerManager.list_customers, dict_values.
    cbn [load_json save_json]. now rewrite !length_map.
  - exists (ReservationManager._save rm).
    unfold ReservationManager.__init__, ReservationManager._load,
      ReservationManager._save.
    cbn [ReservationManager.store ReservationManager._reservations
         ReservationManager.hotel_manager ReservationManager.customer_manager].
    rewrite (load_save _ _ _ valid_reservation Reservation_from_to_dict _ Hr).
    cbn [bind]. repeat split.
    unfold ReservationManager.list_reservations, dict_values.
    cbn [load_json save_json]. now rewrite !length_map.
Qed.

(* ================================================================== *)
(** ** The reservation coordinator                                     *)
(* ================================================================== *)

Lemma fromisoformat_raises (v : pyval) (e : exn) :
  fromisoformat v = Raise e -> e = ValueError \/ e = TypeError.
Proof.
  destruct v as [|z|s|]; simpl; try (intros [= <-]; now right).
  destruct (parse_iso s); [discriminate|]. intros [= <-]. now left.
Qed.

Lemma bad_dates_refused (c h ci co i : pyval) :
  bad_dates ci co -> Reservation.new c h ci co i = Raise ValueError.
Proof.
  unfold bad_dates, Reservation.new, Reservation.__post_init__,
    Reservation.validate, Reservation.parse_dates.
  cbn [Reservation.customer_id Reservation.hotel_id Reservation.check_in
       Reservation.check_out].
  intros Hbad.
  destruct (truthy c); cbn [negb bind]; [|reflexivity].
  destruct (truthy h); cbn [negb bind]; [|reflexivity].
  destruct (fromisoformat ci) as [d1|e1] eqn:E1; cbn [bind].
  - destruct (fromisoformat co) as [d2|e2] eqn:E2; cbn [bind fst snd].
    + now rewrite Hbad.
    + destruct (fromisoformat_raises _ _ E2) as [-> | ->]; reflexivity.
  - destruct (fromisoformat_raises _ _ E1) as [-> | ->]; reflexivity.
Qed.

Lemma Reservation_new_fields (c h ci co i : pyval) (r : Reservation.t) :
  Reservation.new c h ci co i = Ok r -> r = Reservation.mk c h ci co i.
Proof.
  unfold Reservation.new, Reservation.__post_init__. intros H.
  now apply bind_unit_ok in H as [_ <-].
Qed.

Lemma get_hotel_save (m : HotelManager.t) (hid : pyval) :
  HotelManager.get_hotel (HotelManager._save m) hid
  = HotelManager.get_hotel m hid.
Proof. reflexivity. Qed.

Lemma with_rooms_available_twice (h : Hotel.t) (a b : pyval) :
  HotelManager.with_rooms_available (HotelManager.with_rooms_available h a) b
  = HotelManager.with_rooms_available h b.
Proof. reflexivity. Qed.

Lemma with_rooms_available_same (h : Hotel.t) (a : pyval) :
  Hotel.rooms_available h = a -> HotelManager.with_rooms_available h a = h.
Proof. intros <-. now destruct h. Qed.

(** Releasing right after reserving gives back the dictionary as it
    was, written again to the file. *)
Lemma release_after_reserve (hm : HotelManager.t) (hid : pyval) (h : Hotel.t)
  (a tr : Z) :
  HotelManager.get_hotel hm hid = Some h ->
  Hotel.rooms_available h = PInt a -> Hotel.total_rooms h = PInt tr ->
  1 <= a <= tr ->
  exists hm1,
    HotelManager.reserve_room hm hid = (hm1, Ok true)
    /\ available hm1 hid = Some (PInt (a - 1))
    /\ HotelManager.cancel_room hm1 hid = (HotelManager._save hm, Ok true).
Proof.
  intros Hg Ha Ht Hb.
  rewrite (reserve_room_int hm hid h a Hg Ha).
  destruct (a <=? 0) eqn:E; [lia|].
  eexists. split; [reflexivity|].
  set (h1 := HotelManager.with_rooms_available h (PInt (a + -1))).
  assert (Hg1 : forall s, HotelManager.get_hotel
            (HotelManager._save
               (HotelManager.mk s (dict_set hid h1 (HotelManager._hotels hm))))
            hid = Some h1).
  { intros s. unfold HotelManager.get_hotel. cbn. apply dict_get_set_same. }
  split.
  - unfold available. rewrite Hg1. reflexivity.
  - rewrite (cancel_room_int _ hid h1 (a + -1) tr (Hg1 _) eq_refl).
    2:{ subst h1. exact Ht. }
    destruct (tr <=? a + -1) eqn:E2; [lia|].
    f_equal. unfold HotelManager._save.
    cbn [HotelManager.store HotelManager._hotels].
    subst h1. rewrite with_rooms_available_twice, dict_set_set.
    replace (a + -1 + 1) with a by lia.
    rewrite (with_rooms_available_same h (PInt a) Ha).
    now rewrite (dict_set_get_id _ _ _ Hg).
Qed.

(** C2. With a hotel manager attached and a valid hotel with at least
    one room available under [hotel_id], [create_reservation] with
    dates that do not parse, or with check-out not after check-in,
    returns [None]; no reservation is stored and the reservations file
    is untouched; the hotel manager is still attached with the same
    hotels as before, so [rooms_available] is what it was; and when the
    attempt got as far as reserving, the room taken in between (the
    count was one lower after [reserve_room]) was given back. *)
Theorem C2_invalid_dates_release_the_room
  (rm : ReservationManager.t) (hm : HotelManager.t) (h : Hotel.t)
  (cid hid ci co : pyval) (nid : string) (a : Z) :
  ReservationManager.hotel_manager rm = Some hm ->
  HotelManager.get_hotel hm hid = Some h ->
  valid_hotel h ->
  Hotel.rooms_available h = PInt a -> 1 <= a ->
  bad_dates ci co ->
  exists rm' hm',
    ReservationManager.create_reservation rm cid hid ci co nid = (rm', Ok None)
    /\ ReservationManager._reservations rm' = ReservationManager._reservations rm
    /\ ReservationManager.store rm' = ReservationManager.store rm
    /\ ReservationManager.hotel_manager rm' = Some hm'
    /\ HotelManager._hotels hm' = HotelManager._hotels hm
    /\ available hm' hid = Some (PInt a)
    /\ (ReservationManager.customer_known rm cid = true ->
        available (fst (HotelManager.reserve_room hm hid)) hid
        = Some (PInt (a - 1))).
Proof.
  intros Hhm Hg Hv Ha Hpos Hbad.
  pose proof Hv as Hv'.
  apply Hotel_validate_ok in Hv' as (_ & _ & tr & ra & Ht & Hra & _ & Hb).
  rewrite Ha in Hra. injection Hra as <-.
  destruct (release_after_reserve hm hid h a tr Hg Ha Ht ltac:(lia))
    as (hm1 & Hres & Hav1 & Hcan).
  assert (Hav : available hm hid = Some (PInt a)).
  { unfold available. rewrite Hg. cbn. now rewrite Ha. }
  destruct (ReservationManager.customer_known rm cid) eqn:Hc.
  - exists (ReservationManager.with_hotel_manager
              (ReservationManager.with_hotel_manager rm hm1)
              (HotelManager._save hm)),
           (HotelManager._save hm).
    split.
    { unfold ReservationManager.create_reservation.
      rewrite Hc, Hhm. cbn [negb]. rewrite Hg, Hres.
      unfold ReservationManager.build_and_store.
      rewrite (bad_dates_refused cid hid ci co (PStr nid) Hbad).
      cbn [ReservationManager.with_hotel_manager
           ReservationManager.hotel_manager].
      rewrite Hcan. reflexivity. }
    repeat split; try reflexivity.
    + exact Hav.
    + intros _. rewrite Hres. exact Hav1.
  - exists rm, hm. split.
    { unfold ReservationManager.create_reservation. now rewrite Hc. }
    repeat split; try assumption. discriminate.
Qed.

(** C1, as stated, fails.  A hotel with one room is registered and its
    room reserved by [create_reservation]; the hotel's count is then
    set back to 1 with [modify_hotel]; [cancel_reservation] of that
    reservation returns [True], and the hotel still has 1 room
    available, not 2: [cancel_room] refused and its answer is not
    looked at. *)
Lemma C1_cancel_at_capacity_does_not_increment : ~ cancel_always_increments.
Proof.
  intros H.
  pose proof (H full_again
                (fst (ReservationManager.cancel_reservation full_again
                        (PStr "r1")))
                (fst (HotelManager.modify_hotel
                        (fst (HotelManager.reserve_room full_again_hotels
                                (PStr "h1")))
                        (PStr "h1") [("rooms_available", PInt 1)]))
                (fst (HotelManager.modify_hotel
                        (fst (HotelManager.reserve_room full_again_hotels
                                (PStr "h1")))
                        (PStr "h1") [("rooms_available", PInt 1)]))
                (PStr "r1")
                (Reservation.mk (PStr "c1") (PStr "h1") (PStr "2026-07-01")
                                (PStr "2026-07-05") (PStr "r1"))
                1) as C.
  vm_compute in C.
  specialize (C eq_refl eq_refl eq_refl eq_refl eq_refl). discriminate.
Qed.

Lemma create_reservation_success
  (rm : ReservationManager.t) (hm : HotelManager.t)
  (cid hid ci co : pyval) (nid : string)
  (rm1 : ReservationManager.t) (r : Reservation.t) :
  ReservationManager.hotel_manager rm = Some hm -> hm_wf hm ->
  ReservationManager.create_reservation rm cid hid ci co nid
  = (rm1, Ok (Some r)) ->
  exists a hm1,
    available hm hid = Some (PInt a)
    /\ ReservationManager.hotel_manager rm1 = Some hm1
    /\ available hm1 hid = Some (PInt (a - 1))
    /\ exists rm2 hm2,
         ReservationManager.cancel_reservation
           rm1 (Reservation.reservation_id r) = (rm2, Ok true)
         /\ ReservationManager.hotel_manager rm2 = Some hm2
         /\ available hm2 hid = Some (PInt a).
Proof.
  intros Hhm Hwf Hcr. unfold ReservationManager.create_reservation in Hcr.
  destruct (ReservationManager.customer_known rm cid); cbn [negb] in Hcr;
    [|discriminate].
  rewrite Hhm in Hcr.
  destruct (HotelManager.get_hotel hm hid) as [h|] eqn:Hg; [|discriminate].
  destruct (wf_dict_get _ _ _ _ _ Hwf Hg) as [Hv _].
  apply Hotel_validate_ok in Hv as (_ & _ & tr & a & Ht & Ha & _ & Hb).
  assert (Hav : available hm hid = Some (PInt a)).
  { unfold available. rewrite Hg. cbn. now rewrite Ha. }
  destruct (a <=? 0) eqn:E.
  { rewrite (reserve_room_int hm hid h a Hg Ha), E in Hcr. discriminate. }
  destruct (release_after_reserve hm hid h a tr Hg Ha Ht ltac:(lia))
    as (hm1 & Hres & Hav1 & Hcan).
  rewrite Hres in Hcr. unfold ReservationManager.build_and_store in Hcr.
  destruct (Reservation.new cid hid ci co (PStr nid)) as [res|e] eqn:En.
  - injection Hcr as <- <-.
    apply Reservation_new_fields in En. subst res.
    exists a, hm1. repeat split; try assumption.
    eexists. exists (HotelManager._save hm). split; [|split].
    + unfold ReservationManager.cancel_reservation.
      cbn [ReservationManager._save ReservationManager._reservations
           ReservationManager.hotel_manager ReservationManager.store
           ReservationManager.customer_manager
           ReservationManager.with_hotel_manager
           Reservation.reservation_id Reservation.hotel_id].
      rewrite dict_get_set_same.
      cbn [ReservationManager.hotel_manager Reservation.hotel_id].
      rewrite Hcan. reflexivity.
    + reflexivity.
    + exact Hav.
  - destruct e; try discriminate.
    cbn [ReservationManager.with_hotel_manager
         ReservationManager.hotel_manager] in Hcr.
    destruct (HotelManager.cancel_room hm1 hid) as [hm' [b|e']];
      discriminate.
Qed.

Lemma cancel_reservation_release
  (rm : ReservationManager.t) (hm : HotelManager.t)
  (rid : pyval) (r : Reservation.t) :
  ReservationManager.hotel_manager rm = Some hm -> hm_wf hm ->
  ReservationManager.get_reservation rm rid = Some r ->
  exists rm' hm',
    ReservationManager.cancel_reservation rm rid = (rm', Ok true)
    /\ ReservationManager.hotel_manager rm' = Some hm'
    /\ match HotelManager.get_hotel hm (Reservation.hotel_id r) with
       | Some h =>
           exists a tr,
             Hotel.rooms_available h = PInt a
             /\ Hotel.total_rooms h = PInt tr
             /\ available hm' (Reservation.hotel_id r)
                = Some (PInt (if a <? tr then a + 1 else a))
       | None => hm' = hm
       end.
Proof.
  intros Hhm Hwf Hgr. unfold ReservationManager.get_reservation in Hgr.
  unfold ReservationManager.cancel_reservation. rewrite Hgr, Hhm.
  destruct (HotelManager.get_hotel hm (Reservation.hotel_id r))
    as [h|] eqn:Hg.
  - destruct (wf_dict_get _ _ _ _ _ Hwf Hg) as [Hv _].
    apply Hotel_validate_ok in Hv as (_ & _ & tr & a & Ht & Ha & _ & Hb).
    rewrite (cancel_room_int hm _ h a tr Hg Ha Ht).
    destruct (tr <=? a) eqn:E.
    + eexists. exists hm. repeat split. exists a, tr. repeat split; auto.
      destruct (a <? tr) eqn:E2; [lia|].
      unfold available. rewrite Hg. cbn. now rewrite Ha.
    + eexists. eexists. repeat split. exists a, tr. repeat split; auto.
      destruct (a <? tr) eqn:E2; [|lia].
      unfold available, HotelManager.get_hotel. cbn.
      now rewrite dict_get_set_same.
  - unfold HotelManager.cancel_room. rewrite Hg.
    eexists. exists hm. repeat split.
Qed.

(** C1, amended.  With a hotel manager attached whose dictionary is
    well formed (as that of every reachable manager is):
    a successful [create_reservation] lowers the referenced hotel's
    [rooms_available] by exactly 1, and cancelling that reservation
    right away succeeds and restores the original count;
    a [cancel_reservation] of a stored reservation always succeeds,
    and it raises the count of the reservation's hotel by exactly 1
    when that hotel is registered and below capacity, and otherwise
    leaves the count (or the absence of the hotel) as it was. *)
Theorem C1_inventory_of_create_and_cancel
  (rm : ReservationManager.t) (hm : HotelManager.t) :
  ReservationManager.hotel_manager rm = Some hm -> hm_wf hm ->
  (forall cid hid ci co nid rm1 r,
      ReservationManager.create_reservation rm cid hid ci co nid
      = (rm1, Ok (Some r)) ->
      exists a hm1,
        available hm hid = Some (PInt a)
        /\ ReservationManager.hotel_manager rm1 = Some hm1
        /\ available hm1 hid = Some (PInt (a - 1))
        /\ exists rm2 hm2,
             ReservationManager.cancel_reservation
               rm1 (Reservation.reservation_id r) = (rm2, Ok true)
             /\ ReservationManager.hotel_manager rm2 = Some hm2
             /\ available hm2 hid = Some (PInt a))
  /\ (forall rid r,
         ReservationManager.get_reservation rm rid = Some r ->
         exists rm' hm',
           ReservationManager.cancel_reservation rm rid = (rm', Ok true)
           /\ ReservationManager.hotel_manager rm' = Some hm'
           /\ match HotelManager.get_hotel hm (Reservation.hotel_id r) with
              | Some h =>
                  exists a tr,
                    Hotel.rooms_available h = PInt a
                    /\ Hotel.total_rooms h = PInt tr
                    /\ available hm' (Reservation.hotel_id r)
                       = Some (PInt (if a <? tr then a + 1 else a))
              | None => hm' = hm
              end).
Proof.
  intros Hhm Hwf. split.
  - intros cid hid ci co nid rm1 r Hcr.
    exact (create_reservation_success rm hm cid hid ci co nid rm1 r
             Hhm Hwf Hcr).
  - intros rid r Hgr.
    exact (cancel_reservation_release rm hm rid r Hhm Hwf Hgr).
Qed.

(** The coordinator only reaches the hotel manager through
    [reserve_room] and [cancel_room], so the manager it leaves attached
    is again one a client could have reached. *)
Lemma create_reservation_keeps_reachable
  (rm : ReservationManager.t) (hm : HotelManager.t)
  (cid hid ci co : pyval) (nid : string) :
  ReservationManager.hotel_manager rm = Some hm -> reachable hm ->
  exists hm',
    ReservationManager.hotel_manager
      (fst (ReservationManager.create_reservation rm cid hid ci co nid))
    = Some hm'
    /\ reachable hm'.
Proof.
  intros Hhm Hr. unfold ReservationManager.create_reservation.
  destruct (negb (ReservationManager.customer_known rm cid));
    [now exists hm|].
  rewrite Hhm.
  destruct (HotelManager.get_hotel hm hid); [|now exists hm].
  pose proof (reach_step hm (OpReserve hid) Hr) as Hr1. cbn [step] in Hr1.
  destruct (HotelManager.reserve_room hm hid) as [hm1 [[|]|e]];
    cbn [fst] in Hr1; try (now exists hm1).
  unfold ReservationManager.build_and_store.
  destruct (Reservation.new cid hid ci co (PStr nid)) as [res|e];
    [now exists hm1|].
  destruct e; try (now exists hm1).
  cbn [ReservationManager.with_hotel_manager ReservationManager.hotel_manager].
  pose proof (reach_step hm1 (OpCancel hid) Hr1) as Hr2. cbn [step] in Hr2.
  destruct (HotelManager.cancel_room hm1 hid) as [hm2 r].
  now exists hm2.
Qed.

Lemma cancel_reservation_keeps_reachable
  (rm : ReservationManager.t) (hm : HotelManager.t) (rid : pyval) :
  ReservationManager.hotel_manager rm = Some hm -> reachable hm ->
  exists hm',
    ReservationManager.hotel_manager
      (fst (ReservationManager.cancel_reservation rm rid))
    = Some hm'
    /\ reachable hm'.
Proof.
  intros Hhm Hr. unfold ReservationManager.cancel_reservation.
  destruct (dict_get rid (ReservationManager._reservations rm)) as [r|];
    [|now exists hm].
  rewrite Hhm.
  pose proof (reach_step hm (OpCancel (Reservation.hotel_id r)) Hr) as Hr1.
  cbn [step] in Hr1.
  destruct (HotelManager.cancel_room hm (Reservation.hotel_id r))
    as [hm1 [b|e]]; now exists hm1.
Qed.

(* ================================================================== *)
(** ** Refused hotels                                                  *)
(* ================================================================== *)

Lemma invalid_hotel_args_new (n a tr i : pyval) :
  invalid_hotel_args n a tr ->
  Hotel.new n a tr (PInt (-1)) i = Raise ValueError.
Proof.
  intros Hbad. unfold Hotel.new, Hotel.__post_init__.
  cbn [Hotel.rooms_available Hotel.total_rooms Hotel.name Hotel.address
       Hotel.hotel_id].
  change (pyval_eqb (PInt (-1)) (PInt (-1))) with true. cbv iota.
  destruct (Hotel.validate (Hotel.mk n a tr tr i)) as [[]|e] eqn:E.
  - exfalso. apply Hotel_validate_ok in E.
    cbn [Hotel.rooms_available Hotel.total_rooms Hotel.name Hotel.address] in E.
    destruct E as (Hn & Ha & t & r & Ht & _ & Hpos & _).
    destruct Hbad as [H|[H|(z & Hz & Hle)]]; try congruence.
    rewrite Hz in Ht. injection Ht as ->. lia.
  - cbn [bind]. now rewrite (Hotel_validate_raises _ _ E).
Qed.

(** C4, as stated, fails: [create_hotel] with an empty name raises
    [ValueError] to its caller. *)
Lemma C4_create_hotel_raises_to_the_caller : ~ create_hotel_never_raises.
Proof.
  intros H.
  apply (H (HotelManager.mk Missing []) (PStr "") (PStr "A") (PInt 5) "h1"
           ValueError).
  - left. reflexivity.
  - reflexivity.
Qed.

(** C4, amended.  [create_hotel] called with a blank name, a blank
    address or a total of rooms that is not positive raises
    [ValueError] to its caller (the manager has no handler; the console
    layer catches it), and the manager is left as it was: no hotel is
    stored and nothing is written. *)
Theorem C4_create_hotel_invalid_raises_and_keeps_state
  (m : HotelManager.t) (n a tr : pyval) (i : string) :
  invalid_hotel_args n a tr ->
  HotelManager.create_hotel m n a tr i = (m, Raise ValueError).
Proof.
  intros Hbad. unfold HotelManager.create_hotel.
  now rewrite (invalid_hotel_args_new n a tr (PStr i) Hbad).
Qed.

(* ================================================================== *)
(** ** E-mail addresses                                                *)
(* ================================================================== *)

Lemma split_nonempty (c : ascii) (s : string) : split c s <> [].
Proof.
  destruct s as [|x s]; simpl; [discriminate|].
  destruct (Ascii.eqb x c); [discriminate|].
  destruct (split c s); discriminate.
Qed.

Lemma split_no_sep (c : ascii) (s : string) :
  contains c s = false -> split c s = [s].
Proof.
  induction s as [|x s IH]; simpl; [reflexivity|].
  destruct (Ascii.eqb x c); simpl; [discriminate|].
  intros H. now rewrite (IH H).
Qed.

Lemma split_app_sep (c : ascii) (l d : string) :
  exists p ps, split c (l ++ String c d)%string = (p :: ps) ++ split c d.
Proof.
  induction l as [|x l (p & ps & IH)]; simpl.
  - rewrite Ascii.eqb_refl. now exists EmptyString, [].
  - destruct (Ascii.eqb x c).
    + rewrite IH. now exists EmptyString, (p :: ps).
    + rewrite IH. simpl. now exists (String x p), ps.
Qed.

Lemma split_app_sep_first (c : ascii) (l d : string) :
  contains c l = false ->
  split c (l ++ String c d)%string = l :: split c d.
Proof.
  induction l as [|x l IH]; simpl.
  - now rewrite Ascii.eqb_refl.
  - destruct (Ascii.eqb x c); simpl; [discriminate|].
    intros H. now rewrite (IH H).
Qed.

Lemma last_app_nonempty {A : Type} (l1 l2 : list A) (a : A) :
  l2 <> [] -> last (l1 ++ l2) a = last l2 a.
Proof.
  intros Hne. induction l1 as [|x l1 IH]; [reflexivity|].
  simpl. destruct (l1 ++ l2) eqn:E; [|exact IH].
  apply app_eq_nil in E as [_ ->]. contradiction.
Qed.

Lemma last_split_app (c : ascii) (l d : string) :
  last (split c (l ++ String c d)%string) "" = last (split c d) "".
Proof.
  destruct (split_app_sep c l d) as (p & ps & ->).
  apply last_app_nonempty, split_nonempty.
Qed.

Lemma contains_app (c : ascii) (l d : string) :
  contains c (l ++ d)%string = contains c l || contains c d.
Proof.
  induction l as [|x l IH]; simpl; [reflexivity|].
  now rewrite IH, orb_assoc.
Qed.

(** A string that holds [c] splits at its last [c]. *)
Lemma contains_last_occurrence (c : ascii) (s : string) :
  contains c s = true ->
  exists l d, s = (l ++ String c d)%string /\ contains c d = false.
Proof.
  induction s as [|x s IH]; simpl; [discriminate|].
  destruct (contains c s) eqn:Hs.
  - intros _. destruct (IH eq_refl) as (l & d & -> & Hd).
    now exists (String x l), d.
  - rewrite orb_false_r. intros Hx. apply Ascii.eqb_eq in Hx. subst x.
    now exists EmptyString, s.
Qed.

Lemma email_ok_iff (email : string) :
  Customer.email_ok (PStr email) = true <-> dot_after_last_at email.
Proof.
  unfold Customer.email_ok, dot_after_last_at. split.
  - intros H. apply andb_prop in H as [Hat Hdot].
    destruct (contains_last_occurrence _ _ Hat) as (l & d & -> & Hd).
    exists l, d. repeat split; [assumption|].
    rewrite last_split_app, (split_no_sep _ _ Hd) in Hdot. exact Hdot.
  - intros (l & d & -> & Hd & Hdot).
    change (l ++ "@" ++ d)%string with (l ++ String "@" d)%string.
    rewrite last_split_app, (split_no_sep _ _ Hd). simpl last.
    rewrite contains_app. simpl. rewrite Hdot.
    now rewrite orb_true_r.
Qed.

(** C7, as stated, fails: [a@b@c.com], with two "@", is accepted. *)
Lemma C7_two_at_signs_accepted : ~ email_accepted_iff_single_at.
Proof.
  intros H. destruct (H "a@b@c.com") as [Hacc _].
  destruct (Hacc eq_refl) as (l & d & He & Hl & Hd & _).
  assert (Hs : split "@" "a@b@c.com" = [l; d]).
  { rewrite He. change (l ++ "@" ++ d)%string with (l ++ String "@" d)%string.
    now rewrite (split_app_sep_first _ _ _ Hl), (split_no_sep _ _ Hd). }
  discriminate Hs.
Qed.

(** C7, amended.  The e-mail test of customer validation accepts a
    string exactly when it holds an "@" and the part after its last "@"
    holds a "."; what precedes the last "@" is not looked at, so it may
    hold further "@" or be empty; a value that is not a string is
    refused.  A customer is valid exactly when its name is a non-blank
    string and its e-mail passes this test. *)
Theorem C7_email_accepted_iff_dot_after_last_at
  (n i : pyval) (email : string) :
  (Customer.email_ok (PStr email) = true <-> dot_after_last_at email)
  /\ (Customer.validate (Customer.mk n (PStr email) i) = Ok tt
      <-> nonblank_str n = true /\ dot_after_last_at email)
  /\ Customer.email_ok PNone = false
  /\ (forall z, Customer.email_ok (PInt z) = false)
  /\ Customer.email_ok PInf = false.
Proof.
  split; [apply email_ok_iff|]. split; [|repeat split].
  unfold Customer.validate. cbn [Customer.name Customer.email].
  rewrite <- email_ok_iff.
  destruct (nonblank_str n); cbn [negb].
  - destruct (Customer.email_ok (PStr email)); cbn [negb]; split;
      try tauto; try discriminate.
    intros [_ H]. discriminate.
  - split; [discriminate|]. intros [H _]. discriminate.
Qed.

(* ================================================================== *)
(** ** Bulk load                                                       *)
(* ================================================================== *)

(** A record whose parsing raises [ValueError], [KeyError] or
    [TypeError] is skipped and the loop goes on with the next one. *)
Lemma load_records_skips {V : Type} (from_dict : json -> result V)
  (key : V -> pyval) (r : json) (rest : list json) (d : dict V) (e : exn) :
  from_dict r = Raise e -> caught e = true ->
  load_records from_dict key (r :: rest) d
  = load_records from_dict key rest d.
Proof. intros Hr Hc. simpl. now rewrite Hr, Hc. Qed.

(** A record whose parsing raises anything else stops the loop: the
    exception leaves [_load]. *)
Lemma load_records_aborts {V : Type} (from_dict : json -> result V)
  (key : V -> pyval) (r : json) (rest : list json) (d : dict V) (e : exn) :
  from_dict r = Raise e -> caught e = false ->
  load_records from_dict key (r :: rest) d = (d, Raise e).
Proof. intros Hr Hc. simpl. now rewrite Hr, Hc. Qed.

(** The scenario of the tests: of a well-formed record and one with an
    empty name, exactly the first is loaded. *)
Lemma load_one_good_one_blank_name :
  option_map HotelManager.list_hotels
    (match HotelManager.__init__
             (JsonList
                [JObject [("hotel_id", PStr "h1"); ("name", PStr "H");
                          ("address", PStr "A"); ("total_rooms", PInt 5)];
                 JObject [("hotel_id", PStr "x"); ("name", PStr "");
                          ("address", PStr "A"); ("total_rooms", PInt 5)]])
     with Ok m => Some m | Raise _ => None end)
  = Some [Hotel.mk (PStr "H") (PStr "A") (PInt 5) (PInt 5) (PStr "h1")].
Proof. reflexivity. Qed.

(** C9 at its failing inputs.  A hotels file with one well-formed
    record followed by a record whose [total_rooms] is the float
    infinity ([1e999] in the file) does not load one hotel: [int]
    raises [OverflowError], which the [except] clause of [_load] does
    not list, so the construction of the manager raises.  The same
    happens, with [AttributeError], for an element of the list that is
    not an object, in each of the three managers. *)
Theorem C9_malformed_record_can_abort_the_load :
  let good := JObject [("hotel_id", PStr "h1"); ("name", PStr "H");
                       ("address", PStr "A"); ("total_rooms", PInt 5)] in
  HotelManager.__init__
    (JsonList [good;
               JObject [("hotel_id", PStr "h2"); ("name", PStr "H2");
                        ("address", PStr "B"); ("total_rooms", PInf)]])
  = Raise OverflowError
  /\ HotelManager.__init__ (JsonList [good; JOther (PInt 42)])
     = Raise AttributeError
  /\ CustomerManager.__init__ (JsonList [JOther (PInt 42)])
     = Raise AttributeError
  /\ ReservationManager.__init__ (JsonList [JOther (PInt 42)]) None None
     = Raise AttributeError.
Proof. repeat split. Qed.

(* ================================================================== *)
(** ** More on dictionaries                                            *)
(* ================================================================== *)

Section DictMore.
Context {V : Type}.
Implicit Types (d : dict V) (k : pyval) (v : V).

Lemma dict_get_del_other d k k0 :
  k0 <> k -> dict_get k0 (dict_del k d) = dict_get k0 d.
Proof.
  intros Hne. induction d as [|[k' v'] d IH]; simpl; [reflexivity|].
  destruct (pyval_eqb k k') eqn:E; simpl.
  - apply pyval_eqb_eq in E. subst k'.
    apply pyval_eqb_neq in Hne. now rewrite Hne.
  - now rewrite IH.
Qed.

Lemma dict_get_del_same d k :
  NoDup (dict_keys d) -> dict_get k (dict_del k d) = None.
Proof.
  induction d as [|[k' v'] d IH]; simpl; [reflexivity|].
  intros Hnd. inversion Hnd as [|? ? Hk Hnd']; subst.
  destruct (pyval_eqb k k') eqn:E; simpl.
  - apply pyval_eqb_eq in E. subst k'. now apply dict_get_notin.
  - rewrite E. now apply IH.
Qed.

Lemma length_dict_del d k v :
  dict_get k d = Some v -> S (List.length (dict_del k d)) = List.length d.
Proof.
  induction d as [|[k' v'] d IH]; simpl; [discriminate|].
  destruct (pyval_eqb k k'); simpl; [reflexivity|].
  intros H. now rewrite (IH H).
Qed.

Lemma dict_values_set_absent d k v :
  dict_get k d = None -> dict_values (dict_set k v d) = dict_values d ++ [v].
Proof.
  intros H. rewrite (dict_set_absent _ _ _ H). unfold dict_values.
  now rewrite map_app.
Qed.

(** Removing a key takes out one value, the one found under it. *)
Lemma filter_values_dict_del (P : V -> bool) d k v :
  dict_get k d = Some v ->
  List.length (filter P (dict_values d))
  = (List.length (filter P (dict_values (dict_del k d)))
     + (if P v then 1 else 0))%nat.
Proof.
  induction d as [|[k' v'] d IH]; simpl; [discriminate|].
  destruct (pyval_eqb k k'); simpl.
  - intros [= ->]. destruct (P v); simpl; lia.
  - intros H. specialize (IH H). destruct (P v'); simpl; lia.
Qed.

Lemma filter_values_set_absent (P : V -> bool) d k v :
  dict_get k d = None ->
  List.length (filter P (dict_values (dict_set k v d)))
  = (List.length (filter P (dict_values d)) + (if P v then 1 else 0))%nat.
Proof.
  intros H. rewrite (dict_values_set_absent _ _ _ H), filter_app, length_app.
  simpl. now destruct (P v).
Qed.

End DictMore.

(* ================================================================== *)
(** ** The hotel manager, call by call                                 *)
(* ================================================================== *)

(** X1. [create_hotel] with a non-blank name and address and a
    positive number of rooms returns a hotel with every room available
    and the fresh identifier; the hotel is then found under that
    identifier, every other identifier answers as before, and when the
    identifier was not in use the hotel comes last in [list_hotels]. *)
Theorem X1_create_hotel_registers_a_full_hotel
  (m : HotelManager.t) (n a : pyval) (tr : Z) (i : string) :
  nonblank_str n = true -> nonblank_str a = true -> 0 < tr ->
  exists m',
    HotelManager.create_hotel m n a (PInt tr) i
    = (m', Ok (Hotel.mk n a (PInt tr) (PInt tr) (PStr i)))
    /\ HotelManager.get_hotel m' (PStr i)
       = Some (Hotel.mk n a (PInt tr) (PInt tr) (PStr i))
    /\ (forall k, k <> PStr i ->
                  HotelManager.get_hotel m' k = HotelManager.get_hotel m k)
    /\ (HotelManager.get_hotel m (PStr i) = None ->
        HotelManager.list_hotels m'
        = HotelManager.list_hotels m
          ++ [Hotel.mk n a (PInt tr) (PInt tr) (PStr i)]).
Proof.
  intros Hn Ha Htr.
  set (h := Hotel.mk n a (PInt tr) (PInt tr) (PStr i)).
  assert (Hv : Hotel.validate h = Ok tt).
  { apply Hotel_validate_ok. repeat split; try assumption.
    exists tr, tr. repeat split; lia. }
  assert (Hnew : Hotel.new n a (PInt tr) (PInt (-1)) (PStr i) = Ok h).
  { unfold Hotel.new, Hotel.__post_init__.
    cbn [Hotel.rooms_available Hotel.total_rooms Hotel.name Hotel.address
         Hotel.hotel_id].
    change (pyval_eqb (PInt (-1)) (PInt (-1))) with true. cbv iota.
    fold h. now rewrite Hv. }
  unfold HotelManager.create_hotel. rewrite Hnew.
  eexists. split; [reflexivity|].
  unfold HotelManager.get_hotel, HotelManager.list_hotels.
  cbn [HotelManager._save HotelManager._hotels Hotel.hotel_id h].
  split; [apply dict_get_set_same|]. split.
  - intros k Hk. now apply dict_get_set_other.
  - intros Hfresh. now apply dict_values_set_absent.
Qed.

(** X2. [delete_hotel] on a registered identifier returns [True];
    afterwards the identifier is unknown, the collection is one hotel
    shorter and every other identifier answers as before.  On an
    unknown identifier it returns [False] and changes nothing. *)
Theorem X2_delete_hotel_removes_that_hotel_only
  (m : HotelManager.t) (k : pyval) :
  reachable m ->
  match HotelManager.get_hotel m k with
  | Some _ =>
      snd (HotelManager.delete_hotel m k) = true
      /\ HotelManager.get_hotel (fst (HotelManager.delete_hotel m k)) k = None
      /\ S (List.length
              (HotelManager.list_hotels (fst (HotelManager.delete_hotel m k))))
         = List.length (HotelManager.list_hotels m)
      /\ forall k0, k0 <> k ->
           HotelManager.get_hotel (fst (HotelManager.delete_hotel m k)) k0
           = HotelManager.get_hotel m k0
  | None => HotelManager.delete_hotel m k = (m, false)
  end.
Proof.
  intros Hr. destruct (reachable_inv m Hr) as [[Hnd _] _].
  unfold HotelManager.get_hotel, HotelManager.delete_hotel.
  destruct (dict_get k (HotelManager._hotels m)) as [h|] eqn:Hg;
    [|reflexivity].
  cbn [fst snd HotelManager._save HotelManager._hotels
       HotelManager.list_hotels].
  split; [reflexivity|]. split; [now apply dict_get_del_same|]. split.
  - unfold HotelManager.list_hotels, dict_values.
    cbn [HotelManager._hotels]. rewrite !length_map.
    now apply (length_dict_del _ _ h).
  - intros k0 Hk0. now apply dict_get_del_other.
Qed.

Lemma apply_updates_unknown (h : Hotel.t) (kwargs : record) :
  forallb (fun kv => negb (HotelManager.allowed (fst kv))) kwargs = true ->
  HotelManager.apply_updates h kwargs = h.
Proof.
  unfold HotelManager.apply_updates. revert h.
  induction kwargs as [|[k v] kw IH]; intros h; simpl; [reflexivity|].
  intros H. apply andb_prop in H as [Hk Hkw].
  destruct (HotelManager.allowed k); [discriminate|]. now apply IH.
Qed.

(** X3. Keywords other than [name], [address], [total_rooms] and
    [rooms_available] are ignored by a call of [modify_hotel] that
    Python accepts (its keywords are distinct and none of them is
    [hotel_id] or [self], which the call itself refuses with a
    [TypeError]): with only such keywords the call returns the hotel
    as it is, the collection is unchanged, and the file is written
    again from it. *)
Theorem X3_modify_hotel_ignores_unknown_fields
  (m : HotelManager.t) (k : pyval) (h : Hotel.t) (kwargs : record) :
  reachable m ->
  HotelManager.get_hotel m k = Some h ->
  binds_kwargs ["self"; "hotel_id"] kwargs = true ->
  forallb (fun kv => negb (HotelManager.allowed (fst kv))) kwargs = true ->
  HotelManager.call_modify_hotel m k kwargs
  = (HotelManager._save m, Ok (Some h))
  /\ HotelManager._hotels (HotelManager._save m) = HotelManager._hotels m.
Proof.
  intros Hr Hg Hb Hun. split; [|reflexivity].
  destruct (reachable_inv m Hr) as [Hwf _].
  destruct (wf_dict_get _ _ _ _ _ Hwf Hg) as [Hv _].
  unfold HotelManager.call_modify_hotel. rewrite Hb.
  unfold HotelManager.modify_hotel. rewrite Hg. cbn zeta.
  rewrite (apply_updates_unknown h kwargs Hun). unfold valid_hotel in Hv.
  rewrite Hv. unfold HotelManager.get_hotel in Hg.
  now rewrite (dict_set_get_id _ _ _ Hg), HotelManager_eta.
Qed.

(** X4. Whatever the keyword arguments, a [modify_hotel] that
    returns a hotel returns a valid one that still carries the
    identifier it was looked up by; it is what [get_hotel] then
    answers, the identifiers of the collection and their order are
    unchanged, and every other hotel is as before. *)
Theorem X4_modify_hotel_keeps_identity
  (m m' : HotelManager.t) (k : pyval) (kwargs : record) (h' : Hotel.t) :
  reachable m ->
  HotelManager.modify_hotel m k kwargs = (m', Ok (Some h')) ->
  Hotel.hotel_id h' = k
  /\ valid_hotel h'
  /\ HotelManager.get_hotel m' k = Some h'
  /\ dict_keys (HotelManager._hotels m') = dict_keys (HotelManager._hotels m)
  /\ forall k0, k0 <> k ->
       HotelManager.get_hotel m' k0 = HotelManager.get_hotel m k0.
Proof.
  intros Hr Hm. destruct (reachable_inv m Hr) as [Hwf Hsync].
  destruct (HotelManager.get_hotel m k) as [h|] eqn:Hg.
  2:{ unfold HotelManager.modify_hotel in Hm. rewrite Hg in Hm.
      discriminate. }
  destruct (wf_dict_get _ _ _ _ _ Hwf Hg) as [_ Hk].
  destruct (Hotel.validate (HotelManager.apply_updates h kwargs))
    as [[]|e] eqn:He.
  - unfold HotelManager.modify_hotel in Hm. rewrite Hg in Hm.
    cbn zeta in Hm. rewrite He in Hm. injection Hm as <- <-.
    unfold HotelManager.get_hotel.
    cbn [HotelManager._save HotelManager._hotels].
    split; [now rewrite apply_updates_hotel_id|]. split; [exact He|].
    split; [apply dict_get_set_same|]. split.
    + now apply (dict_keys_set_present _ _ _ h).
    + intros k0 Hk0. now apply dict_get_set_other.
  - rewrite (modify_hotel_invalid m k kwargs h e Hsync Hg He) in Hm.
    discriminate.
Qed.

Lemma Hotel_new_id (n a t r i : pyval) (h : Hotel.t) :
  Hotel.new n a t r i = Ok h -> Hotel.hotel_id h = i.
Proof.
  unfold Hotel.new, Hotel.__post_init__. intros H.
  apply bind_unit_ok in H as [_ <-].
  cbn [Hotel.rooms_available Hotel.total_rooms Hotel.name Hotel.address
       Hotel.hotel_id].
  now destruct (pyval_eqb r (PInt (-1))).
Qed.

(** X5. A call on the hotel manager about one identifier leaves the
    hotel under every other identifier as it was (present with the
    same fields, or absent), whether the call succeeds, fails or
    raises. *)
Theorem X5_hotel_calls_leave_other_hotels_alone
  (m : HotelManager.t) (o : hotel_op) (k : pyval) :
  reachable m -> k <> op_target o ->
  HotelManager.get_hotel (step m o) k = HotelManager.get_hotel m k.
Proof.
  intros Hr Hk. destruct (reachable_inv m Hr) as [Hwf Hsync].
  destruct o as [n a tr i|hid|hid kwargs|hid|hid]; cbn [step op_target] in *.
  - unfold HotelManager.create_hotel.
    destruct (Hotel.new n a tr (PInt (-1)) (PStr i)) as [h|e] eqn:E;
      [|reflexivity].
    cbn [fst]. unfold HotelManager.get_hotel.
    cbn [HotelManager._save HotelManager._hotels].
    rewrite (Hotel_new_id _ _ _ _ _ _ E). now apply dict_get_set_other.
  - unfold HotelManager.delete_hotel.
    destruct (dict_get hid (HotelManager._hotels m)); [|reflexivity].
    cbn [fst]. unfold HotelManager.get_hotel.
    cbn [HotelManager._save HotelManager._hotels].
    now apply dict_get_del_other.
  - destruct (HotelManager.get_hotel m hid) as [h|] eqn:Hg.
    + destruct (Hotel.validate (HotelManager.apply_updates h kwargs))
        as [[]|e] eqn:He.
      * unfold HotelManager.modify_hotel. rewrite Hg. cbn zeta. rewrite He.
        cbn [fst]. unfold HotelManager.get_hotel.
        cbn [HotelManager._save HotelManager._hotels].
        now apply dict_get_set_other.
      * now rewrite (modify_hotel_invalid m hid kwargs h e Hsync Hg He).
    + unfold HotelManager.modify_hotel. now rewrite Hg.
  - destruct (HotelManager.get_hotel m hid) as [h|] eqn:Hg.
    + destruct (wf_dict_get _ _ _ _ _ Hwf Hg) as [Hv _].
      apply Hotel_validate_ok in Hv as (_ & _ & t & a & Ht & Ha & _ & Hb).
      rewrite (reserve_room_int m hid h a Hg Ha).
      destruct (a <=? 0); [reflexivity|].
      cbn [fst]. unfold HotelManager.get_hotel.
      cbn [HotelManager._save HotelManager._hotels].
      now apply dict_get_set_other.
    + unfold HotelManager.reserve_room. now rewrite Hg.
  - destruct (HotelManager.get_hotel m hid) as [h|] eqn:Hg.
    + destruct (wf_dict_get _ _ _ _ _ Hwf Hg) as [Hv _].
      apply Hotel_validate_ok in Hv as (_ & _ & t & a & Ht & Ha & _ & Hb).
      rewrite (cancel_room_int m hid h a t Hg Ha Ht).
      destruct (t <=? a); [reflexivity|].
      cbn [fst]. unfold HotelManager.get_hotel.
      cbn [HotelManager._save HotelManager._hotels].
      now apply dict_get_set_other.
    + unfold HotelManager.cancel_room. now rewrite Hg.
Qed.

(** X6. A hotel with [a] rooms available takes exactly [a]
    reservations in a row: [n] successive calls of [reserve_room] all
    return [True] if and only if [n <= a], and after them (the run
    stops at the first refusal) the hotel has [max 0 (a - n)] rooms
    available. *)
Theorem X6_reserve_room_succeeds_exactly_while_rooms_last
  (n : nat) (m : HotelManager.t) (hid : pyval) (h : Hotel.t) (a : Z) :
  HotelManager.get_hotel m hid = Some h ->
  valid_hotel h ->
  Hotel.rooms_available h = PInt a ->
  snd (reserve_many m hid n) = (Z.of_nat n <=? a)
  /\ available (fst (reserve_many m hid n)) hid
     = Some (PInt (Z.max 0 (a - Z.of_nat n))).
Proof.
  revert m h a. induction n as [|n IH]; intros m h a Hg Hv Ha.
  - pose proof Hv as Hv'.
    apply Hotel_validate_ok in Hv' as (_ & _ & t & a' & Ht & Ha' & _ & Hb).
    rewrite Ha in Ha'. injection Ha' as <-.
    cbn [reserve_many fst snd]. split.
    + symmetry. apply Z.leb_le. cbn. lia.
    + unfold available. rewrite Hg. cbn [option_map]. rewrite Ha.
      do 2 f_equal. cbn. lia.
  - pose proof Hv as Hv'.
    apply Hotel_validate_ok in Hv' as (_ & _ & t & a' & Ht & Ha' & _ & Hb).
    rewrite Ha in Ha'. injection Ha' as <-.
    cbn [reserve_many]. rewrite (reserve_room_int m hid h a Hg Ha).
    destruct (a <=? 0) eqn:E.
    + cbn [fst snd]. split.
      * symmetry. apply Z.leb_gt. lia.
      * unfold available. rewrite Hg. cbn [option_map]. rewrite Ha.
        do 2 f_equal. lia.
    + set (h1 := HotelManager.with_rooms_available h (PInt (a + -1))).
      set (m1 := HotelManager._save _).
      assert (Hg1 : HotelManager.get_hotel m1 hid = Some h1).
      { unfold HotelManager.get_hotel. subst m1.
        cbn [HotelManager._save HotelManager._hotels].
        apply dict_get_set_same. }
      assert (Hv1 : valid_hotel h1).
      { apply with_rooms_available_valid; [exact Hv|].
        intros t' Ht'. rewrite Ht in Ht'. injection Ht' as <-. lia. }
      destruct (IH m1 h1 (a + -1) Hg1 Hv1 eq_refl) as [Hb1 Hav1].
      rewrite Hb1, Hav1. split.
      * destruct (Z.leb_spec (Z.of_nat n) (a + -1));
          destruct (Z.leb_spec (Z.of_nat (S n)) a); try reflexivity;
          exfalso; lia.
      * do 2 f_equal. lia.
Qed.

(** X7. [reserve_room] and [cancel_room] undo each other: on a
    hotel with at least one room available, reserving and then
    releasing both return [True] and give back the collection as it
    was; on a hotel below capacity, so do releasing and then
    reserving.  In both cases the file is the one [_save] writes from
    that collection. *)
Theorem X7_reserve_and_cancel_undo_each_other
  (m : HotelManager.t) (hid : pyval) (h : Hotel.t) (a tr : Z) :
  HotelManager.get_hotel m hid = Some h ->
  Hotel.rooms_available h = PInt a -> Hotel.total_rooms h = PInt tr ->
  0 <= a <= tr ->
  (1 <= a ->
   exists m1,
     HotelManager.reserve_room m hid = (m1, Ok true)
     /\ HotelManager.cancel_room m1 hid = (HotelManager._save m, Ok true))
  /\ (a < tr ->
      exists m1,
        HotelManager.cancel_room m hid = (m1, Ok true)
        /\ HotelManager.reserve_room m1 hid = (HotelManager._save m, Ok true))
  /\ HotelManager._hotels (HotelManager._save m) = HotelManager._hotels m.
Proof.
  intros Hg Ha Ht Hb. split; [|split; [|reflexivity]].
  - intros H1.
    destruct (release_after_reserve m hid h a tr Hg Ha Ht ltac:(lia))
      as (m1 & Hres & _ & Hcan).
    now exists m1.
  - intros Hlt. rewrite (cancel_room_int m hid h a tr Hg Ha Ht).
    destruct (tr <=? a) eqn:E; [lia|].
    eexists. split; [reflexivity|].
    set (h1 := HotelManager.with_rooms_available h (PInt (a + 1))).
    assert (Hg1 : forall s, HotelManager.get_hotel
              (HotelManager._save
                 (HotelManager.mk s (dict_set hid h1 (HotelManager._hotels m))))
              hid = Some h1).
    { intros s. unfold HotelManager.get_hotel.
      cbn [HotelManager._save HotelManager._hotels].
      apply dict_get_set_same. }
    rewrite (reserve_room_int _ hid h1 (a + 1) (Hg1 _) eq_refl).
    destruct (a + 1 <=? 0) eqn:E2; [lia|].
    f_equal. unfold HotelManager._save.
    cbn [HotelManager.store HotelManager._hotels].
    subst h1. rewrite with_rooms_available_twice, dict_set_set.
    replace (a + 1 + -1) with a by lia.
    rewrite (with_rooms_available_same h (PInt a) Ha).
    unfold HotelManager.get_hotel in Hg.
    now rewrite (dict_set_get_id _ _ _ Hg).
Qed.

(** X8. After any history of calls, successful or not, the file of
    the hotel manager holds exactly what is in memory: a manager
    constructed on that file is equal to the current one. *)
Theorem X8_hotel_file_always_reloads_to_memory (m : HotelManager.t) :
  reachable m -> HotelManager.__init__ (HotelManager.store m) = Ok m.
Proof.
  intros Hr. destruct (reachable_inv m Hr) as [_ Hsync].
  unfold HotelManager.__init__, HotelManager._load.
  cbn [HotelManager.store]. unfold hm_sync in Hsync. rewrite Hsync.
  cbn [bind]. now rewrite HotelManager_eta.
Qed.

(* ================================================================== *)
(** ** What the loaders accept                                         *)
(* ================================================================== *)

Lemma Customer_validate_raises (c : Customer.t) (e : exn) :
  Customer.validate c = Raise e -> e = ValueError.
Proof.
  unfold Customer.validate.
  destruct (negb (nonblank_str (Customer.name c))); [congruence|].
  destruct (negb (Customer.email_ok (Customer.email c))); congruence.
Qed.

Lemma Reservation_validate_raises (r : Reservation.t) (e : exn) :
  Reservation.validate r = Raise e -> e = ValueError.
Proof.
  unfold Reservation.validate, Reservation.parse_dates.
  destruct (negb (truthy (Reservation.customer_id r))); [congruence|].
  destruct (negb (truthy (Reservation.hotel_id r))); [congruence|].
  destruct (fromisoformat (Reservation.check_in r)) as [d1|e1] eqn:E1;
    cbn [bind].
  - destruct (fromisoformat (Reservation.check_out r)) as [d2|e2] eqn:E2;
      cbn [bind fst snd].
    + destruct (date_le d2 d1); congruence.
    + destruct (fromisoformat_raises _ _ E2) as [-> | ->]; cbn [bind];
        congruence.
  - destruct (fromisoformat_raises _ _ E1) as [-> | ->]; cbn [bind];
      congruence.
Qed.

Lemma bind_unit_raise {A : Type} (r : result unit) (a : A) (e : exn) :
  (let? _ := r in Ok a) = Raise e -> r = Raise e.
Proof. destruct r as [[]|e']; simpl; [discriminate|]. now intros [= ->]. Qed.

Lemma Customer_from_dict_raises (d : record) (e : exn) :
  Customer.from_dict (JObject d) = Raise e -> e = ValueError.
Proof.
  unfold Customer.from_dict, missing, getitem. cbn [existsb].
  destruct (lookup "name" d), (lookup "email" d), (lookup "customer_id" d);
    cbn [orb bind]; try congruence.
  unfold Customer.new, Customer.__post_init__. intros H.
  apply bind_unit_raise in H. now apply Customer_validate_raises in H.
Qed.

Lemma Reservation_from_dict_raises (d : record) (e : exn) :
  Reservation.from_dict (JObject d) = Raise e -> e = ValueError.
Proof.
  unfold Reservation.from_dict, missing, getitem. cbn [existsb].
  destruct (lookup "customer_id" d), (lookup "hotel_id" d),
    (lookup "check_in" d), (lookup "check_out" d),
    (lookup "reservation_id" d);
    cbn [orb bind]; try congruence.
  unfold Reservation.new, Reservation.__post_init__. intros H.
  apply bind_unit_raise in H. now apply Reservation_validate_raises in H.
Qed.

Lemma py_int_raises (v : pyval) (e : exn) :
  py_int v = Raise e -> v <> PInf -> caught e = true.
Proof.
  destruct v as [|z|s|]; simpl; try congruence.
  - now intros [= <-].
  - destruct (int_of_str s); [discriminate|]. now intros [= <-].
Qed.

Lemma Hotel_from_dict_raises (d : record) (e : exn) :
  lookup "total_rooms" d <> Some PInf ->
  lookup "rooms_available" d <> Some PInf ->
  Hotel.from_dict (JObject d) = Raise e -> caught e = true.
Proof.
  intros Ht Hr. unfold Hotel.from_dict, missing, getitem, get_default.
  cbn [existsb].
  destruct (lookup "name" d), (lookup "address" d),
    (lookup "total_rooms" d) as [tr|], (lookup "hotel_id" d);
    cbn [orb bind]; try (intros [= <-]; reflexivity).
  assert (Htr : tr <> PInf) by congruence.
  destruct (py_int tr) as [z|e1] eqn:E1; cbn [bind].
  2:{ intros [= <-]. exact (py_int_raises _ _ E1 Htr). }
  destruct (lookup "rooms_available" d) as [ra|].
  - assert (Hra : ra <> PInf) by congruence.
    destruct (py_int ra) as [z2|e2] eqn:E2; cbn [bind].
    2:{ intros [= <-]. exact (py_int_raises _ _ E2 Hra). }
    unfold Hotel.new, Hotel.__post_init__. intros H.
    apply bind_unit_raise in H.
    now rewrite (Hotel_validate_raises _ _ H).
  - rewrite E1. cbn [bind].
    unfold Hotel.new, Hotel.__post_init__. intros H.
    apply bind_unit_raise in H.
    now rewrite (Hotel_validate_raises _ _ H).
Qed.

Section LoaderMore.
Context {V : Type}.
Variable from_dict : json -> result V.
Variable key : V -> pyval.

(** When no record raises outside the [except] clause, the loop runs
    to the end. *)
Lemma load_records_total (recs : list json) (d : dict V) :
  (forall r e, In r recs -> from_dict r = Raise e -> caught e = true) ->
  snd (load_records from_dict key recs d) = Ok tt.
Proof.
  revert d. induction recs as [|r rest IH]; intros d H; simpl;
    [reflexivity|].
  destruct (from_dict r) as [v|e] eqn:E.
  - apply IH. intros r' e' Hin. apply H. now right.
  - rewrite (H r e (or_introl eq_refl) E). apply IH.
    intros r' e' Hin. apply H. now right.
Qed.

(** What a completed load answers for an identifier: the last record
    that parsed to an entity with it, or what was there before. *)
Lemma load_records_lookup (k : pyval) (recs : list json) (d : dict V) :
  snd (load_records from_dict key recs d) = Ok tt ->
  dict_get k (fst (load_records from_dict key recs d))
  = fold_left
      (fun found r =>
         match from_dict r with
         | Ok v => if pyval_eqb k (key v) then Some v else found
         | Raise _ => found
         end)
      recs (dict_get k d).
Proof.
  revert d. induction recs as [|r rest IH]; intros d; simpl;
    [reflexivity|].
  destruct (from_dict r) as [v|e] eqn:E.
  - intros H. rewrite (IH _ H). f_equal.
    destruct (pyval_eqb k (key v)) eqn:Ek.
    + apply pyval_eqb_eq in Ek. subst k. apply dict_get_set_same.
    + apply dict_get_set_other. now apply pyval_eqb_neq.
  - destruct (caught e); [apply IH|discriminate].
Qed.

End LoaderMore.

Lemma all_objects_caught {V : Type} (from_dict : json -> result V)
  (data : list json) :
  (forall j, In j data -> exists d, j = JObject d) ->
  (forall d e, from_dict (JObject d) = Raise e -> e = ValueError) ->
  forall r e, In r data -> from_dict r = Raise e -> caught e = true.
Proof.
  intros Hobj Hval r e Hin Hr. destruct (Hobj r Hin) as [d ->].
  now rewrite (Hval d e Hr).
Qed.

(** X9. What makes a load complete.  A customers or reservations
    file that holds a JSON list whose elements are all JSON objects
    always loads: the construction of the manager does not raise,
    whatever the objects hold.  So does a hotels file whose objects, in
    addition, do not carry the float infinity as [total_rooms] or
    [rooms_available]. *)
Theorem X9_files_of_objects_always_load (data : list json) :
  (forall j, In j data -> exists d, j = JObject d) ->
  (exists cm, CustomerManager.__init__ (JsonList data) = Ok cm)
  /\ (forall hm cm,
         exists rm, ReservationManager.__init__ (JsonList data) hm cm = Ok rm)
  /\ ((forall d, In (JObject d) data ->
                 lookup "total_rooms" d <> Some PInf
                 /\ lookup "rooms_available" d <> Some PInf) ->
      exists hm, HotelManager.__init__ (JsonList data) = Ok hm).
Proof.
  intros Hobj. split; [|split].
  - unfold CustomerManager.__init__, CustomerManager._load.
    cbn [CustomerManager.store load_json].
    pose proof (load_records_total Customer.from_dict Customer.customer_id
                  data []
                  (all_objects_caught _ data Hobj Customer_from_dict_raises))
      as H.
    destruct (load_records _ _ data []) as [d r]. cbn [snd] in H. subst r.
    now eexists.
  - intros hm cm.
    unfold ReservationManager.__init__, ReservationManager._load.
    cbn [ReservationManager.store load_json].
    pose proof (load_records_total Reservation.from_dict
                  Reservation.reservation_id data []
                  (all_objects_caught _ data Hobj Reservation_from_dict_raises))
      as H.
    destruct (load_records _ _ data []) as [d r]. cbn [snd] in H. subst r.
    now eexists.
  - intros Hfin. unfold HotelManager.__init__, HotelManager._load.
    cbn [HotelManager.store load_json].
    assert (H : snd (load_records Hotel.from_dict Hotel.hotel_id data [])
                = Ok tt).
    { apply load_records_total. intros r e Hin Hr.
      destruct (Hobj r Hin) as [d ->]. destruct (Hfin d Hin) as [Ht Ha].
      exact (Hotel_from_dict_raises d e Ht Ha Hr). }
    destruct (load_records _ _ data []) as [d r]. cbn [snd] in H. subst r.
    now eexists.
Qed.

(** X10. When a file holds several records with the same
    identifier, the last one that parses wins: after a load, each of
    the three managers answers a lookup with the entity of the last
    record of the file that parsed to an entity with that identifier,
    and with nothing when there is none. *)
Theorem X10_lookup_after_load_is_the_last_parsed_record
  (data : list json) (k : pyval) :
  (forall m, HotelManager.__init__ (JsonList data) = Ok m ->
             HotelManager.get_hotel m k
             = last_parsed Hotel.from_dict Hotel.hotel_id k data)
  /\ (forall m, CustomerManager.__init__ (JsonList data) = Ok m ->
                CustomerManager.get_customer m k
                = last_parsed Customer.from_dict Customer.customer_id k data)
  /\ (forall hm cm m,
         ReservationManager.__init__ (JsonList data) hm cm = Ok m ->
         ReservationManager.get_reservation m k
         = last_parsed Reservation.from_dict Reservation.reservation_id k
                       data).
Proof.
  split; [|split].
  - intros m. unfold HotelManager.__init__, HotelManager._load.
    cbn [HotelManager.store load_json].
    pose proof (load_records_lookup Hotel.from_dict Hotel.hotel_id k data [])
      as H.
    destruct (load_records _ _ data []) as [d r]. cbn [fst snd] in H.
    intros Hm. apply bind_unit_ok in Hm as [-> <-].
    exact (H eq_refl).
  - intros m. unfold CustomerManager.__init__, CustomerManager._load.
    cbn [CustomerManager.store load_json].
    pose proof (load_records_lookup Customer.from_dict Customer.customer_id
                  k data []) as H.
    destruct (load_records _ _ data []) as [d r]. cbn [fst snd] in H.
    intros Hm. apply bind_unit_ok in Hm as [-> <-].
    exact (H eq_refl).
  - intros hm cm m.
    unfold ReservationManager.__init__, ReservationManager._load.
    cbn [ReservationManager.store load_json].
    pose proof (load_records_lookup Reservation.from_dict
                  Reservation.reservation_id k data []) as H.
    destruct (load_records _ _ data []) as [d r]. cbn [fst snd] in H.
    intros Hm. apply bind_unit_ok in Hm as [-> <-].
    exact (H eq_refl).
Qed.

Lemma lookup_cons_other (k k' : string) (v : pyval) (d : record) :
  String.eqb k k' = false -> lookup k ((k', v) :: d) = lookup k d.
Proof. intros H. simpl. now rewrite H. Qed.

(** X11. A field a record carries beyond those of its entity is
    dropped: it changes nothing in what [from_dict] returns (the entity
    or the exception), and no [to_dict] writes it back, so it is gone
    from the file after the next save. *)
Theorem X11_unknown_record_fields_are_dropped
  (k : string) (v : pyval) (data : record) :
  (~ In k ["name"; "address"; "total_rooms"; "rooms_available"; "hotel_id"] ->
   Hotel.from_dict (JObject ((k, v) :: data)) = Hotel.from_dict (JObject data)
   /\ forall h, lookup k (Hotel.to_dict h) = None)
  /\ (~ In k ["name"; "email"; "customer_id"] ->
      Customer.from_dict (JObject ((k, v) :: data))
      = Customer.from_dict (JObject data)
      /\ forall c, lookup k (Customer.to_dict c) = None)
  /\ (~ In k ["customer_id"; "hotel_id"; "check_in"; "check_out";
              "reservation_id"] ->
      Reservation.from_dict (JObject ((k, v) :: data))
      = Reservation.from_dict (JObject data)
      /\ forall r, lookup k (Reservation.to_dict r) = None).
Proof.
  assert (Hneq : forall k', k <> k' -> String.eqb k' k = false).
  { intros k' H. apply String.eqb_neq. congruence. }
  assert (Hneq' : forall k', k <> k' -> String.eqb k k' = false).
  { intros k' H. now apply String.eqb_neq. }
  split; [|split]; intros Hk; simpl in Hk.
  - split.
    + unfold Hotel.from_dict, missing, getitem, get_default. cbn [existsb].
      rewrite !lookup_cons_other by (apply Hneq; intuition congruence).
      reflexivity.
    + intros h. unfold Hotel.to_dict. cbn [lookup].
      rewrite !Hneq' by intuition congruence. reflexivity.
  - split.
    + unfold Customer.from_dict, missing, getitem. cbn [existsb].
      rewrite !lookup_cons_other by (apply Hneq; intuition congruence).
      reflexivity.
    + intros c. unfold Customer.to_dict. cbn [lookup].
      rewrite !Hneq' by intuition congruence. reflexivity.
  - split.
    + unfold Reservation.from_dict, missing, getitem. cbn [existsb].
      rewrite !lookup_cons_other by (apply Hneq; intuition congruence).
      reflexivity.
    + intros r. unfold Reservation.to_dict. cbn [lookup].
      rewrite !Hneq' by intuition congruence. reflexivity.
Qed.

(** X12. Of the five fields of a hotel record only
    [rooms_available] may be absent.  Without it, a record with a
    non-blank name and address and a positive total (an integer, or a
    string [int] reads as one) gives a hotel with every room
    available.  Without any of the other four, [from_dict] raises
    [ValueError] and the loader passes over the record. *)
Theorem X12_hotel_record_fields
  (data : record) (n a i tr0 : pyval) (tr : Z) (k : string)
  (rest : list json) (d : dict Hotel.t) :
  (lookup "name" data = Some n -> lookup "address" data = Some a ->
   lookup "hotel_id" data = Some i -> lookup "total_rooms" data = Some tr0 ->
   lookup "rooms_available" data = None ->
   nonblank_str n = true -> nonblank_str a = true ->
   py_int tr0 = Ok tr -> 0 < tr ->
   Hotel.from_dict (JObject data) = Ok (Hotel.mk n a (PInt tr) (PInt tr) i))
  /\ (In k ["name"; "address"; "total_rooms"; "hotel_id"] ->
      lookup k data = None ->
      Hotel.from_dict (JObject data) = Raise ValueError
      /\ load_records Hotel.from_dict Hotel.hotel_id (JObject data :: rest) d
         = load_records Hotel.from_dict Hotel.hotel_id rest d).
Proof.
  split.
  - intros Ln La Li Lt Lr Hn Ha Hint Hpos.
    unfold Hotel.from_dict, missing, getitem, get_default. cbn [existsb].
    rewrite Ln, La, Li, Lt, Lr. cbn [orb bind]. rewrite Hint. cbn [bind].
    unfold Hotel.new, Hotel.__post_init__.
    cbn [Hotel.rooms_available Hotel.total_rooms Hotel.name Hotel.address
         Hotel.hotel_id pyval_eqb].
    destruct (tr =? -1) eqn:E; [lia|].
    assert (Hv : Hotel.validate (Hotel.mk n a (PInt tr) (PInt tr) i) = Ok tt).
    { apply Hotel_validate_ok. repeat split; try assumption.
      exists tr, tr. repeat split; lia. }
    now rewrite Hv.
  - intros Hk Hnone.
    assert (H : Hotel.from_dict (JObject data) = Raise ValueError).
    { unfold Hotel.from_dict, missing. cbn [existsb].
      simpl in Hk.
      destruct Hk as [<-|[<-|[<-|[<-|[]]]]]; rewrite Hnone;
        cbn [orb]; rewrite ?orb_true_r; reflexivity. }
    split; [exact H|]. cbn [load_records]. now rewrite H.
Qed.

(* ================================================================== *)
(** ** The customer manager                                            *)
(* ================================================================== *)

Lemma CustomerManager_eta (m : CustomerManager.t) :
  CustomerManager.mk (CustomerManager.store m) (CustomerManager._customers m)
  = m.
Proof. now destruct m. Qed.

Lemma cm_inv_save (s : file) (d : dict Customer.t) :
  wf_dict valid_customer Customer.customer_id d ->
  cm_inv (CustomerManager._save (CustomerManager.mk s d)).
Proof.
  intros Hwf. split; [exact Hwf|].
  unfold cm_sync, CustomerManager._save.
  cbn [CustomerManager.store CustomerManager._customers].
  apply (load_save _ _ _ valid_customer); [exact Customer_from_to_dict|].
  exact Hwf.
Qed.

Lemma cm_inv_init (f : file) (m : CustomerManager.t) :
  CustomerManager.__init__ f = Ok m -> cm_inv m.
Proof.
  unfold CustomerManager.__init__, CustomerManager._load.
  cbn [CustomerManager.store].
  destruct (load_records _ _ (load_json f) []) as [d r] eqn:E.
  intros H. apply bind_unit_ok in H as [-> <-]. split.
  - unfold cm_wf. cbn [CustomerManager._customers].
    change d with (fst (d, @Ok unit tt)). rewrite <- E.
    apply load_records_wf; [exact Customer_from_dict_valid|apply wf_dict_nil].
  - exact E.
Qed.

Lemma Customer_new_id (n e i : pyval) (c : Customer.t) :
  Customer.new n e i = Ok c -> c = Customer.mk n e i.
Proof.
  unfold Customer.new, Customer.__post_init__. intros H.
  now apply bind_unit_ok in H as [_ <-].
Qed.

Lemma customer_apply_updates_id (c : Customer.t) (kwargs : record) :
  Customer.customer_id (CustomerManager.apply_updates c kwargs)
  = Customer.customer_id c.
Proof.
  unfold CustomerManager.apply_updates. revert c.
  induction kwargs as [|[k v] kw IH]; intros c; simpl; [reflexivity|].
  rewrite IH. destruct (CustomerManager.allowed k); [|reflexivity].
  unfold Customer.setattr.
  repeat match goal with
         | |- context [if ?b then _ else _] => destruct b
         end; reflexivity.
Qed.

Lemma modify_customer_invalid (m : CustomerManager.t) (cid : pyval)
  (kwargs : record) (c : Customer.t) (e : exn) :
  cm_sync m ->
  CustomerManager.get_customer m cid = Some c ->
  Customer.validate (CustomerManager.apply_updates c kwargs) = Raise e ->
  CustomerManager.modify_customer m cid kwargs = (m, Ok None).
Proof.
  intros Hsync Hg He. unfold CustomerManager.modify_customer. rewrite Hg.
  cbn zeta. rewrite He. rewrite (Customer_validate_raises _ _ He).
  unfold CustomerManager._load. cbn [CustomerManager.store].
  unfold cm_sync in Hsync. rewrite Hsync. cbn [bind].
  now rewrite CustomerManager_eta.
Qed.

Lemma cm_inv_step (m : CustomerManager.t) (o : customer_op) :
  cm_inv m -> cm_inv (cstep m o).
Proof.
  intros [Hwf Hsync]. destruct o as [n e i|cid|cid kwargs]; cbn [cstep].
  - unfold CustomerManager.create_customer.
    destruct (Customer.new n e (PStr i)) as [c|x] eqn:E; [|now split].
    cbn [fst]. apply cm_inv_save.
    apply wf_dict_set; [exact Hwf| |reflexivity].
    now apply Customer_new_valid in E.
  - unfold CustomerManager.delete_customer.
    destruct (dict_get cid (CustomerManager._customers m)); [|now split].
    cbn [fst]. apply cm_inv_save. now apply wf_dict_del.
  - destruct (CustomerManager.get_customer m cid) as [c|] eqn:Hg.
    + destruct (Customer.validate (CustomerManager.apply_updates c kwargs))
        as [[]|x] eqn:He.
      * unfold CustomerManager.modify_customer. rewrite Hg. cbn zeta.
        rewrite He. cbn [fst]. apply cm_inv_save.
        destruct (wf_dict_get _ _ _ _ _ Hwf Hg) as [_ Hk].
        apply wf_dict_set; [exact Hwf|exact He|].
        now rewrite customer_apply_updates_id.
      * rewrite (modify_customer_invalid m cid kwargs c x Hsync Hg He).
        now split.
    + unfold CustomerManager.modify_customer. rewrite Hg. now split.
Qed.

Lemma creachable_inv (m : CustomerManager.t) : creachable m -> cm_inv m.
Proof.
  induction 1 as [f m Hinit|m o _ IH].
  - now apply (cm_inv_init f).
  - now apply cm_inv_step.
Qed.

Lemma Customer_validate_ok (c : Customer.t) :
  Customer.validate c = Ok tt <->
  nonblank_str (Customer.name c) = true
  /\ Customer.email_ok (Customer.email c) = true.
Proof.
  unfold Customer.validate.
  destruct (nonblank_str (Customer.name c)); cbn [negb].
  - destruct (Customer.email_ok (Customer.email c)); cbn [negb]; split;
      try tauto; try discriminate.
    intros [_ H]. discriminate.
  - split; [discriminate|]. intros [H _]. discriminate.
Qed.

(** X13. After any history of calls on a customer manager
    constructed from any file, every customer of the collection is
    stored under its own identifier, has a name that is a string with
    a character other than white space, and has an e-mail that is a
    string with a dot after its last "@"; no two entries share an
    identifier. *)
Theorem X13_customers_stay_valid (m : CustomerManager.t) :
  creachable m ->
  NoDup (dict_keys (CustomerManager._customers m))
  /\ forall k c, In (k, c) (CustomerManager._customers m) ->
       Customer.customer_id c = k
       /\ nonblank_str (Customer.name c) = true
       /\ exists email, Customer.email c = PStr email
                        /\ dot_after_last_at email.
Proof.
  intros Hr. destruct (creachable_inv m Hr) as [Hwf _].
  split; [exact (proj1 Hwf)|]. intros k c Hin.
  destruct (wf_dict_In _ _ _ _ _ Hwf Hin) as [Hv Hk].
  apply Customer_validate_ok in Hv as [Hn He].
  split; [exact Hk|]. split; [exact Hn|].
  destruct (Customer.email c) as [|z|email|]; try discriminate.
  exists email. split; [reflexivity|]. now apply email_ok_iff.
Qed.

(** X14. [modify_customer] with values that make the customer fail
    validation returns [None] and leaves the manager, file and memory,
    exactly as before the call; with values that pass, the customer
    returned keeps the identifier it was looked up by and is what
    [get_customer] then answers. *)
Theorem X14_modify_customer_rolls_back_or_keeps_identity
  (m : CustomerManager.t) (cid : pyval) (kwargs : record) (c : Customer.t) :
  creachable m ->
  CustomerManager.get_customer m cid = Some c ->
  match Customer.validate (CustomerManager.apply_updates c kwargs) with
  | Ok _ =>
      exists m' c',
        CustomerManager.modify_customer m cid kwargs = (m', Ok (Some c'))
        /\ Customer.customer_id c' = cid
        /\ CustomerManager.get_customer m' cid = Some c'
  | Raise _ => CustomerManager.modify_customer m cid kwargs = (m, Ok None)
  end.
Proof.
  intros Hr Hg. destruct (creachable_inv m Hr) as [Hwf Hsync].
  destruct (Customer.validate (CustomerManager.apply_updates c kwargs))
    as [[]|e] eqn:He.
  - unfold CustomerManager.modify_customer. rewrite Hg. cbn zeta.
    rewrite He. eexists. eexists. split; [reflexivity|].
    destruct (wf_dict_get _ _ _ _ _ Hwf Hg) as [_ Hk].
    split; [now rewrite customer_apply_updates_id|].
    unfold CustomerManager.get_customer.
    cbn [CustomerManager._save CustomerManager._customers].
    apply dict_get_set_same.
  - exact (modify_customer_invalid m cid kwargs c e Hsync Hg He).
Qed.

(* ================================================================== *)
(** ** The coordinator, call by call                                   *)
(* ================================================================== *)

Lemma ReservationManager_eta (rm : ReservationManager.t) :
  ReservationManager.mk
    (ReservationManager.store rm) (ReservationManager._reservations rm)
    (ReservationManager.hotel_manager rm)
    (ReservationManager.customer_manager rm) = rm.
Proof. now destruct rm. Qed.

Lemma with_hotel_manager_same (rm : ReservationManager.t)
  (hm : HotelManager.t) :
  ReservationManager.hotel_manager rm = Some hm ->
  ReservationManager.with_hotel_manager rm hm = rm.
Proof.
  intros H. unfold ReservationManager.with_hotel_manager. rewrite <- H.
  apply ReservationManager_eta.
Qed.

Lemma rm_inv_relate (rm rm' : ReservationManager.t) :
  rm_inv rm ->
  ReservationManager.store rm' = ReservationManager.store rm ->
  ReservationManager._reservations rm' = ReservationManager._reservations rm ->
  (forall hm, ReservationManager.hotel_manager rm' = Some hm -> reachable hm) ->
  ReservationManager.customer_manager rm'
  = ReservationManager.customer_manager rm ->
  rm_inv rm'.
Proof.
  intros (Hwf & Hsync & Hh & Hc) Hs Hr Hh' Hc'. unfold rm_inv, rm_wf, rm_sync.
  rewrite Hs, Hr, Hc'. repeat split; try assumption; apply Hwf.
Qed.

Lemma rm_inv_saved (rm : ReservationManager.t) (d : dict Reservation.t)
  (hm : option HotelManager.t) :
  rm_inv rm ->
  wf_dict valid_reservation Reservation.reservation_id d ->
  (forall m, hm = Some m -> reachable m) ->
  rm_inv (ReservationManager._save
            (ReservationManager.mk (ReservationManager.store rm) d hm
               (ReservationManager.customer_manager rm))).
Proof.
  intros (_ & _ & _ & Hc) Hwf Hh. unfold rm_inv, rm_wf, rm_sync.
  cbn [ReservationManager._save ReservationManager.store
       ReservationManager._reservations ReservationManager.hotel_manager
       ReservationManager.customer_manager].
  repeat split; try assumption; try apply Hwf.
  apply (load_save _ _ _ valid_reservation);
    [exact Reservation_from_to_dict|exact Hwf].
Qed.

Lemma rm_inv_create (rm : ReservationManager.t)
  (cid hid ci co : pyval) (nid : string) :
  rm_inv rm ->
  rm_inv (fst (ReservationManager.create_reservation rm cid hid ci co nid)).
Proof.
  intros Hinv. pose proof Hinv as (Hwf & Hsync & Hh & Hc).
  assert (Hbuild : forall self,
             rm_inv self ->
             ReservationManager.store self = ReservationManager.store rm ->
             ReservationManager.customer_manager self
             = ReservationManager.customer_manager rm ->
             rm_inv (fst (ReservationManager.build_and_store
                            self cid hid ci co nid))).
  { intros self Hself Hs Hcm. pose proof Hself as (Hwf' & _ & Hh' & _).
    unfold ReservationManager.build_and_store.
    destruct (Reservation.new cid hid ci co (PStr nid)) as [r|e] eqn:En.
    - cbn [fst]. rewrite Hs, Hcm. apply rm_inv_saved; try assumption.
      apply wf_dict_set; [exact Hwf'| |].
      + now apply Reservation_new_valid in En.
      + now rewrite (Reservation_new_fields _ _ _ _ _ _ En).
    - destruct e; try exact Hself.
      destruct (ReservationManager.hotel_manager self) as [hm|] eqn:Hhm;
        [|exact Hself].
      pose proof (reach_step hm (OpCancel hid) (Hh' hm eq_refl)) as Hr.
      cbn [step] in Hr.
      destruct (HotelManager.cancel_room hm hid) as [hm' r]. cbn [fst] in *.
      apply (rm_inv_relate self); try reflexivity; try assumption.
      cbn [ReservationManager.with_hotel_manager
           ReservationManager.hotel_manager].
      now intros m [= <-]. }
  unfold ReservationManager.create_reservation.
  destruct (negb (ReservationManager.customer_known rm cid)); [exact Hinv|].
  destruct (ReservationManager.hotel_manager rm) as [hm|] eqn:Hhm.
  2:{ now apply Hbuild. }
  destruct (HotelManager.get_hotel hm hid); [|exact Hinv].
  pose proof (reach_step hm (OpReserve hid) (Hh hm eq_refl)) as Hr.
  cbn [step] in Hr.
  destruct (HotelManager.reserve_room hm hid) as [hm1 r]. cbn [fst] in Hr.
  assert (Hself : rm_inv (ReservationManager.with_hotel_manager rm hm1)).
  { apply (rm_inv_relate rm); try reflexivity; try assumption.
    cbn [ReservationManager.with_hotel_manager
         ReservationManager.hotel_manager].
    now intros m [= <-]. }
  destruct r as [[|]|e]; try exact Hself.
  now apply Hbuild.
Qed.

Lemma rm_inv_cancel (rm : ReservationManager.t) (rid : pyval) :
  rm_inv rm ->
  rm_inv (fst (ReservationManager.cancel_reservation rm rid)).
Proof.
  intros Hinv. pose proof Hinv as (Hwf & Hsync & Hh & Hc).
  unfold ReservationManager.cancel_reservation.
  destruct (dict_get rid (ReservationManager._reservations rm)) as [r|];
    [|exact Hinv].
  destruct (ReservationManager.hotel_manager rm) as [hm|] eqn:Hhm.
  - pose proof (reach_step hm (OpCancel (Reservation.hotel_id r))
                  (Hh hm eq_refl)) as Hr.
    cbn [step] in Hr.
    destruct (HotelManager.cancel_room hm (Reservation.hotel_id r))
      as [hm1 o]. cbn [fst] in Hr.
    destruct o as [b|e]; cbn [fst].
    + unfold ReservationManager.remove_and_save.
      cbn [ReservationManager.with_hotel_manager ReservationManager.store
           ReservationManager._reservations ReservationManager.hotel_manager
           ReservationManager.customer_manager].
      apply rm_inv_saved; try assumption.
      * now apply wf_dict_del.
      * now intros m [= <-].
    + apply (rm_inv_relate rm); try reflexivity; try assumption.
      cbn [ReservationManager.with_hotel_manager
           ReservationManager.hotel_manager].
      now intros m [= <-].
  - cbn [fst]. unfold ReservationManager.remove_and_save.
    apply rm_inv_saved; try assumption.
    + now apply wf_dict_del.
    + rewrite Hhm. discriminate.
Qed.

Lemma rm_inv_step (rm : ReservationManager.t) (o : coordinator_op) :
  rm_inv rm -> rm_inv (rstep rm o).
Proof.
  intros Hinv. destruct o as [cid hid ci co nid|rid|o|o]; cbn [rstep].
  - now apply rm_inv_create.
  - now apply rm_inv_cancel.
  - pose proof Hinv as (Hwf & Hsync & Hh & Hc).
    apply (rm_inv_relate rm); try reflexivity; try assumption.
    cbn [ReservationManager.hotel_manager].
    destruct (ReservationManager.hotel_manager rm) as [hm|];
      cbn [option_map]; [|discriminate].
    intros m [= <-]. apply reach_step. now apply Hh.
  - pose proof Hinv as (Hwf & Hsync & Hh & Hc).
    unfold rm_inv, rm_wf, rm_sync.
    cbn [ReservationManager.store ReservationManager._reservations
         ReservationManager.hotel_manager ReservationManager.customer_manager].
    repeat split; try assumption; try apply Hwf.
    destruct (ReservationManager.customer_manager rm) as [cm|];
      cbn [option_map]; [|discriminate].
    intros m [= <-]. apply creach_step. now apply Hc.
Qed.

Lemma rm_inv_init (f : file) (hm : option HotelManager.t)
  (cm : option CustomerManager.t) (rm : ReservationManager.t) :
  (forall m, hm = Some m -> reachable m) ->
  (forall m, cm = Some m -> creachable m) ->
  ReservationManager.__init__ f hm cm = Ok rm -> rm_inv rm.
Proof.
  intros Hh Hc. unfold ReservationManager.__init__, ReservationManager._load.
  cbn [ReservationManager.store ReservationManager.hotel_manager
       ReservationManager.customer_manager].
  destruct (load_records _ _ (load_json f) []) as [d r] eqn:E.
  intros H. apply bind_unit_ok in H as [-> <-].
  unfold rm_inv, rm_wf, rm_sync.
  cbn [ReservationManager.store ReservationManager._reservations
       ReservationManager.hotel_manager ReservationManager.customer_manager].
  split; [|split; [|split]]; try assumption.
  change d with (fst (d, @Ok unit tt)). rewrite <- E.
  apply load_records_wf;
    [exact Reservation_from_dict_valid|apply wf_dict_nil].
Qed.

Lemma rreachable_inv (rm : ReservationManager.t) : rreachable rm -> rm_inv rm.
Proof.
  induction 1 as [f hm cm rm Hh Hc Hinit|rm o _ IH].
  - now apply (rm_inv_init f hm cm).
  - now apply rm_inv_step.
Qed.

Lemma Reservation_validate_ok (r : Reservation.t) :
  Reservation.validate r = Ok tt ->
  truthy (Reservation.customer_id r) = true
  /\ truthy (Reservation.hotel_id r) = true
  /\ stay_is_positive r.
Proof.
  unfold Reservation.validate, Reservation.parse_dates, stay_is_positive.
  destruct (truthy (Reservation.customer_id r)); cbn [negb]; [|discriminate].
  destruct (truthy (Reservation.hotel_id r)); cbn [negb]; [|discriminate].
  destruct (fromisoformat (Reservation.check_in r)) as [d1|e1] eqn:E1;
    cbn [bind].
  - destruct (fromisoformat (Reservation.check_out r)) as [d2|e2] eqn:E2;
      cbn [bind fst snd].
    + destruct (date_le d2 d1) eqn:E; [discriminate|]. intros _.
      repeat split. now exists d1, d2.
    + destruct (fromisoformat_raises _ _ E2) as [-> | ->]; discriminate.
  - destruct (fromisoformat_raises _ _ E1) as [-> | ->]; discriminate.
Qed.

Lemma Reservation_new_raises (c h ci co i : pyval) (e : exn) :
  Reservation.new c h ci co i = Raise e -> e = ValueError.
Proof.
  unfold Reservation.new, Reservation.__post_init__. intros H.
  apply bind_unit_raise in H. now apply Reservation_validate_raises in H.
Qed.

(** X15. After any history of a coordinator (its own calls and
    calls made directly on the managers it shares), no two stored
    reservations share an identifier, and every stored reservation is
    kept under its own identifier, names a customer and a hotel by
    non-empty values, and has two dates that parse with check-out
    strictly after check-in. *)
Theorem X15_stored_reservations_stay_valid (rm : ReservationManager.t) :
  rreachable rm ->
  NoDup (dict_keys (ReservationManager._reservations rm))
  /\ forall k r, In (k, r) (ReservationManager._reservations rm) ->
       Reservation.reservation_id r = k
       /\ truthy (Reservation.customer_id r) = true
       /\ truthy (Reservation.hotel_id r) = true
       /\ stay_is_positive r.
Proof.
  intros Hr. destruct (rreachable_inv rm Hr) as (Hwf & _).
  split; [exact (proj1 Hwf)|]. intros k r Hin.
  destruct (wf_dict_In _ _ _ _ _ Hwf Hin) as [Hv Hk].
  split; [exact Hk|]. now apply Reservation_validate_ok.
Qed.

(** X16. After any history, the file of a customer manager and the
    file of a coordinator hold exactly what is in memory: a manager
    constructed on the file (for the coordinator, with the same two
    managers attached) is equal to the current one. *)
Theorem X16_customer_and_reservation_files_reload_to_memory
  (cm : CustomerManager.t) (rm : ReservationManager.t) :
  creachable cm -> rreachable rm ->
  CustomerManager.__init__ (CustomerManager.store cm) = Ok cm
  /\ ReservationManager.__init__
       (ReservationManager.store rm) (ReservationManager.hotel_manager rm)
       (ReservationManager.customer_manager rm) = Ok rm.
Proof.
  intros Hc Hr. split.
  - destruct (creachable_inv cm Hc) as [_ Hsync].
    unfold CustomerManager.__init__, CustomerManager._load.
    cbn [CustomerManager.store]. unfold cm_sync in Hsync. rewrite Hsync.
    cbn [bind]. now rewrite CustomerManager_eta.
  - destruct (rreachable_inv rm Hr) as (_ & Hsync & _).
    unfold ReservationManager.__init__, ReservationManager._load.
    cbn [ReservationManager.store ReservationManager.hotel_manager
         ReservationManager.customer_manager].
    unfold rm_sync in Hsync. rewrite Hsync. cbn [bind].
    now rewrite ReservationManager_eta.
Qed.

Lemma cancel_room_wf (hm : HotelManager.t) (hid : pyval) :
  hm_wf hm ->
  exists hm' b,
    HotelManager.cancel_room hm hid = (hm', Ok b)
    /\ forall k, k <> hid ->
         HotelManager.get_hotel hm' k = HotelManager.get_hotel hm k.
Proof.
  intros Hwf. destruct (HotelManager.get_hotel hm hid) as [h|] eqn:Hg.
  - destruct (wf_dict_get _ _ _ _ _ Hwf Hg) as [Hv _].
    apply Hotel_validate_ok in Hv as (_ & _ & t & a & Ht & Ha & _ & Hb).
    rewrite (cancel_room_int hm hid h a t Hg Ha Ht).
    destruct (t <=? a).
    + now exists hm, false.
    + eexists. exists true. split; [reflexivity|].
      intros k Hk. unfold HotelManager.get_hotel.
      cbn [HotelManager._save HotelManager._hotels].
      now apply dict_get_set_other.
  - unfold HotelManager.cancel_room. rewrite Hg. now exists hm, false.
Qed.

Lemma reserve_room_wf (hm : HotelManager.t) (hid : pyval) :
  hm_wf hm ->
  exists hm' b,
    HotelManager.reserve_room hm hid = (hm', Ok b)
    /\ forall k, k <> hid ->
         HotelManager.get_hotel hm' k = HotelManager.get_hotel hm k.
Proof.
  intros Hwf. destruct (HotelManager.get_hotel hm hid) as [h|] eqn:Hg.
  - destruct (wf_dict_get _ _ _ _ _ Hwf Hg) as [Hv _].
    apply Hotel_validate_ok in Hv as (_ & _ & t & a & Ht & Ha & _ & Hb).
    rewrite (reserve_room_int hm hid h a Hg Ha).
    destruct (a <=? 0).
    + now exists hm, false.
    + eexists. exists true. split; [reflexivity|].
      intros k Hk. unfold HotelManager.get_hotel.
      cbn [HotelManager._save HotelManager._hotels].
      now apply dict_get_set_other.
  - unfold HotelManager.reserve_room. rewrite Hg. now exists hm, false.
Qed.

Lemma create_reservation_none_shape
  (rm : ReservationManager.t) (cid hid ci co : pyval) (nid : string) :
  attached_wf rm ->
  exists rm' o,
    ReservationManager.create_reservation rm cid hid ci co nid = (rm', Ok o)
    /\ (o = None ->
        ReservationManager._reservations rm'
        = ReservationManager._reservations rm
        /\ ReservationManager.store rm' = ReservationManager.store rm
        /\ ReservationManager.customer_manager rm'
           = ReservationManager.customer_manager rm
        /\ option_map HotelManager._hotels (ReservationManager.hotel_manager rm')
           = option_map HotelManager._hotels
                        (ReservationManager.hotel_manager rm)).
Proof.
  intros Hatt. unfold ReservationManager.create_reservation.
  destruct (negb (ReservationManager.customer_known rm cid)).
  { exists rm, None. split; [reflexivity|]. intros _.
    repeat split; rewrite ?Hhm; reflexivity. }
  destruct (ReservationManager.hotel_manager rm) as [hm|] eqn:Hhm.
  - specialize (Hatt hm Hhm).
    destruct (HotelManager.get_hotel hm hid) as [h|] eqn:Hg.
    2:{ exists rm, None. split; [reflexivity|]. intros _.
        repeat split; rewrite ?Hhm; reflexivity. }
    destruct (wf_dict_get _ _ _ _ _ Hatt Hg) as [Hv _].
    apply Hotel_validate_ok in Hv as (_ & _ & t & a & Ht & Ha & _ & Hb).
    destruct (a <=? 0) eqn:E.
    { rewrite (reserve_room_int hm hid h a Hg Ha), E.
      eexists. exists None. split; [reflexivity|]. intros _.
      cbn [ReservationManager.with_hotel_manager
           ReservationManager._reservations ReservationManager.store
           ReservationManager.customer_manager
           ReservationManager.hotel_manager option_map].
      repeat split; rewrite ?Hhm; reflexivity. }
    destruct (release_after_reserve hm hid h a t Hg Ha Ht ltac:(lia))
      as (hm1 & Hres & _ & Hcan).
    rewrite Hres. unfold ReservationManager.build_and_store.
    destruct (Reservation.new cid hid ci co (PStr nid)) as [r|e] eqn:En.
    + eexists. exists (Some r). split; [reflexivity|]. discriminate.
    + rewrite (Reservation_new_raises _ _ _ _ _ _ En).
      cbn [ReservationManager.with_hotel_manager
           ReservationManager.hotel_manager].
      rewrite Hcan. cbn [bind].
      eexists. exists None. split; [reflexivity|]. intros _.
      cbn [ReservationManager._reservations ReservationManager.store
           ReservationManager.customer_manager
           ReservationManager.hotel_manager option_map].
      repeat split; rewrite ?Hhm; reflexivity.
  - unfold ReservationManager.build_and_store.
    destruct (Reservation.new cid hid ci co (PStr nid)) as [r|e] eqn:En.
    + eexists. exists (Some r). split; [reflexivity|]. discriminate.
    + rewrite (Reservation_new_raises _ _ _ _ _ _ En). rewrite ?Hhm.
      exists rm, None. split; [reflexivity|]. intros _.
    repeat split; rewrite ?Hhm; reflexivity.
Qed.

(** X17. With a well-formed hotel manager attached (or none),
    [create_reservation] never raises: it returns a reservation or
    [None].  When it returns [None], for whichever reason (unknown
    customer, unknown hotel, no room, missing identifier, bad dates),
    nothing is left behind: the reservations and their file, the
    customer manager, and the hotels of the hotel manager are as before
    the call. *)
Theorem X17_failed_create_reservation_leaves_no_trace
  (rm : ReservationManager.t) (cid hid ci co : pyval) (nid : string) :
  attached_wf rm ->
  exists rm' o,
    ReservationManager.create_reservation rm cid hid ci co nid = (rm', Ok o)
    /\ (o = None ->
        ReservationManager._reservations rm'
        = ReservationManager._reservations rm
        /\ ReservationManager.store rm' = ReservationManager.store rm
        /\ ReservationManager.customer_manager rm'
           = ReservationManager.customer_manager rm
        /\ option_map HotelManager._hotels (ReservationManager.hotel_manager rm')
           = option_map HotelManager._hotels
                        (ReservationManager.hotel_manager rm)).
Proof.
  exact (create_reservation_none_shape rm cid hid ci co nid).
Qed.

Lemma create_reservation_success_shape
  (rm rm' : ReservationManager.t) (cid hid ci co : pyval) (nid : string)
  (r : Reservation.t) :
  attached_wf rm ->
  ReservationManager.create_reservation rm cid hid ci co nid
  = (rm', Ok (Some r)) ->
  ReservationManager.customer_known rm cid = true
  /\ Reservation.new cid hid ci co (PStr nid) = Ok r
  /\ (forall hm, ReservationManager.hotel_manager rm = Some hm ->
                 exists a, available hm hid = Some (PInt a) /\ 0 < a)
  /\ ReservationManager._reservations rm'
     = dict_set (PStr nid) r (ReservationManager._reservations rm)
  /\ ReservationManager.hotel_manager rm'
     = option_map (fun hm => fst (HotelManager.reserve_room hm hid))
                  (ReservationManager.hotel_manager rm).
Proof.
  intros Hatt Hcr. unfold ReservationManager.create_reservation in Hcr.
  destruct (ReservationManager.customer_known rm cid); cbn [negb] in Hcr;
    [|discriminate].
  split; [reflexivity|].
  assert (Hbuild : forall self,
             ReservationManager._reservations self
             = ReservationManager._reservations rm ->
             ReservationManager.build_and_store self cid hid ci co nid
             = (rm', Ok (Some r)) ->
             Reservation.new cid hid ci co (PStr nid) = Ok r
             /\ ReservationManager._reservations rm'
                = dict_set (PStr nid) r (ReservationManager._reservations rm)
             /\ ReservationManager.hotel_manager rm'
                = ReservationManager.hotel_manager self).
  { intros self Hs Hb. unfold ReservationManager.build_and_store in Hb.
    destruct (Reservation.new cid hid ci co (PStr nid)) as [res|e] eqn:En.
    - injection Hb as <- <-. split; [reflexivity|].
      cbn [ReservationManager._save ReservationManager._reservations
           ReservationManager.hotel_manager].
      rewrite Hs. now rewrite (Reservation_new_fields _ _ _ _ _ _ En).
    - rewrite (Reservation_new_raises _ _ _ _ _ _ En) in Hb.
      destruct (ReservationManager.hotel_manager self) as [hm|];
        [|discriminate].
      destruct (HotelManager.cancel_room hm hid) as [hm' [b|e']];
        discriminate. }
  destruct (ReservationManager.hotel_manager rm) as [hm|] eqn:Hhm.
  - specialize (Hatt hm Hhm).
    destruct (HotelManager.get_hotel hm hid) as [h|] eqn:Hg; [|discriminate].
    destruct (wf_dict_get _ _ _ _ _ Hatt Hg) as [Hv _].
    apply Hotel_validate_ok in Hv as (_ & _ & t & a & Ht & Ha & _ & Hb).
    rewrite (reserve_room_int hm hid h a Hg Ha) in Hcr.
    destruct (a <=? 0) eqn:E; [discriminate|].
    destruct (Hbuild (ReservationManager.with_hotel_manager rm _) eq_refl Hcr)
      as (Hnew & Hres & Hhm').
    split; [exact Hnew|]. split; [|split; [exact Hres|]].
    + intros hm0 [= <-]. exists a. apply Z.leb_gt in E. split; [|lia].
      unfold available. rewrite Hg. cbn [option_map]. now rewrite Ha.
    + rewrite Hhm'. cbn [option_map ReservationManager.with_hotel_manager
                         ReservationManager.hotel_manager].
      rewrite (reserve_room_int hm hid h a Hg Ha), E. reflexivity.
  - destruct (Hbuild _ eq_refl Hcr) as (Hnew & Hres & Hhm').
    split; [exact Hnew|]. split; [discriminate|]. split; [exact Hres|].
    now rewrite Hhm', Hhm.
Qed.

(** X18. With a well-formed hotel manager attached (or none),
    [create_reservation] returns a reservation exactly when the
    customer is known (or no customer manager is attached), the hotel
    has an integer count of at least one room available (or no hotel
    manager is attached), and the reservation passes validation.  The
    reservation returned is then what [get_reservation] answers for the
    new identifier, and the other identifiers answer as before. *)
Theorem X18_create_reservation_succeeds_exactly_when
  (rm : ReservationManager.t) (cid hid ci co : pyval) (nid : string)
  (r : Reservation.t) :
  attached_wf rm ->
  ((exists rm',
       ReservationManager.create_reservation rm cid hid ci co nid
       = (rm', Ok (Some r)))
   <-> ReservationManager.customer_known rm cid = true
       /\ Reservation.new cid hid ci co (PStr nid) = Ok r
       /\ forall hm, ReservationManager.hotel_manager rm = Some hm ->
                     exists a, available hm hid = Some (PInt a) /\ 0 < a)
  /\ forall rm',
       ReservationManager.create_reservation rm cid hid ci co nid
       = (rm', Ok (Some r)) ->
       ReservationManager.get_reservation rm' (PStr nid) = Some r
       /\ forall k, k <> PStr nid ->
            ReservationManager.get_reservation rm' k
            = ReservationManager.get_reservation rm k.
Proof.
  intros Hatt. split; [split|].
  - intros [rm' Hcr].
    destruct (create_reservation_success_shape rm rm' cid hid ci co nid r
                Hatt Hcr) as (Hc & Hn & Hroom & _ & _).
    now repeat split.
  - intros (Hc & Hn & Hroom).
    unfold ReservationManager.create_reservation. rewrite Hc. cbn [negb].
    destruct (ReservationManager.hotel_manager rm) as [hm|] eqn:Hhm.
    + destruct (Hroom hm eq_refl) as (a & Hav & Hpos).
      unfold available in Hav.
      destruct (HotelManager.get_hotel hm hid) as [h|] eqn:Hg;
        [|discriminate].
      cbn [option_map] in Hav. injection Hav as Ha.
      rewrite (reserve_room_int hm hid h a Hg Ha).
      destruct (a <=? 0) eqn:E; [lia|].
      unfold ReservationManager.build_and_store. rewrite Hn. now eexists.
    + unfold ReservationManager.build_and_store. rewrite Hn. now eexists.
  - intros rm' Hcr.
    destruct (create_reservation_success_shape rm rm' cid hid ci co nid r
                Hatt Hcr) as (_ & _ & _ & Hres & _).
    unfold ReservationManager.get_reservation. rewrite Hres. split.
    + apply dict_get_set_same.
    + intros k Hk. now apply dict_get_set_other.
Qed.

(** X19. A reservation is cancelled once.  With a well-formed
    hotel manager attached (or none) and reservations kept under
    distinct identifiers, [cancel_reservation] of a stored reservation
    returns [True], after which the identifier is unknown, the other
    reservations are as before, and a second [cancel_reservation] of it
    returns [False] and changes nothing, so no room is released twice.
    On an unknown identifier the first call already returns [False] and
    changes nothing. *)
Theorem X19_a_reservation_is_cancelled_once
  (rm : ReservationManager.t) (rid : pyval) :
  attached_wf rm ->
  NoDup (dict_keys (ReservationManager._reservations rm)) ->
  match ReservationManager.get_reservation rm rid with
  | Some _ =>
      exists rm1,
        ReservationManager.cancel_reservation rm rid = (rm1, Ok true)
        /\ ReservationManager.get_reservation rm1 rid = None
        /\ (forall k, k <> rid ->
              ReservationManager.get_reservation rm1 k
              = ReservationManager.get_reservation rm k)
        /\ ReservationManager.cancel_reservation rm1 rid = (rm1, Ok false)
  | None => ReservationManager.cancel_reservation rm rid = (rm, Ok false)
  end.
Proof.
  intros Hatt Hnd. unfold ReservationManager.get_reservation.
  destruct (dict_get rid (ReservationManager._reservations rm)) as [r|] eqn:Hg.
  2:{ unfold ReservationManager.cancel_reservation. now rewrite Hg. }
  assert (Hdone : forall self,
             ReservationManager._reservations self
             = ReservationManager._reservations rm ->
             let rm1 := ReservationManager.remove_and_save self rid in
             ReservationManager.get_reservation rm1 rid = None
             /\ (forall k, k <> rid ->
                   ReservationManager.get_reservation rm1 k
                   = dict_get k (ReservationManager._reservations rm))
             /\ ReservationManager.cancel_reservation rm1 rid
                = (rm1, Ok false)).
  { intros self Hs rm1.
    assert (Hnone : ReservationManager.get_reservation rm1 rid = None).
    { unfold ReservationManager.get_reservation. subst rm1.
      cbn [ReservationManager.remove_and_save ReservationManager._save
           ReservationManager._reservations].
      rewrite Hs. now apply dict_get_del_same. }
    split; [exact Hnone|]. split.
    - intros k Hk. unfold ReservationManager.get_reservation. subst rm1.
      cbn [ReservationManager.remove_and_save ReservationManager._save
           ReservationManager._reservations].
      rewrite Hs. now apply dict_get_del_other.
    - unfold ReservationManager.cancel_reservation.
      unfold ReservationManager.get_reservation in Hnone.
      now rewrite Hnone. }
  unfold ReservationManager.cancel_reservation at 1. rewrite Hg.
  destruct (ReservationManager.hotel_manager rm) as [hm|] eqn:Hhm.
  - destruct (cancel_room_wf hm (Reservation.hotel_id r) (Hatt hm Hhm))
      as (hm' & b & Hc & _).
    rewrite Hc. eexists. split; [reflexivity|].
    exact (Hdone (ReservationManager.with_hotel_manager rm hm') eq_refl).
  - eexists. split; [reflexivity|]. exact (Hdone rm eq_refl).
Qed.

(* ================================================================== *)
(** ** Rooms free and rooms booked                                     *)
(* ================================================================== *)

Lemma hm_wf_reserve (hm : HotelManager.t) (hid : pyval) :
  hm_wf hm -> hm_wf (fst (HotelManager.reserve_room hm hid)).
Proof.
  intros Hwf. destruct (HotelManager.get_hotel hm hid) as [h|] eqn:Hg.
  - destruct (wf_dict_get _ _ _ _ _ Hwf Hg) as [Hv Hk].
    pose proof Hv as Hv'.
    apply Hotel_validate_ok in Hv' as (_ & _ & tr & ra & Ht & Hra & Htr & Hb).
    rewrite (reserve_room_int hm hid h ra Hg Hra).
    destruct (Z.leb_spec ra 0); [exact Hwf|].
    cbn [fst]. apply wf_dict_set; [exact Hwf| |exact Hk].
    apply with_rooms_available_valid; [exact Hv|].
    intros tr' Ht'. rewrite Ht in Ht'. injection Ht' as <-. lia.
  - unfold HotelManager.reserve_room. now rewrite Hg.
Qed.

Lemma hm_wf_cancel (hm : HotelManager.t) (hid : pyval) :
  hm_wf hm -> hm_wf (fst (HotelManager.cancel_room hm hid)).
Proof.
  intros Hwf. destruct (HotelManager.get_hotel hm hid) as [h|] eqn:Hg.
  - destruct (wf_dict_get _ _ _ _ _ Hwf Hg) as [Hv Hk].
    pose proof Hv as Hv'.
    apply Hotel_validate_ok in Hv' as (_ & _ & tr & ra & Ht & Hra & Htr & Hb).
    rewrite (cancel_room_int hm hid h ra tr Hg Hra Ht).
    destruct (Z.leb_spec tr ra); [exact Hwf|].
    cbn [fst]. apply wf_dict_set; [exact Hwf| |exact Hk].
    apply with_rooms_available_valid; [exact Hv|].
    intros tr' Ht'. rewrite Ht in Ht'. injection Ht' as <-. lia.
  - unfold HotelManager.cancel_room. now rewrite Hg.
Qed.

Lemma create_reservation_attached_wf
  (rm : ReservationManager.t) (cid hid ci co : pyval) (nid : string) :
  attached_wf rm ->
  attached_wf (fst (ReservationManager.create_reservation
                      rm cid hid ci co nid)).
Proof.
  intros Hatt. unfold ReservationManager.create_reservation.
  destruct (negb (ReservationManager.customer_known rm cid)); [exact Hatt|].
  assert (Hbuild : forall self,
             attached_wf self ->
             attached_wf (fst (ReservationManager.build_and_store
                                 self cid hid ci co nid))).
  { intros self Hself. unfold ReservationManager.build_and_store.
    destruct (Reservation.new cid hid ci co (PStr nid)) as [r|e].
    - exact Hself.
    - destruct e; try exact Hself.
      destruct (ReservationManager.hotel_manager self) as [hm|] eqn:Hhm;
        [|exact Hself].
      pose proof (hm_wf_cancel hm hid (Hself hm Hhm)) as Hc.
      destruct (HotelManager.cancel_room hm hid) as [hm' r].
      intros m. cbn. now intros [= <-]. }
  destruct (ReservationManager.hotel_manager rm) as [hm|] eqn:Hhm;
    [|now apply Hbuild].
  destruct (HotelManager.get_hotel hm hid); [|exact Hatt].
  pose proof (hm_wf_reserve hm hid (Hatt hm Hhm)) as Hr.
  destruct (HotelManager.reserve_room hm hid) as [hm1 r]. cbn [fst] in Hr.
  assert (Hself : attached_wf (ReservationManager.with_hotel_manager rm hm1)).
  { intros m. cbn. now intros [= <-]. }
  destruct r as [[|]|e]; try exact Hself. now apply Hbuild.
Qed.

Lemma cancel_reservation_attached_wf
  (rm : ReservationManager.t) (rid : pyval) :
  attached_wf rm ->
  attached_wf (fst (ReservationManager.cancel_reservation rm rid)).
Proof.
  intros Hatt. unfold ReservationManager.cancel_reservation.
  destruct (dict_get rid (ReservationManager._reservations rm)) as [r|];
    [|exact Hatt].
  destruct (ReservationManager.hotel_manager rm) as [hm|] eqn:Hhm.
  - pose proof (hm_wf_cancel hm (Reservation.hotel_id r) (Hatt hm Hhm)) as Hc.
    destruct (HotelManager.cancel_room hm (Reservation.hotel_id r))
      as [hm1 [b|e]]; intros m; cbn; now intros [= <-].
  - intros m. cbn. rewrite Hhm. discriminate.
Qed.

Lemma balanced_create (rm : ReservationManager.t) (hid : pyval)
  (cid hid' ci co : pyval) (nid : string) :
  attached_wf rm -> balanced rm hid ->
  ReservationManager.get_reservation rm (PStr nid) = None ->
  balanced (fst (ReservationManager.create_reservation rm cid hid' ci co nid))
           hid.
Proof.
  intros Hatt (hm & h & a & t & Hhm & Hg & Ha & Ht & Hbal) Hfresh.
  destruct (create_reservation_none_shape rm cid hid' ci co nid Hatt)
    as (rm' & o & Hcr & Hnone).
  rewrite Hcr. cbn [fst]. destruct o as [r|].
  - destruct (create_reservation_success_shape rm rm' cid hid' ci co nid r
                Hatt Hcr) as (_ & Hnew & Hroom & Hres & Hhm').
    rewrite Hhm in Hhm'. cbn [option_map] in Hhm'.
    apply Reservation_new_fields in Hnew.
    assert (Hb' : booked rm' hid
                  = booked rm hid + (if pyval_eqb hid' hid then 1 else 0)).
    { unfold booked, ReservationManager.list_reservations. rewrite Hres.
      unfold ReservationManager.get_reservation in Hfresh.
      rewrite (filter_values_set_absent _ _ _ _ Hfresh). subst r.
      cbn [Reservation.hotel_id]. destruct (pyval_eqb hid' hid); lia. }
    destruct (pyval_eqb hid' hid) eqn:E.
    + apply pyval_eqb_eq in E. subst hid'.
      destruct (Hroom hm Hhm) as (a0 & Hav & Hpos).
      unfold available in Hav. rewrite Hg in Hav. cbn [option_map] in Hav.
      rewrite Ha in Hav. injection Hav as <-.
      rewrite (reserve_room_int hm hid h a Hg Ha) in Hhm'.
      destruct (Z.leb_spec a 0); [lia|]. cbn [fst] in Hhm'.
      exists (HotelManager._save
                (HotelManager.mk (HotelManager.store hm)
                   (dict_set hid
                      (HotelManager.with_rooms_available h (PInt (a + -1)))
                      (HotelManager._hotels hm)))),
        (HotelManager.with_rooms_available h (PInt (a + -1))), (a + -1), t.
      split; [exact Hhm'|]. split.
      { unfold HotelManager.get_hotel.
        cbn [HotelManager._save HotelManager._hotels].
        apply dict_get_set_same. }
      split; [reflexivity|]. split; [exact Ht|]. lia.
    + destruct (reserve_room_wf hm hid' (Hatt hm Hhm))
        as (hm1 & b & Hres1 & Hframe).
      rewrite Hres1 in Hhm'. cbn [fst] in Hhm'.
      exists hm1, h, a, t. split; [exact Hhm'|]. split.
      { rewrite Hframe; [exact Hg|].
        apply pyval_eqb_neq in E. congruence. }
      split; [exact Ha|]. split; [exact Ht|]. lia.
  - destruct (Hnone eq_refl) as (Hres & _ & _ & Hhotels).
    rewrite Hhm in Hhotels. cbn [option_map] in Hhotels.
    destruct (ReservationManager.hotel_manager rm') as [hm'|] eqn:Hhm';
      [|discriminate].
    cbn [option_map] in Hhotels. injection Hhotels as Hhotels.
    exists hm', h, a, t. split; [exact Hhm'|]. split.
    { unfold HotelManager.get_hotel in *. now rewrite Hhotels. }
    split; [exact Ha|]. split; [exact Ht|].
    unfold booked, ReservationManager.list_reservations in *.
    now rewrite Hres.
Qed.

Lemma balanced_cancel (rm : ReservationManager.t) (hid rid : pyval) :
  attached_wf rm -> balanced rm hid ->
  balanced (fst (ReservationManager.cancel_reservation rm rid)) hid.
Proof.
  intros Hatt Hbalanced.
  pose proof Hbalanced as (hm & h & a & t & Hhm & Hg & Ha & Ht & Hbal).
  unfold ReservationManager.cancel_reservation.
  destruct (dict_get rid (ReservationManager._reservations rm)) as [r|] eqn:Hr;
    [|exact Hbalanced].
  rewrite Hhm.
  pose proof (filter_values_dict_del
                (fun r0 => pyval_eqb (Reservation.hotel_id r0) hid)
                _ _ _ Hr) as Hcount.
  cbv beta in Hcount.
  destruct (pyval_eqb (Reservation.hotel_id r) hid) eqn:E.
  - apply pyval_eqb_eq in E. rewrite E.
    assert (Hlt : a < t).
    { unfold booked, ReservationManager.list_reservations in Hbal. lia. }
    rewrite (cancel_room_int hm hid h a t Hg Ha Ht).
    destruct (Z.leb_spec t a); [lia|]. cbn [fst].
    eexists. exists (HotelManager.with_rooms_available h (PInt (a + 1))),
      (a + 1), t.
    split; [reflexivity|]. split.
    { unfold HotelManager.get_hotel.
      cbn [HotelManager._save HotelManager._hotels].
      apply dict_get_set_same. }
    split; [reflexivity|]. split; [exact Ht|].
    unfold booked, ReservationManager.list_reservations in *.
    cbn [ReservationManager.remove_and_save ReservationManager._save
         ReservationManager._reservations
         ReservationManager.with_hotel_manager]. lia.
  - destruct (cancel_room_wf hm (Reservation.hotel_id r) (Hatt hm Hhm))
      as (hm1 & b & Hc & Hframe).
    rewrite Hc. cbn [fst].
    exists hm1, h, a, t. split; [reflexivity|]. split.
    { rewrite Hframe; [exact Hg|].
      apply pyval_eqb_neq in E. congruence. }
    split; [exact Ha|]. split; [exact Ht|].
    unfold booked, ReservationManager.list_reservations in *.
    cbn [ReservationManager.remove_and_save ReservationManager._save
         ReservationManager._reservations
         ReservationManager.with_hotel_manager]. lia.
Qed.

(** X20. Rooms free plus rooms booked stay equal to the size of
    the hotel.  If, for a hotel of a well-formed attached hotel
    manager, [rooms_available] plus the number of stored reservations
    naming that hotel equals [total_rooms], then this still holds after
    any [create_reservation] made with an identifier not yet in use
    (for this or another hotel, whether it succeeds or not) and after
    any [cancel_reservation]; the hotel manager attached afterwards is
    again well formed, so the statement applies to the next call. *)
Theorem X20_rooms_free_plus_booked_is_kept
  (rm : ReservationManager.t) (hid : pyval) :
  attached_wf rm -> balanced rm hid ->
  (forall cid hid' ci co nid,
      ReservationManager.get_reservation rm (PStr nid) = None ->
      balanced (fst (ReservationManager.create_reservation
                       rm cid hid' ci co nid)) hid
      /\ attached_wf (fst (ReservationManager.create_reservation
                             rm cid hid' ci co nid)))
  /\ (forall rid,
         balanced (fst (ReservationManager.cancel_reservation rm rid)) hid
         /\ attached_wf (fst (ReservationManager.cancel_reservation rm rid))).
Proof.
  intros Hatt Hbal. split.
  - intros cid hid' ci co nid Hfresh. split.
    + now apply balanced_create.
    + now apply create_reservation_attached_wf.
  - intros rid. split.
    + now apply balanced_cancel.
    + now apply cancel_reservation_attached_wf.
Qed.

(* ================================================================== *)
(** ** The console commands                                            *)
(* ================================================================== *)

(** X21. [pick] hands out only what it was given: an identifier it
    returns is the second component of one of the items; with no item
    it returns [None] without reading a line; and when the line read
    is, once stripped, a number [k] that [int] accepts with
    [1 <= k <= len(items)], it returns the identifier of the [k]-th
    item.  A number below 1 is refused, so it never counts from the
    end of the list. *)
Theorem X21_pick_returns_an_offered_identifier
  (A : Type) (items : list (string * A)) (stdin : list string) :
  (forall v rest, Cli.pick items stdin = Some (Some v, rest) ->
                  exists label, In (label, v) items)
  /\ (items = [] -> Cli.pick items stdin = Some (None, stdin))
  /\ (forall line rest k,
         stdin = line :: rest ->
         int_of_str (strip line) = Some k ->
         (1 <= k <= Z.of_nat (List.length items) ->
          exists label v,
            nth_error items (Z.to_nat (k - 1)) = Some (label, v)
            /\ Cli.pick items stdin = Some (Some v, rest))
         /\ (k < 1 -> items <> [] -> Cli.pick items stdin = Some (None, rest))).
Proof.
  split; [|split].
  - intros v rest. unfold Cli.pick.
    destruct items as [|it items']; [discriminate|].
    destruct stdin as [|line rest']; [discriminate|].
    destruct (py_int (PStr (strip line))) as [idx|e]; [|discriminate].
    destruct ((idx <? 1) || (idx >? Z.of_nat (List.length (it :: items'))));
      [discriminate|].
    destruct (nth_error (it :: items') (Z.to_nat (idx - 1)))
      as [[label v']|] eqn:E; [|discriminate].
    cbn [option_map snd]. intros [= <- _]. exists label.
    now apply nth_error_In in E.
  - now intros ->.
  - intros line rest k -> Hk. split.
    + intros Hrange. unfold Cli.pick.
      destruct items as [|it items']; [cbn in Hrange; lia|].
      cbn [py_int]. rewrite Hk.
      destruct (Z.ltb_spec k 1); [lia|].
      destruct (Z.gtb_spec k (Z.of_nat (List.length (it :: items'))));
        [lia|]. cbn [orb].
      destruct (nth_error (it :: items') (Z.to_nat (k - 1)))
        as [[label v]|] eqn:E.
      * now exists label, v.
      * apply nth_error_None in E. lia.
    + intros Hlow Hne. unfold Cli.pick.
      destruct items as [|it items']; [congruence|].
      cbn [py_int]. rewrite Hk.
      destruct (Z.ltb_spec k 1); [reflexivity|lia].
Qed.

Lemma Hotel_new_raises (n a t r i : pyval) (e : exn) :
  Hotel.new n a t r i = Raise e -> e = ValueError.
Proof.
  unfold Hotel.new, Hotel.__post_init__. intros H.
  apply bind_unit_raise in H. now apply Hotel_validate_raises in H.
Qed.

Lemma Customer_new_raises (n e i : pyval) (x : exn) :
  Customer.new n e i = Raise x -> x = ValueError.
Proof.
  unfold Customer.new, Customer.__post_init__. intros H.
  apply bind_unit_raise in H. now apply Customer_validate_raises in H.
Qed.

(** X22. The add-hotel command never lets an exception of the
    manager through: whatever is typed, it returns, or stops at the end
    of the input; with three lines to read it returns.  It leaves the
    manager as it was, or with one more valid hotel, stored under the
    fresh identifier with every room available; a manager a client
    could have reached stays one. *)
Theorem X22_hotel_add_catches_what_create_hotel_raises
  (hm : HotelManager.t) (stdin : list string) (nid : string) :
  let hm' := fst (fst (Cli.hotel_add hm stdin nid)) in
  let out := snd (Cli.hotel_add hm stdin nid) in
  (forall e, out <> Cli.Escaped e)
  /\ ((3 <= List.length stdin)%nat -> out = Cli.Returned)
  /\ (reachable hm -> reachable hm')
  /\ (hm' = hm
      \/ exists h,
           HotelManager.get_hotel hm' (PStr nid) = Some h
           /\ valid_hotel h
           /\ Hotel.hotel_id h = PStr nid
           /\ Hotel.rooms_available h = Hotel.total_rooms h).
Proof.
  unfold Cli.hotel_add, Cli.ask.
  destruct stdin as [|l1 stdin1]; cbn [fst snd].
  { repeat split; try discriminate; try tauto. cbn. lia. }
  destruct (String.eqb (strip l1) "") eqn:E1; cbn [fst snd].
  { rewrite ?E1. cbn [fst snd].
    repeat split; try discriminate; try tauto. }
  rewrite ?E1.
  destruct stdin1 as [|l2 stdin2]; cbn [fst snd].
  { repeat split; try discriminate; try tauto. cbn. lia. }
  destruct stdin2 as [|l3 stdin3]; cbn [fst snd].
  { repeat split; try discriminate; try tauto. cbn. lia. }
  set (name := strip l1).
  set (address := if String.eqb (strip l2) "" then "" else strip l2).
  set (rooms := if String.eqb (strip l3) "" then "" else strip l3).
  destruct (py_int (PStr rooms)) as [n|e] eqn:En; cbn [fst snd].
  2:{ assert (He : e = ValueError).
      { cbn in En. destruct (int_of_str rooms); congruence. }
      subst e. repeat split; try discriminate; try tauto. }
  pose proof (reach_step hm (OpCreate (PStr name) (PStr address) (PInt n) nid))
    as Hstep.
  cbn [step] in Hstep. unfold HotelManager.create_hotel in *.
  destruct (Hotel.new (PStr name) (PStr address) (PInt n) (PInt (-1))
                      (PStr nid)) as [h|e] eqn:Ecreate; cbn [fst snd] in *.
  - split; [discriminate|]. split; [reflexivity|]. split; [exact Hstep|].
    right. exists h.
    pose proof (Hotel_new_valid _ _ _ _ _ _ Ecreate) as Hv.
    pose proof (Hotel_new_id _ _ _ _ _ _ Ecreate) as Hid.
    split.
    { unfold HotelManager.get_hotel.
      cbn [HotelManager._save HotelManager._hotels].
      rewrite Hid. apply dict_get_set_same. }
    split; [exact Hv|]. split; [exact Hid|].
    unfold Hotel.new, Hotel.__post_init__ in Ecreate.
    cbn [Hotel.rooms_available Hotel.total_rooms Hotel.name Hotel.address
         Hotel.hotel_id] in Ecreate.
    change (pyval_eqb (PInt (-1)) (PInt (-1))) with true in Ecreate.
    cbv iota in Ecreate. apply bind_unit_ok in Ecreate as [_ <-].
    reflexivity.
  - rewrite (Hotel_new_raises _ _ _ _ _ _ Ecreate). cbn.
    repeat split; try discriminate; try tauto.
Qed.

(** X23. The add-customer command likewise returns, or stops at the
    end of the input, and with two lines to read it returns; it leaves
    the manager as it was, or with one more valid customer, stored
    under the fresh identifier; a reachable manager stays one. *)
Theorem X23_cust_add_catches_what_create_customer_raises
  (cm : CustomerManager.t) (stdin : list string) (nid : string) :
  let cm' := fst (fst (Cli.cust_add cm stdin nid)) in
  let out := snd (Cli.cust_add cm stdin nid) in
  (forall e, out <> Cli.Escaped e)
  /\ ((2 <= List.length stdin)%nat -> out = Cli.Returned)
  /\ (creachable cm -> creachable cm')
  /\ (cm' = cm
      \/ exists c,
           CustomerManager.get_customer cm' (PStr nid) = Some c
           /\ valid_customer c
           /\ Customer.customer_id c = PStr nid).
Proof.
  unfold Cli.cust_add, Cli.ask.
  destruct stdin as [|l1 stdin1]; cbn [fst snd].
  { repeat split; try discriminate; try tauto. cbn. lia. }
  destruct (String.eqb (strip l1) "") eqn:E1; cbn [fst snd].
  { rewrite ?E1. cbn [fst snd].
    repeat split; try discriminate; try tauto. }
  rewrite ?E1.
  destruct stdin1 as [|l2 stdin2]; cbn [fst snd].
  { repeat split; try discriminate; try tauto. cbn. lia. }
  set (name := strip l1).
  set (email := if String.eqb (strip l2) "" then "" else strip l2).
  pose proof (creach_step cm (CCreate (PStr name) (PStr email) nid)) as Hstep.
  cbn [cstep] in Hstep. unfold CustomerManager.create_customer in *.
  destruct (Customer.new (PStr name) (PStr email) (PStr nid)) as [c|e]
    eqn:Ecreate; cbn [fst snd] in *.
  - split; [discriminate|]. split; [reflexivity|]. split; [exact Hstep|].
    right. exists c.
    pose proof (Customer_new_valid _ _ _ _ Ecreate) as Hv.
    apply Customer_new_id in Ecreate. subst c.
    split.
    { unfold CustomerManager.get_customer.
      cbn [CustomerManager._save CustomerManager._customers
           Customer.customer_id].
      apply dict_get_set_same. }
    split; [exact Hv|reflexivity].
  - rewrite (Customer_new_raises _ _ _ _ Ecreate). cbn.
    repeat split; try discriminate; try tauto.
Qed.

Lemma py_sum_in_range (l : list Hotel.t) (x y : Z) :
  Forall in_range l -> 0 <= x <= y ->
  exists a t,
    fold_left (fun acc v => let? a := acc in py_plus a v)
              (map Hotel.rooms_available l) (Ok (PInt x)) = Ok (PInt a)
    /\ fold_left (fun acc v => let? a := acc in py_plus a v)
                 (map Hotel.total_rooms l) (Ok (PInt y)) = Ok (PInt t)
    /\ 0 <= a <= t.
Proof.
  revert x y. induction l as [|h l IH]; intros x y Hall Hxy.
  - exists x, y. now repeat split.
  - inversion Hall as [|? ? (ra & tr & Hra & Htr & Hb) Hall']; subst.
    cbn [map fold_left bind]. rewrite Hra, Htr. cbn [py_plus].
    apply IH; [assumption|lia].
Qed.

(** X24. The status line never shows more rooms free than rooms in
    all: for a hotel manager a client could have reached, the two sums
    [status] computes are integers with [0 <= free <= total], and the
    three counts are the sizes of the three collections. *)
Theorem X24_status_rooms_free_within_total
  (hm : HotelManager.t) (cm : CustomerManager.t) (rm : ReservationManager.t) :
  reachable hm ->
  exists free total,
    Cli.status hm cm rm
    = Ok (PInt free, PInt total,
          List.length (HotelManager._hotels hm),
          List.length (CustomerManager._customers cm),
          List.length (ReservationManager._reservations rm))
    /\ 0 <= free <= total.
Proof.
  intros Hr. destruct (reachable_inv hm Hr) as [Hwf _].
  assert (Hall : Forall in_range (HotelManager.list_hotels hm)).
  { apply Forall_forall. intros h Hin.
    unfold HotelManager.list_hotels, dict_values in Hin.
    apply in_map_iff in Hin as [[k h'] [<- Hin]].
    exact (hm_wf_in_range hm Hwf k h' Hin). }
  destruct (py_sum_in_range _ 0 0 Hall ltac:(lia)) as (a & t & Ha & Ht & Hb).
  exists a, t. split; [|exact Hb].
  unfold Cli.status, py_sum. rewrite Ha, Ht. cbn [bind].
  unfold HotelManager.list_hotels, CustomerManager.list_customers,
    ReservationManager.list_reservations, dict_values.
  now rewrite !length_map.
Qed.

(** X25. The sample data [generate] writes is accepted whole: the
    three managers constructed on the three files hold 3 hotels, 3
    customers and 2 reservations, so no record is skipped; every
    reservation names a customer and a hotel that are there.  For
    hotels h001 and h002 the rooms free and the reservations add up to
    the size of the hotel; for h003 they do not (15 free, none booked,
    20 in all). *)
Theorem X25_sample_data_loads_whole :
  exists hm cm rm,
    HotelManager.__init__ (fst (fst SampleData.generate)) = Ok hm
    /\ CustomerManager.__init__ (snd (fst SampleData.generate)) = Ok cm
    /\ ReservationManager.__init__ (snd SampleData.generate) (Some hm) (Some cm)
       = Ok rm
    /\ List.length (HotelManager.list_hotels hm) = 3%nat
    /\ List.length (CustomerManager.list_customers cm) = 3%nat
    /\ List.length (ReservationManager.list_reservations rm) = 2%nat
    /\ Forall (fun r =>
                 CustomerManager.get_customer cm (Reservation.customer_id r)
                 <> None
                 /\ HotelManager.get_hotel hm (Reservation.hotel_id r) <> None)
              (ReservationManager.list_reservations rm)
    /\ balanced rm (PStr "h001")
    /\ balanced rm (PStr "h002")
    /\ ~ balanced rm (PStr "h003").
Proof.
  eexists. eexists. eexists.
  split; [vm_compute; reflexivity|].
  split; [vm_compute; reflexivity|].
  split; [vm_compute; reflexivity|].
  split; [reflexivity|]. split; [reflexivity|]. split; [reflexivity|].
  split.
  { repeat constructor; cbn; discriminate. }
  split.
  { eexists. eexists. exists 48, 50. now repeat split. }
  split.
  { eexists. eexists. exists 30, 30. now repeat split. }
  intros (hm & h & a & t & Hhm & Hg & Ha & Ht & Hbal).
  injection Hhm as <-. vm_compute in Hg. injection Hg as <-.
  cbn in Ha, Ht. injection Ha as <-. injection Ht as <-.
  vm_compute in Hbal. discriminate.
Qed.

(* ================================================================== *)
(** ** The theorems at concrete managers                               *)
(* ================================================================== *)

Ltac concrete_wf :=
  split;
  [ repeat constructor; simpl; intuition discriminate
  | repeat constructor ].

Lemma full_again_hotels_reachable : reachable full_again_hotels.
Proof.
  change full_again_hotels
    with (step (HotelManager.mk Missing [])
               (OpCreate (PStr "H") (PStr "A") (PInt 1) "h1")).
  apply reach_step. apply (reach_init Missing). reflexivity.
Defined.

Lemma full_again_hotels_wf : hm_wf full_again_hotels.
Proof. concrete_wf. Defined.

Lemma C1_inventory_of_create_and_cancel_witness :
  available full_again_hotels (PStr "h1") = Some (PInt 1)
  /\ (exists rm1 hm1,
        ReservationManager.create_reservation coordinator_h1
          (PStr "c1") (PStr "h1") (PStr "2026-07-01") (PStr "2026-07-05") "r1"
        = (rm1,
           Ok (Some (Reservation.mk (PStr "c1") (PStr "h1") (PStr "2026-07-01")
                                    (PStr "2026-07-05") (PStr "r1"))))
        /\ ReservationManager.hotel_manager rm1 = Some hm1
        /\ available hm1 (PStr "h1") = Some (PInt 0)
        /\ ReservationManager.get_reservation rm1 (PStr "r1")
           = Some (Reservation.mk (PStr "c1") (PStr "h1") (PStr "2026-07-01")
                                  (PStr "2026-07-05") (PStr "r1"))
        /\ exists rm2 hm2,
             ReservationManager.cancel_reservation rm1 (PStr "r1")
             = (rm2, Ok true)
             /\ ReservationManager.hotel_manager rm2 = Some hm2
             /\ available hm2 (PStr "h1") = Some (PInt 1)
             /\ ReservationManager.get_reservation rm2 (PStr "r1") = None).
Proof.
  split; [reflexivity|].
  pose (r := Reservation.mk (PStr "c1") (PStr "h1") (PStr "2026-07-01")
                            (PStr "2026-07-05") (PStr "r1")).
  pose (rm1 := fst (ReservationManager.create_reservation coordinator_h1
                      (PStr "c1") (PStr "h1") (PStr "2026-07-01")
                      (PStr "2026-07-05") "r1")).
  pose (hm1 := fst (HotelManager.reserve_room full_again_hotels (PStr "h1"))).
  assert (Hcr : ReservationManager.create_reservation coordinator_h1
                  (PStr "c1") (PStr "h1") (PStr "2026-07-01")
                  (PStr "2026-07-05") "r1" = (rm1, Ok (Some r)))
    by reflexivity.
  assert (Hwf1 : hm_wf hm1) by concrete_wf.
  (* the create half, at the manager with one free room *)
  destruct (proj1 (C1_inventory_of_create_and_cancel coordinator_h1
                     full_again_hotels eq_refl full_again_hotels_wf)
              (PStr "c1") (PStr "h1") (PStr "2026-07-01") (PStr "2026-07-05")
              "r1" rm1 r Hcr)
    as (a & hm1' & Ha & Hhm1 & Hlow & rm2 & hm2 & Hcancel & Hhm2 & Hback).
  assert (Ea : 1 = a) by (vm_compute in Ha; now injection Ha).
  subst a.
  (* the cancel half, at the manager the create left *)
  destruct (proj2 (C1_inventory_of_create_and_cancel rm1 hm1 eq_refl Hwf1)
              (PStr "r1") r eq_refl)
    as (rm2' & hm2' & Hcancel' & Hhm2' & Hm).
  change (Reservation.reservation_id r) with (PStr "r1") in Hcancel.
  assert (E2 : rm2' = rm2) by congruence. subst rm2'.
  assert (E3 : hm2' = hm2) by congruence. subst hm2'.
  exists rm1, hm1'. split; [exact Hcr|]. split; [exact Hhm1|].
  split; [exact Hlow|]. split; [reflexivity|].
  exists rm2, hm2. split; [exact Hcancel|]. split; [exact Hhm2|].
  split.
  { change (HotelManager.get_hotel hm1 (Reservation.hotel_id r))
      with (Some (Hotel.mk (PStr "H") (PStr "A") (PInt 1) (PInt 0)
                           (PStr "h1"))) in Hm.
    destruct Hm as (a0 & tr & Ha0 & Htr & Hav).
    cbn [Hotel.rooms_available Hotel.total_rooms] in Ha0, Htr.
    injection Ha0 as <-. injection Htr as <-. exact Hav. }
  assert (Erm2 : rm2 = fst (ReservationManager.cancel_reservation
                             rm1 (PStr "r1"))) by (now rewrite Hcancel).
  rewrite Erm2. reflexivity.
Defined.

Lemma C2_invalid_dates_release_the_room_witness :
  bad_dates (PStr "2026-07-05") (PStr "2026-07-01")
  /\ exists rm' hm',
       ReservationManager.create_reservation coordinator_h1
         (PStr "c1") (PStr "h1") (PStr "2026-07-05") (PStr "2026-07-01") "r1"
       = (rm', Ok None)
       /\ ReservationManager._reservations rm'
          = ReservationManager._reservations coordinator_h1
       /\ ReservationManager.store rm' = ReservationManager.store coordinator_h1
       /\ ReservationManager.hotel_manager rm' = Some hm'
       /\ HotelManager._hotels hm' = HotelManager._hotels full_again_hotels
       /\ available hm' (PStr "h1") = Some (PInt 1)
       /\ (ReservationManager.customer_known coordinator_h1 (PStr "c1") = true ->
           available (fst (HotelManager.reserve_room full_again_hotels
                             (PStr "h1"))) (PStr "h1")
           = Some (PInt (1 - 1))).
Proof.
  split; [reflexivity|].
  apply (C2_invalid_dates_release_the_room coordinator_h1 full_again_hotels
           hotel_h1 (PStr "c1") (PStr "h1") (PStr "2026-07-05")
           (PStr "2026-07-01") "r1" 1).
  - reflexivity.
  - reflexivity.
  - reflexivity.
  - reflexivity.
  - lia.
  - reflexivity.
Defined.

Lemma C3_rooms_available_within_bounds_witness :
  reachable full_again_hotels
  /\ hotels_in_range (step full_again_hotels (OpReserve (PStr "h1"))).
Proof.
  split; [exact full_again_hotels_reachable|].
  apply C3_rooms_available_within_bounds. exact full_again_hotels_reachable.
Defined.

Lemma C4_create_hotel_invalid_raises_and_keeps_state_witness :
  invalid_hotel_args (PStr "") (PStr "A") (PInt 5)
  /\ HotelManager.create_hotel full_again_hotels (PStr "") (PStr "A") (PInt 5)
       "h2"
     = (full_again_hotels, Raise ValueError).
Proof.
  assert (H : invalid_hotel_args (PStr "") (PStr "A") (PInt 5)).
  { left. reflexivity. }
  split; [exact H|].
  exact (C4_create_hotel_invalid_raises_and_keeps_state full_again_hotels
           (PStr "") (PStr "A") (PInt 5) "h2" H).
Defined.

Lemma C5_reserve_and_release_at_the_bounds_witness :
  let sold_out := fst (HotelManager.reserve_room full_again_hotels (PStr "h1")) in
  HotelManager.reserve_room sold_out (PStr "h1") = (sold_out, Ok false)
  /\ HotelManager.cancel_room full_again_hotels (PStr "h1")
     = (full_again_hotels, Ok false).
Proof.
  intros sold_out. split.
  - apply (proj1 (C5_reserve_and_release_at_the_bounds sold_out (PStr "h1")
                    (HotelManager.with_rooms_available hotel_h1 (PInt 0))
                    eq_refl)).
    reflexivity.
  - apply (proj2 (C5_reserve_and_release_at_the_bounds full_again_hotels
                    (PStr "h1") hotel_h1 eq_refl) 1); reflexivity.
Defined.

Lemma C6_invalid_modify_leaves_state_witness :
  reachable full_again_hotels
  /\ HotelManager.modify_hotel full_again_hotels (PStr "h1")
       [("total_rooms", PInt 0)]
     = (full_again_hotels, Ok None).
Proof.
  split; [exact full_again_hotels_reachable|].
  apply (C6_invalid_modify_leaves_state full_again_hotels (PStr "h1")
           [("total_rooms", PInt 0)] hotel_h1).
  - exact full_again_hotels_reachable.
  - reflexivity.
  - discriminate.
Defined.

Lemma C8_save_then_load_is_identity_witness :
  (exists hm',
      HotelManager.__init__
        (HotelManager.store (HotelManager._save full_again_hotels)) = Ok hm'
      /\ HotelManager.list_hotels hm' = [hotel_h1])
  /\ (exists cm',
         CustomerManager.__init__
           (CustomerManager.store (CustomerManager._save one_customer))
         = Ok cm'
         /\ CustomerManager.list_customers cm'
            = [Customer.mk (PStr "Alice") (PStr "a@b.com") (PStr "c1")])
  /\ (exists rm',
         ReservationManager.__init__
           (ReservationManager.store
              (ReservationManager._save full_again_reserved))
           (ReservationManager.hotel_manager full_again_reserved)
           (ReservationManager.customer_manager full_again_reserved)
         = Ok rm'
         /\ ReservationManager.list_reservations rm'
            = [Reservation.mk (PStr "c1") (PStr "h1") (PStr "2026-07-01")
                              (PStr "2026-07-05") (PStr "r1")]).
Proof.
  destruct (C8_save_then_load_is_identity full_again_hotels one_customer
              full_again_reserved)
    as ((hm' & Hh & Hlh & _) & (cm' & Hc & Hlc & _) & (rm' & Hr & Hlr & _)).
  - concrete_wf.
  - concrete_wf.
  - concrete_wf.
  - split; [|split].
    + exists hm'. split; [exact Hh|exact Hlh].
    + exists cm'. split; [exact Hc|exact Hlc].
    + exists rm'. split; [exact Hr|exact Hlr].
Defined.

Lemma C10_minus_one_means_unset_witness :
  let data := [("hotel_id", PStr "h9"); ("name", PStr "H"); ("address", PStr "A");
               ("total_rooms", PInt 5); ("rooms_available", PInt (-1))] in
  let full := Hotel.mk (PStr "H") (PStr "A") (PInt 5) (PInt 5) (PStr "h9") in
  Hotel.new (PStr "H") (PStr "A") (PInt 5) (PInt (-1)) (PStr "h9") = Ok full
  /\ Hotel.from_dict (JObject data) = Ok full
  /\ load_records Hotel.from_dict Hotel.hotel_id [JObject data] []
     = ([(PStr "h9", full)], Ok tt)
  /\ Hotel.new (PStr "H") (PStr "A") (PInt 5) (PInt (-2)) (PStr "h9")
     = Raise ValueError.
Proof.
  intros data full.
  assert (Hlow : -2 < -1) by lia.
  assert (Hpos : 0 < 5) by lia.
  destruct (C10_minus_one_means_unset (PStr "H") (PStr "A") (PStr "h9") 5 (-2)
              data [] [] eq_refl eq_refl Hpos Hlow
              eq_refl eq_refl eq_refl eq_refl eq_refl)
    as (Hnew & Hfrom & Hload & Hneg).
  split; [exact Hnew|]. split; [exact Hfrom|]. split; [exact Hload|].
  apply Hneg.
Defined.

Lemma one_customer_creachable : creachable one_customer.
Proof.
  change one_customer
    with (cstep (CustomerManager.mk Missing [])
                (CCreate (PStr "Alice") (PStr "a@b.com") "c1")).
  apply creach_step. apply (creach_init Missing). reflexivity.
Defined.

Lemma coordinator_h1_rreachable : rreachable coordinator_h1.
Proof.
  apply (rreach_init Missing (Some full_again_hotels) (Some one_customer)).
  - intros m [= <-]. exact full_again_hotels_reachable.
  - intros m [= <-]. exact one_customer_creachable.
  - reflexivity.
Defined.

Lemma coordinator_h1_attached_wf : attached_wf coordinator_h1.
Proof. intros m [= <-]. exact full_again_hotels_wf. Defined.

Lemma full_again_reserved_rreachable : rreachable full_again_reserved.
Proof.
  change full_again_reserved
    with (rstep (ReservationManager.mk Missing [] (Some full_again_hotels) None)
                (RCreate (PStr "c1") (PStr "h1") (PStr "2026-07-01")
                         (PStr "2026-07-05") "r1")).
  apply rreach_step.
  apply (rreach_init Missing (Some full_again_hotels) None).
  - intros m [= <-]. exact full_again_hotels_reachable.
  - discriminate.
  - reflexivity.
Defined.

Lemma X1_create_hotel_registers_a_full_hotel_witness :
  exists m',
    HotelManager.create_hotel full_again_hotels (PStr "Inn") (PStr "B")
                              (PInt 3) "h2"
    = (m', Ok (Hotel.mk (PStr "Inn") (PStr "B") (PInt 3) (PInt 3) (PStr "h2")))
    /\ HotelManager.get_hotel m' (PStr "h2")
       = Some (Hotel.mk (PStr "Inn") (PStr "B") (PInt 3) (PInt 3) (PStr "h2")).
Proof.
  assert (Hpos : 0 < 3) by lia.
  destruct (X1_create_hotel_registers_a_full_hotel full_again_hotels
              (PStr "Inn") (PStr "B") 3 "h2" eq_refl eq_refl Hpos)
    as (m' & H1 & H2 & _).
  exists m'. split; [exact H1|exact H2].
Defined.

Lemma X2_delete_hotel_removes_that_hotel_only_witness :
  reachable full_again_hotels
  /\ HotelManager.get_hotel
       (fst (HotelManager.delete_hotel full_again_hotels (PStr "h1")))
       (PStr "h1") = None.
Proof.
  split; [exact full_again_hotels_reachable|].
  exact (proj1 (proj2 (X2_delete_hotel_removes_that_hotel_only
                         full_again_hotels (PStr "h1")
                         full_again_hotels_reachable))).
Defined.

Lemma X3_modify_hotel_ignores_unknown_fields_witness :
  HotelManager.call_modify_hotel full_again_hotels (PStr "h1")
    [("stars", PInt 5); ("city", PStr "Lima")]
  = (HotelManager._save full_again_hotels, Ok (Some hotel_h1)).
Proof.
  exact (proj1 (X3_modify_hotel_ignores_unknown_fields full_again_hotels
                  (PStr "h1") hotel_h1
                  [("stars", PInt 5); ("city", PStr "Lima")]
                  full_again_hotels_reachable eq_refl eq_refl eq_refl)).
Defined.

Lemma X4_modify_hotel_keeps_identity_witness :
  Hotel.hotel_id (Hotel.mk (PStr "New") (PStr "A") (PInt 1) (PInt 1) (PStr "h1"))
  = PStr "h1"
  /\ valid_hotel (Hotel.mk (PStr "New") (PStr "A") (PInt 1) (PInt 1)
                           (PStr "h1")).
Proof.
  destruct (X4_modify_hotel_keeps_identity full_again_hotels
              (fst (HotelManager.modify_hotel full_again_hotels (PStr "h1")
                      [("name", PStr "New")]))
              (PStr "h1") [("name", PStr "New")]
              (Hotel.mk (PStr "New") (PStr "A") (PInt 1) (PInt 1) (PStr "h1"))
              full_again_hotels_reachable eq_refl)
    as (H1 & H2 & _).
  split; [exact H1|exact H2].
Defined.

Lemma X5_hotel_calls_leave_other_hotels_alone_witness :
  HotelManager.get_hotel (step full_again_hotels (OpDelete (PStr "h1")))
                         (PStr "h7")
  = HotelManager.get_hotel full_again_hotels (PStr "h7").
Proof.
  apply X5_hotel_calls_leave_other_hotels_alone.
  - exact full_again_hotels_reachable.
  - discriminate.
Defined.

Lemma X6_reserve_room_succeeds_exactly_while_rooms_last_witness :
  snd (reserve_many full_again_hotels (PStr "h1") 2) = (Z.of_nat 2 <=? 1)
  /\ available (fst (reserve_many full_again_hotels (PStr "h1") 2)) (PStr "h1")
     = Some (PInt (Z.max 0 (1 - Z.of_nat 2))).
Proof.
  exact (X6_reserve_room_succeeds_exactly_while_rooms_last 2
           full_again_hotels (PStr "h1") hotel_h1 1 eq_refl eq_refl eq_refl).
Defined.

Lemma X7_reserve_and_cancel_undo_each_other_witness :
  exists m1,
    HotelManager.reserve_room full_again_hotels (PStr "h1") = (m1, Ok true)
    /\ HotelManager.cancel_room m1 (PStr "h1")
       = (HotelManager._save full_again_hotels, Ok true).
Proof.
  assert (Hb : 0 <= 1 <= 1) by lia.
  assert (H1 : 1 <= 1) by lia.
  exact (proj1 (X7_reserve_and_cancel_undo_each_other full_again_hotels
                  (PStr "h1") hotel_h1 1 1 eq_refl eq_refl eq_refl Hb) H1).
Defined.

Lemma X8_hotel_file_always_reloads_to_memory_witness :
  HotelManager.__init__ (HotelManager.store full_again_hotels)
  = Ok full_again_hotels.
Proof.
  exact (X8_hotel_file_always_reloads_to_memory full_again_hotels
           full_again_hotels_reachable).
Defined.

Lemma X9_files_of_objects_always_load_witness :
  exists cm,
    CustomerManager.__init__
      (JsonList [JObject [("customer_id", PInt 7); ("name", PNone)];
                 JObject []]) = Ok cm.
Proof.
  refine (proj1 (X9_files_of_objects_always_load
                   [JObject [("customer_id", PInt 7); ("name", PNone)];
                    JObject []] _)).
  intros j [<-|[<-|[]]]; eexists; reflexivity.
Defined.

Lemma X13_customers_stay_valid_witness :
  NoDup (dict_keys (CustomerManager._customers one_customer)).
Proof.
  exact (proj1 (X13_customers_stay_valid one_customer one_customer_creachable)).
Defined.

Lemma X14_modify_customer_rolls_back_or_keeps_identity_witness :
  CustomerManager.modify_customer one_customer (PStr "c1")
    [("email", PStr "no-at")]
  = (one_customer, Ok None).
Proof.
  exact (X14_modify_customer_rolls_back_or_keeps_identity one_customer
           (PStr "c1") [("email", PStr "no-at")]
           (Customer.mk (PStr "Alice") (PStr "a@b.com") (PStr "c1"))
           one_customer_creachable eq_refl).
Defined.

Lemma X15_stored_reservations_stay_valid_witness :
  NoDup (dict_keys (ReservationManager._reservations full_again_reserved)).
Proof.
  exact (proj1 (X15_stored_reservations_stay_valid full_again_reserved
                  full_again_reserved_rreachable)).
Defined.

Lemma X16_customer_and_reservation_files_reload_to_memory_witness :
  CustomerManager.__init__ (CustomerManager.store one_customer)
  = Ok one_customer
  /\ ReservationManager.__init__
       (ReservationManager.store full_again_reserved)
       (ReservationManager.hotel_manager full_again_reserved)
       (ReservationManager.customer_manager full_again_reserved)
     = Ok full_again_reserved.
Proof.
  exact (X16_customer_and_reservation_files_reload_to_memory one_customer
           full_again_reserved one_customer_creachable
           full_again_reserved_rreachable).
Defined.

Lemma X17_failed_create_reservation_leaves_no_trace_witness :
  exists rm' o,
    ReservationManager.create_reservation coordinator_h1 (PStr "nobody")
      (PStr "h1") (PStr "2026-07-01") (PStr "2026-07-05") "r1" = (rm', Ok o)
    /\ (o = None ->
        ReservationManager._reservations rm'
        = ReservationManager._reservations coordinator_h1
        /\ ReservationManager.store rm' = ReservationManager.store coordinator_h1
        /\ ReservationManager.customer_manager rm'
           = ReservationManager.customer_manager coordinator_h1
        /\ option_map HotelManager._hotels (ReservationManager.hotel_manager rm')
           = option_map HotelManager._hotels
                        (ReservationManager.hotel_manager coordinator_h1)).
Proof.
  exact (X17_failed_create_reservation_leaves_no_trace coordinator_h1
           (PStr "nobody") (PStr "h1") (PStr "2026-07-01") (PStr "2026-07-05")
           "r1" coordinator_h1_attached_wf).
Defined.

Lemma X18_create_reservation_succeeds_exactly_when_witness :
  exists rm',
    ReservationManager.create_reservation coordinator_h1 (PStr "c1")
      (PStr "h1") (PStr "2026-07-01") (PStr "2026-07-05") "r1"
    = (rm', Ok (Some (Reservation.mk (PStr "c1") (PStr "h1")
                        (PStr "2026-07-01") (PStr "2026-07-05") (PStr "r1")))).
Proof.
  apply (proj2 (proj1 (X18_create_reservation_succeeds_exactly_when
                         coordinator_h1 (PStr "c1") (PStr "h1")
                         (PStr "2026-07-01") (PStr "2026-07-05") "r1"
                         (Reservation.mk (PStr "c1") (PStr "h1")
                            (PStr "2026-07-01") (PStr "2026-07-05")
                            (PStr "r1"))
                         coordinator_h1_attached_wf))).
  split; [reflexivity|]. split; [reflexivity|].
  intros hm H. injection H as <-. exists 1. split; [reflexivity|lia].
Defined.

Lemma X19_a_reservation_is_cancelled_once_witness :
  ReservationManager.cancel_reservation coordinator_h1 (PStr "r9")
  = (coordinator_h1, Ok false).
Proof.
  refine (X19_a_reservation_is_cancelled_once coordinator_h1 (PStr "r9")
            coordinator_h1_attached_wf _).
  constructor.
Defined.

Lemma coordinator_h1_balanced : balanced coordinator_h1 (PStr "h1").
Proof.
  exists full_again_hotels, hotel_h1, 1, 1. repeat split.
Defined.

Lemma X20_rooms_free_plus_booked_is_kept_witness :
  balanced (fst (ReservationManager.create_reservation coordinator_h1
                   (PStr "c1") (PStr "h1") (PStr "2026-07-01")
                   (PStr "2026-07-05") "r1"))
           (PStr "h1").
Proof.
  refine (proj1 (proj1 (X20_rooms_free_plus_booked_is_kept coordinator_h1
                          (PStr "h1") coordinator_h1_attached_wf
                          coordinator_h1_balanced)
                   (PStr "c1") (PStr "h1") (PStr "2026-07-01")
                   (PStr "2026-07-05") "r1" _)).
  reflexivity.
Defined.

Lemma X24_status_rooms_free_within_total_witness :
  exists free total,
    Cli.status full_again_hotels one_customer coordinator_h1
    = Ok (PInt free, PInt total,
          List.length (HotelManager._hotels full_again_hotels),
          List.length (CustomerManager._customers one_customer),
          List.length (ReservationManager._reservations coordinator_h1))
    /\ 0 <= free <= total.
Proof.
  exact (X24_status_rooms_free_within_total full_again_hotels one_customer
           coordinator_h1 full_again_hotels_reachable).
Defined.
